(** * Session lifecycle and scoring engine of the character-match backend

    A shallow embedding of [src/api/main.py]: the in-memory stores, the
    session lookup with its expiry check, answer submission, the scoring
    function, match computation, selfie upload, portrait generation and
    result retrieval, followed by the properties of the specification
    that concern them.

    Modelling choices.
    - A Python [dict] is insertion ordered; it is an association list with
      unique keys.  Assignment to an existing key keeps its position, a new
      key goes to the end.
    - A Python [float] is an IEEE 754 binary64 number: the primitive type
      [float] with [PrimFloat.add] and [PrimFloat.ltb].
    - A handler runs in a monad of state and exceptions in which the state
      reached when an exception is raised is kept, as in Python.  An
      [HTTPException] is told apart from an exception of Python itself,
      of which the handlers have one: the [OverflowError] of the
      arithmetic on dates.
    - The clock ([datetime.utcnow()]) and [uuid.uuid4()] are inputs of the
      handlers.  A [datetime] is its number of microseconds since
      [datetime.min]; the ISO string the code stores is parsed back to the
      same instant.
    - The two storage directories are maps from file name to content. *)

From Stdlib Require Import List String Ascii ZArith Bool Lia Floats.
From Stdlib Require Import Sorted Permutation.
Import ListNotations.

Set Warnings "-inexact-float".

Local Open Scope string_scope.
Local Open Scope Z_scope.

(** ** Python dictionaries *)

Definition dict (V : Type) : Type := list (string * V).

Fixpoint dict_get {V} (k : string) (d : dict V) : option V :=
  match d with
  | [] => None
  | (k', v) :: d' => if String.eqb k k' then Some v else dict_get k d'
  end.

(** [d[k] = v] *)
Fixpoint dict_set {V} (k : string) (v : V) (d : dict V) : dict V :=
  match d with
  | [] => [(k, v)]
  | (k', v') :: d' =>
      if String.eqb k k' then (k', v) :: d' else (k', v') :: dict_set k v d'
  end.

(** [del d[k]] *)
Fixpoint dict_del {V} (k : string) (d : dict V) : dict V :=
  match d with
  | [] => []
  | (k', v') :: d' =>
      if String.eqb k k' then d' else (k', v') :: dict_del k d'
  end.

Definition dict_keys {V} (d : dict V) : list string := map fst d.

(** [k in d] *)
Definition dict_mem {V} (k : string) (d : dict V) : bool :=
  match dict_get k d with Some _ => true | None => false end.

Fixpoint nodupb (l : list string) : bool :=
  match l with
  | [] => true
  | k :: l' => negb (existsb (String.eqb k) l') && nodupb l'
  end.

(** A genuine dictionary has no repeated key. *)
Definition dict_wf {V} (d : dict V) : bool := nodupb (dict_keys d).

(** ** Pydantic models *)

Record Choice := mkChoice {
  ch_id : string;
  ch_text : string;
  ch_weights : dict float
}.

Record Question := mkQuestion {
  q_id : string;
  q_text : string;
  q_choices : list Choice;
  q_order : Z
}.

Record Character := mkCharacter {
  c_id : string;
  c_name : string;
  c_description : string;
  c_image_url : option string;
  c_traits : dict float
}.

Record Quiz := mkQuiz {
  qz_id : string;
  qz_title : string;
  qz_description : option string;
  qz_question_ids : list string;
  qz_created_at : Z;
  qz_updated_at : Z
}.

Record SubmitAnswerRequest := mkSubmitAnswerRequest {
  session_id : string;
  quiz_id : string;
  question_id : string;
  choice_id : string
}.

Record ScoreResult := mkScoreResult {
  character_id : string;
  score : float
}.

Record MatchResult := mkMatchResult {
  m_session_id : string;
  m_quiz_id : string;
  top_match : option ScoreResult;
  scores : list ScoreResult;
  character : option Character;
  portrait_url : option string;
  m_created_at : Z
}.

Record SessionCreateResponse := mkSessionCreateResponse {
  scr_session_id : string;
  scr_expires_at : Z
}.

(** ** The in-memory stores *)

(** An entry of [SESSION_STORE]. *)
Record Session := mkSession {
  s_id : string;
  s_created_at : Z;
  s_expires_at : Z;
  answers : dict string;      (* question_id -> choice_id *)
  uploads : list string;      (* uploaded file paths *)
  s_quiz_id : option string;
  scored : bool
}.

(** An entry of [RESULT_STORE]: a dictionary with the optional keys
    ["match"] and ["portrait_url"]. *)
Record ResultEntry := mkResultEntry {
  re_match : option MatchResult;
  re_portrait_url : option string
}.

Definition empty_entry : ResultEntry := mkResultEntry None None.

Record Store := mkStore {
  QUIZ_STORE : dict Quiz;
  QUESTION_STORE : dict Question;
  CHARACTER_STORE : dict Character;
  SESSION_STORE : dict Session;
  RESULT_STORE : dict ResultEntry;
  UPLOADS_DIR : dict string;   (* file name -> bytes *)
  RESULTS_DIR : dict string
}.

Definition set_SESSION_STORE (f : dict Session -> dict Session) (st : Store) : Store :=
  mkStore (QUIZ_STORE st) (QUESTION_STORE st) (CHARACTER_STORE st)
          (f (SESSION_STORE st)) (RESULT_STORE st) (UPLOADS_DIR st) (RESULTS_DIR st).

Definition set_RESULT_STORE (f : dict ResultEntry -> dict ResultEntry) (st : Store) : Store :=
  mkStore (QUIZ_STORE st) (QUESTION_STORE st) (CHARACTER_STORE st)
          (SESSION_STORE st) (f (RESULT_STORE st)) (UPLOADS_DIR st) (RESULTS_DIR st).

Definition set_UPLOADS_DIR (f : dict string -> dict string) (st : Store) : Store :=
  mkStore (QUIZ_STORE st) (QUESTION_STORE st) (CHARACTER_STORE st)
          (SESSION_STORE st) (RESULT_STORE st) (f (UPLOADS_DIR st)) (RESULTS_DIR st).

Definition set_RESULTS_DIR (f : dict string -> dict string) (st : Store) : Store :=
  mkStore (QUIZ_STORE st) (QUESTION_STORE st) (CHARACTER_STORE st)
          (SESSION_STORE st) (RESULT_STORE st) (UPLOADS_DIR st) (f (RESULTS_DIR st)).

(** ** Handlers: state and exceptions *)

Record HTTPException := mkHTTPException {
  status_code : Z;
  detail : string
}.

(** The exceptions of Python itself that a handler lets through. *)
Inductive BuiltinException : Type :=
| OverflowError.

Inductive outcome (A : Type) : Type :=
| Return (a : A)
| Raise (e : HTTPException)
| Uncaught (x : BuiltinException).
Arguments Return {A} a.
Arguments Raise {A} e.
Arguments Uncaught {A} x.

(** A computation maps the stores to an outcome and the stores it leaves
    behind; an exception does not undo the writes made before it. *)
Definition M (A : Type) : Type := Store -> outcome A * Store.

Definition ret {A} (a : A) : M A := fun st => (Return a, st).

Definition raise {A} (code : Z) (msg : string) : M A :=
  fun st => (Raise (mkHTTPException code msg), st).

Definition throw {A} (x : BuiltinException) : M A :=
  fun st => (Uncaught x, st).

Definition bind {A B} (c : M A) (k : A -> M B) : M B :=
  fun st =>
    match c st with
    | (Return a, st') => k a st'
    | (Raise e, st') => (Raise e, st')
    | (Uncaught x, st') => (Uncaught x, st')
    end.

Definition gets {A} (f : Store -> A) : M A := fun st => (Return (f st), st).

Definition modify (f : Store -> Store) : M unit := fun st => (Return tt, f st).

Declare Scope handler_scope.
Delimit Scope handler_scope with handler.
Notation "x <- c ;; k" := (bind c (fun x => k))
  (at level 61, c at next level, right associativity) : handler_scope.
Notation "c ;;; k" := (bind c (fun _ => k))
  (at level 61, right associativity) : handler_scope.
Local Open Scope handler_scope.

(** The session dictionaries are shared with [SESSION_STORE]: a write
    through a looked-up session is a write to the entry of the store. *)
Definition update_session (sid : string) (f : Session -> Session) : M unit :=
  modify (set_SESSION_STORE (fun ss =>
    match dict_get sid ss with
    | Some s => dict_set sid (f s) ss
    | None => ss
    end)).

Definition set_answer (qid cid : string) (s : Session) : Session :=
  mkSession (s_id s) (s_created_at s) (s_expires_at s)
            (dict_set qid cid (answers s)) (uploads s) (s_quiz_id s) (scored s).

Definition set_quiz_id (qz : option string) (s : Session) : Session :=
  mkSession (s_id s) (s_created_at s) (s_expires_at s)
            (answers s) (uploads s) qz (scored s).

Definition set_scored (b : bool) (s : Session) : Session :=
  mkSession (s_id s) (s_created_at s) (s_expires_at s)
            (answers s) (uploads s) (s_quiz_id s) b.

Definition append_upload (p : string) (s : Session) : Session :=
  mkSession (s_id s) (s_created_at s) (s_expires_at s)
            (answers s) (uploads s ++ [p]) (s_quiz_id s) (scored s).

(** Truth value of an [Optional[str]]: [None] and [""] are false. *)
Definition truthy (o : option string) : bool :=
  match o with
  | Some s => negb (String.eqb s "")
  | None => false
  end.

(** ** Lookup helpers *)

Definition _get_quiz_or_404 (quiz_id : string) : M Quiz :=
  quiz <- gets (fun st => dict_get quiz_id (QUIZ_STORE st)) ;;
  match quiz with
  | None => raise 404 "Quiz not found"
  | Some quiz => ret quiz
  end.

Definition _get_question_or_404 (question_id : string) : M Question :=
  question <- gets (fun st => dict_get question_id (QUESTION_STORE st)) ;;
  match question with
  | None => raise 404 "Question not found"
  | Some question => ret question
  end.

Definition _get_character_or_404 (character_id : string) : M Character :=
  character <- gets (fun st => dict_get character_id (CHARACTER_STORE st)) ;;
  match character with
  | None => raise 404 "Character not found"
  | Some character => ret character
  end.

(** [now] is the value of [datetime.utcnow()] read by the expiry check. *)
Definition _get_session_or_404 (now : Z) (session_id : string) : M Session :=
  session <- gets (fun st => dict_get session_id (SESSION_STORE st)) ;;
  match session with
  | None => raise 404 "Session not found"
  | Some session =>
      if now >? s_expires_at session
      then raise 410 "Session expired"
      else ret session
  end.

(** The values kept in the stores are dumps of models and sessions with
    all their fields, so the tests [if not quiz], [if not question],
    [if not character] and [if not session] of the helpers hold exactly
    when the key is absent. *)

(** ** Sessions and answers *)

Definition minute : Z := 60000000.

Definition day : Z := 1440 * minute.

(** [datetime.max], 9999-12-31T23:59:59.999999: the 3652059 days from
    [datetime.min] on, less one microsecond. *)
Definition datetime_max : Z := 3652059 * day - 1.

(** The instants a [datetime] can hold. *)
Definition representable (t : Z) : bool := (0 <=? t) && (t <=? datetime_max).

(** [timedelta(minutes=m)], in microseconds: a [timedelta] has at most
    999999999 days either way, and [OverflowError] is raised beyond. *)
Definition timedelta_minutes (m : Z) : option Z :=
  let d := m * minute in
  if Z.abs (d / day) >? 999999999 then None else Some d.

(** [t + d] for a [datetime] and a [timedelta]: [OverflowError] is raised
    when the sum is not a [datetime]. *)
Definition datetime_add (t d : Z) : option Z :=
  if representable (t + d) then Some (t + d) else None.

(** [now] is the clock read for the expiry, [stamp] the one read by
    [_now_iso()], [uuid] the value of [str(uuid.uuid4())].  The expiry is
    computed before anything is stored. *)
Definition create_session (now stamp : Z) (uuid : string) (ttl_minutes : Z)
  : M SessionCreateResponse :=
  let session_id := uuid in
  match timedelta_minutes (Z.max 1 ttl_minutes) with
  | None => throw OverflowError
  | Some delta =>
      match datetime_add now delta with
      | None => throw OverflowError
      | Some expires_at =>
          modify (set_SESSION_STORE
                    (dict_set session_id
                       (mkSession session_id stamp expires_at [] [] None false))) ;;;
          ret (mkSessionCreateResponse session_id expires_at)
      end
  end.

Definition submit_answer (now : Z) (payload : SubmitAnswerRequest) : M (dict string) :=
  session <- _get_session_or_404 now (session_id payload) ;;
  _get_quiz_or_404 (quiz_id payload) ;;;
  q <- _get_question_or_404 (question_id payload) ;;
  (* Verify choice *)
  if negb (existsb (String.eqb (choice_id payload)) (map ch_id (q_choices q)))
  then raise 400 "Invalid choice for question"
  else
    update_session (session_id payload)
      (set_answer (question_id payload) (choice_id payload)) ;;;
    update_session (session_id payload) (set_quiz_id (Some (quiz_id payload))) ;;;
    update_session (session_id payload) (set_scored false) ;;;
    ret [("status", "ok"); ("session_id", session_id payload)].

(** ** Scoring *)

(** [if char_id in tally: tally[char_id] += float(w)] *)
Definition tally_add (tally : dict float) (cw : string * float) : dict float :=
  let '(char_id, w) := cw in
  match dict_get char_id tally with
  | Some t => dict_set char_id (t + w)%float tally
  | None => tally
  end.

(** [next((c for c in q["choices"] if c["id"] == choice_id), None)] *)
Definition find_choice (choice_id : string) (cs : list Choice) : option Choice :=
  find (fun c => String.eqb (ch_id c) choice_id) cs.

(** The loop over [answers.items()]. *)
Fixpoint score_answers (items : list (string * string)) (tally : dict float)
  : M (dict float) :=
  match items with
  | [] => ret tally
  | (qid, choice_id) :: rest =>
      q <- _get_question_or_404 qid ;;
      match find_choice choice_id (q_choices q) with
      | None => score_answers rest tally
      | Some choice =>
          score_answers rest (fold_left tally_add (ch_weights choice) tally)
      end
  end.

(** [results.sort(key=lambda r: r.score, reverse=True)]: a stable sort by
    decreasing score.  [list.sort] compares keys with [<]; on keys that
    are not NaN the result of a stable sort is unique, and it is this
    list ([sort_desc_unique] below).  With a NaN among the keys the
    comparisons are not those of an order and what [list.sort] leaves
    depends on the way it merges; the model is not meant for that case,
    and the statements that speak of the order assume scores that are
    numbers. *)
Fixpoint insert_desc (r : ScoreResult) (l : list ScoreResult) : list ScoreResult :=
  match l with
  | [] => [r]
  | r' :: l' =>
      if (score r <? score r')%float then r' :: insert_desc r l' else r :: l
  end.

Definition sort_desc (l : list ScoreResult) : list ScoreResult :=
  fold_right insert_desc [] l.

Definition initial_tally (cs : dict Character) : dict float :=
  map (fun cid => (cid, 0%float)) (dict_keys cs).

Definition tally_results (tally : dict float) : list ScoreResult :=
  map (fun '(cid, sc) => mkScoreResult cid sc) tally.

Definition _compute_scores (session : Session) : M (list ScoreResult) :=
  tally <- gets (fun st => initial_tally (CHARACTER_STORE st)) ;;
  tally <- score_answers (answers session) tally ;;
  let results := tally_results tally in
  ret (sort_desc results).

(** ** Results *)

Definition set_match (m : MatchResult) (e : ResultEntry) : ResultEntry :=
  mkResultEntry (Some m) (re_portrait_url e).

Definition set_portrait_url (p : string) (e : ResultEntry) : ResultEntry :=
  mkResultEntry (re_match e) (Some p).

(** [RESULT_STORE[sid] = RESULT_STORE.get(sid, {})] followed by a write
    to one key of the entry. *)
Definition update_result (sid : string) (f : ResultEntry -> ResultEntry) : M unit :=
  modify (set_RESULT_STORE (fun rs =>
    match dict_get sid rs with
    | Some e => dict_set sid (f e) rs
    | None => dict_set sid (f empty_entry) rs
    end)).

Definition compute_match (now stamp : Z) (session_id : string) : M MatchResult :=
  session <- _get_session_or_404 now session_id ;;
  if negb (truthy (s_quiz_id session))
  then raise 400 "No quiz selected in session"
  else
    let quiz_id := match s_quiz_id session with Some q => q | None => "" end in
    scores <- _compute_scores session ;;
    let top := hd_error scores in
    character <-
      match top with
      | Some t =>
          if (0 <? score t)%float
          then cdict <- _get_character_or_404 (character_id t) ;; ret (Some cdict)
          else ret None
      | None => ret None
      end ;;
    let result := mkMatchResult session_id quiz_id top scores character None stamp in
    (* Store intermediate result *)
    update_result session_id (set_match result) ;;;
    update_session session_id (set_scored true) ;;;
    ret result.

(** ** Media *)

(** [os.path.basename] *)
Fixpoint basename_from (acc p : string) : string :=
  match p with
  | EmptyString => acc
  | String c rest =>
      if Ascii.eqb c "/" then basename_from "" rest
      else basename_from (acc ++ String c "") rest
  end.

Definition basename (p : string) : string := basename_from "" p.

(** [content_type] and [chunk] are the declared type and the bytes of the
    uploaded file, [uuid_hex] the value of [uuid.uuid4().hex]. *)
Definition upload_selfie (now : Z) (uuid_hex : string)
    (session_id : string) (content_type chunk : string) : M (dict string) :=
  session <- _get_session_or_404 now session_id ;;
  (* Validate content type *)
  if negb (String.eqb content_type "image/jpeg" || String.eqb content_type "image/png")
  then raise 400 "Unsupported file type"
  else
    let ext := if String.eqb content_type "image/jpeg" then ".jpg" else ".png" in
    let fname := session_id ++ "_" ++ uuid_hex ++ ext in
    modify (set_UPLOADS_DIR (dict_set fname chunk)) ;;;
    (* Track upload in session *)
    let rel_path := "/media/uploads/" ++ fname in
    update_session session_id (append_upload rel_path) ;;;
    ret [("status", "ok"); ("path", rel_path)].

Definition generate_portrait (now : Z) (session_id : string) : M (dict string) :=
  session <- _get_session_or_404 now session_id ;;
  match uploads session with
  | [] => raise 400 "No selfie uploaded for session"
  | _ :: _ =>
      (* Ensure match exists *)
      result_data <- gets (fun st =>
        match dict_get session_id (RESULT_STORE st) with
        | Some e => re_match e
        | None => None
        end) ;;
      match result_data with
      | None => raise 400 "No match computed for session"
      | Some m =>
          match top_match m with
          | None => raise 400 "No match computed for session"
          | Some _ =>
              (* Get last uploaded selfie path *)
              let last_upload_rel := last (uploads session) "" in
              let last_upload_name := basename last_upload_rel in
              src <- gets (fun st => dict_get last_upload_name (UPLOADS_DIR st)) ;;
              match src with
              | None => raise 404 "Uploaded file not found on server"
              | Some bytes =>
                  let out_name := "portrait_" ++ session_id ++ ".png" in
                  modify (set_RESULTS_DIR (dict_set out_name bytes)) ;;;
                  let rel_out := "/media/results/" ++ out_name in
                  update_result session_id (set_portrait_url rel_out) ;;;
                  ret [("status", "ok"); ("portrait_url", rel_out)]
              end
          end
      end
  end.

Definition with_portrait_url (p : option string) (m : MatchResult) : MatchResult :=
  mkMatchResult (m_session_id m) (m_quiz_id m) (top_match m) (scores m)
                (character m) p (m_created_at m).

Definition get_result (now : Z) (session_id : string) : M MatchResult :=
  _get_session_or_404 now session_id ;;;
  res <- gets (fun st =>
    match dict_get session_id (RESULT_STORE st) with
    | Some e => e
    | None => empty_entry
    end) ;;
  let match_data := re_match res in
  let portrait_url := re_portrait_url res in
  match match_data with
  | None => raise 404 "No result for session"
  | Some m =>
      if truthy portrait_url then ret (with_portrait_url portrait_url m) else ret m
  end.

(** ** Administration of the catalog *)

Definition set_QUESTION_STORE (f : dict Question -> dict Question) (st : Store) : Store :=
  mkStore (QUIZ_STORE st) (f (QUESTION_STORE st)) (CHARACTER_STORE st)
          (SESSION_STORE st) (RESULT_STORE st) (UPLOADS_DIR st) (RESULTS_DIR st).

Definition set_CHARACTER_STORE (f : dict Character -> dict Character) (st : Store) : Store :=
  mkStore (QUIZ_STORE st) (QUESTION_STORE st) (f (CHARACTER_STORE st))
          (SESSION_STORE st) (RESULT_STORE st) (UPLOADS_DIR st) (RESULTS_DIR st).

Record QuestionCreate := mkQuestionCreate {
  qc_text : string;
  qc_choices : list Choice;
  qc_order : Z
}.

Record QuestionUpdate := mkQuestionUpdate {
  qu_text : option string;
  qu_choices : option (list Choice);
  qu_order : option Z
}.

(** [ADMIN_TOKEN] is read from the environment when the module is loaded
    (["dev-admin-token"] by default); it is a parameter of the handlers
    that check it. *)
Definition _require_admin (ADMIN_TOKEN token : string) : M unit :=
  if negb (String.eqb token ADMIN_TOKEN)
  then raise 403 "Forbidden: invalid admin token"
  else ret tt.

(** [uuid_hex] is the value of [uuid.uuid4().hex]. *)
Definition admin_create_question (ADMIN_TOKEN uuid_hex : string)
    (payload : QuestionCreate) (token : string) : M Question :=
  _require_admin ADMIN_TOKEN token ;;;
  let qid := uuid_hex in
  let question := mkQuestion qid (qc_text payload) (qc_choices payload) (qc_order payload) in
  modify (set_QUESTION_STORE (dict_set qid question)) ;;;
  ret question.

Definition admin_update_question (ADMIN_TOKEN : string) (question_id : string)
    (payload : QuestionUpdate) (token : string) : M Question :=
  _require_admin ADMIN_TOKEN token ;;;
  existing <- _get_question_or_404 question_id ;;
  let existing :=
    match qu_text payload with
    | Some t => mkQuestion (q_id existing) t (q_choices existing) (q_order existing)
    | None => existing
    end in
  let existing :=
    match qu_choices payload with
    | Some cs => mkQuestion (q_id existing) (q_text existing) cs (q_order existing)
    | None => existing
    end in
  let existing :=
    match qu_order payload with
    | Some o => mkQuestion (q_id existing) (q_text existing) (q_choices existing) o
    | None => existing
    end in
  modify (set_QUESTION_STORE (dict_set question_id existing)) ;;;
  ret existing.

Definition admin_delete_question (ADMIN_TOKEN : string) (question_id : string)
    (token : string) : M (dict string) :=
  _require_admin ADMIN_TOKEN token ;;;
  present <- gets (fun st => dict_mem question_id (QUESTION_STORE st)) ;;
  if negb present
  then raise 404 "Question not found"
  else
    modify (set_QUESTION_STORE (dict_del question_id)) ;;;
    ret [("status", "ok")].

Definition admin_delete_character (ADMIN_TOKEN : string) (character_id : string)
    (token : string) : M (dict string) :=
  _require_admin ADMIN_TOKEN token ;;;
  present <- gets (fun st => dict_mem character_id (CHARACTER_STORE st)) ;;
  if negb present
  then raise 404 "Character not found"
  else
    modify (set_CHARACTER_STORE (dict_del character_id)) ;;;
    ret [("status", "ok")].

(** ** Demo data *)

(** The stores after [_seed_demo_data()] at start-up, the storage
    directories being empty; [stamp] is the time of the seeding. *)
Definition seed_store (stamp : Z) : Store :=
  mkStore
    [("default",
      mkQuiz "default" "Which Star Wars Character Are You?"
             (Some "Answer questions to find your Star Wars alter ego!")
             ["q1"; "q2"] stamp stamp)]
    [("q1",
      mkQuestion "q1" "Pick your ideal weekend activity:"
        [mkChoice "c1" "Meditating and reflecting" [("luke", 1%float)];
         mkChoice "c2" "Strategizing a mission" [("leia", 1%float)];
         mkChoice "c3" "Harnessing the power of the dark side" [("vader", 1%float)]]
        1);
     ("q2",
      mkQuestion "q2" "Choose a guiding principle:"
        [mkChoice "c4" "Hope" [("luke", 1%float)];
         mkChoice "c5" "Order" [("vader", 1%float)];
         mkChoice "c6" "Leadership" [("leia", 1%float)]]
        2)]
    [("vader",
      mkCharacter "vader" "Darth Vader" "A powerful Sith Lord with a tragic past."
        (Some "/media/characters/vader.png")
        [("dark", 0.9%float); ("leader", 0.8%float); ("calm", 0.2%float)]);
     ("luke",
      mkCharacter "luke" "Luke Skywalker" "A brave Jedi Knight striving for peace."
        (Some "/media/characters/luke.png")
        [("light", 0.9%float); ("hope", 0.8%float); ("calm", 0.6%float)]);
     ("leia",
      mkCharacter "leia" "Princess Leia" "A courageous leader of the Rebel Alliance."
        (Some "/media/characters/leia.png")
        [("leader", 0.9%float); ("light", 0.7%float); ("diplomacy", 0.8%float)])]
    [] [] [] [].


(** * Notions used by the statements *)

(** Non-negative numbers of the specification of binary64 arithmetic. *)
Definition SFnonneg (x : spec_float) : bool :=
  match x with
  | S754_zero _ => true
  | S754_infinity s => negb s
  | S754_nan => false
  | S754_finite s _ _ => negb s
  end.

Definition ge_score (a b : ScoreResult) : Prop := (score b <=? score a)%float = true.

Definition no_nan (l : list ScoreResult) : Prop :=
  Forall (fun r => is_nan (score r) = false) l.

(** What one answer does to the tally when its question exists. *)
Definition apply_answer (qs : dict Question) (tally : dict float)
    (a : string * string) : dict float :=
  match dict_get (fst a) qs with
  | Some q =>
      match find_choice (snd a) (q_choices q) with
      | Some choice => fold_left tally_add (ch_weights choice) tally
      | None => tally
      end
  | None => tally
  end.

Definition question_missing (qs : dict Question) (a : string * string) : bool :=
  negb (dict_mem (fst a) qs).

Definition not_found (msg : string) : HTTPException := mkHTTPException 404 msg.

(** The weight an answer gives to the character [cid]: that of the chosen
    choice, when the question and the choice exist and the choice weights
    the character. *)
Definition contribution (qs : dict Question) (cid : string)
    (a : string * string) : option float :=
  match dict_get (fst a) qs with
  | Some q =>
      match find_choice (snd a) (q_choices q) with
      | Some choice => dict_get cid (ch_weights choice)
      | None => None
      end
  | None => None
  end.

Definition add_contribution (qs : dict Question) (cid : string)
    (acc : float) (a : string * string) : float :=
  match contribution qs cid a with
  | Some w => (acc + w)%float
  | None => acc
  end.

(** The sum, from 0.0 and in the order of the answers, of the weights of
    [cid] over the answered choices. *)
Definition summed_weights (qs : dict Question) (items : dict string)
    (cid : string) : float :=
  fold_left (add_contribution qs cid) items 0%float.

(** The same sum in the words of the specification.  The choices of a
    question that carry the identifier [cid], in the order of the
    question. *)
Definition choices_with_id (cid : string) (q : Question) : list Choice :=
  filter (fun c => String.eqb (ch_id c) cid) (q_choices q).

(** The choice an answer designates: the first choice of the answered
    question that carries the recorded identifier, when the question
    exists and has such a choice. *)
Definition answered_choice (qs : dict Question) (a : string * string)
  : option Choice :=
  match dict_get (fst a) qs with
  | Some q => hd_error (choices_with_id (snd a) q)
  | None => None
  end.

(** The answered choices of a session, in the order of its answers. *)
Definition answered_choices (qs : dict Question) (items : dict string)
  : list Choice :=
  flat_map (fun a => match answered_choice qs a with
                     | Some c => [c]
                     | None => []
                     end) items.

(** The weights that the choices [cs] give to the character [cid]. *)
Definition weights_of (cid : string) (cs : list Choice) : list float :=
  flat_map (fun c => match dict_get cid (ch_weights c) with
                     | Some w => [w]
                     | None => []
                     end) cs.

(** The sum of a list of numbers, from 0.0 and from left to right. *)
Definition float_sum (ws : list float) : float :=
  fold_left PrimFloat.add ws 0%float.

(** The dictionaries of the catalog are genuine: no character identifier
    is repeated in [CHARACTER_STORE] or in a weight map. *)
Definition question_wf (q : Question) : bool :=
  forallb (fun ch => dict_wf (ch_weights ch)) (q_choices q).

Definition catalog_wf (st : Store) : bool :=
  dict_wf (CHARACTER_STORE st) &&
  forallb (fun kv => question_wf (snd kv)) (QUESTION_STORE st).

(** Every weight is a non-negative number, as the data model asks. *)
Definition question_nonneg (q : Question) : bool :=
  forallb (fun ch => forallb (fun cw => (0 <=? snd cw)%float) (ch_weights ch))
          (q_choices q).

Definition weights_nonneg (st : Store) : bool :=
  forallb (fun kv => question_nonneg (snd kv)) (QUESTION_STORE st).

(** Every answered question is in [QUESTION_STORE]. *)
Definition answers_resolve (st : Store) (session : Session) : bool :=
  negb (existsb (question_missing (QUESTION_STORE st)) (answers session)).

Definition tally_nonneg (tally : dict float) : Prop :=
  Forall (fun kv => (0 <=? snd kv)%float = true) tally.

Definition set_answers (items : dict string) (s : Session) : Session :=
  mkSession (s_id s) (s_created_at s) (s_expires_at s)
            items (uploads s) (s_quiz_id s) (scored s).

(** A state in which the session ["s1"], created at time 0 for an hour,
    has answered [q1] with [c1] and [q2] with [c6] of the demo quiz. *)
Definition demo_requests : M (dict string) :=
  create_session 0 0 "s1" 60 ;;;
  submit_answer 1 (mkSubmitAnswerRequest "s1" "default" "q1" "c1") ;;;
  submit_answer 2 (mkSubmitAnswerRequest "s1" "default" "q2" "c6").

Definition demo_store : Store := Eval vm_compute in snd (demo_requests (seed_store 0)).

Definition demo_session : Session :=
  mkSession "s1" 0 (60 * minute) [("q1", "c1"); ("q2", "c6")] []
            (Some "default") false.

(** The demo state after [DELETE /admin/questions/q1]: the first answer
    of ["s1"] dangles. *)
Definition question_deleted_store : Store :=
  Eval vm_compute in
    snd (admin_delete_question "dev-admin-token" "q1" "dev-admin-token" demo_store).

(** The demo state after a [PUT /admin/questions/q1] that drops the
    choice [c1]: the first answer of ["s1"] names a choice that is gone. *)
Definition choice_removed_store : Store :=
  Eval vm_compute in
    snd (admin_update_question "dev-admin-token" "q1"
           (mkQuestionUpdate None
              (Some [mkChoice "c2" "Strategizing a mission" [("leia", 1%float)];
                     mkChoice "c3" "Harnessing the power of the dark side"
                              [("vader", 1%float)]])
              None)
           "dev-admin-token" demo_store).

(** What a successful submission does to the session. *)
Definition record_answer (p : SubmitAnswerRequest) (s : Session) : Session :=
  set_scored false
    (set_quiz_id (Some (quiz_id p))
       (set_answer (question_id p) (choice_id p) s)).

(** The session is known and not expired at [now], the quiz and the
    question exist, the choice is one of the question's. *)
Definition valid_submission (now : Z) (st : Store) (p : SubmitAnswerRequest) : bool :=
  match dict_get (session_id p) (SESSION_STORE st) with
  | Some s => negb (now >? s_expires_at s)
  | None => false
  end
  && dict_mem (quiz_id p) (QUIZ_STORE st)
  && match dict_get (question_id p) (QUESTION_STORE st) with
     | Some q => existsb (String.eqb (choice_id p)) (map ch_id (q_choices q))
     | None => false
     end.

(** The score of a character in a ranking. *)
Definition score_of (cid : string) (results : list ScoreResult) : option float :=
  option_map score (find (fun r => String.eqb (character_id r) cid) results).

Definition submit_ok (p : SubmitAnswerRequest) : dict string :=
  [("status", "ok"); ("session_id", session_id p)].

(** The session ["s1"] just created, before any answer. *)
Definition fresh_store : Store :=
  Eval vm_compute in snd (create_session 0 0 "s1" 60 (seed_store 0)).

Definition fresh_session : Session :=
  mkSession "s1" 0 (60 * minute) [] [] None false.

(** The stores a successful [compute_match] leaves. *)
Definition store_match (sid : string) (m : MatchResult) (s : Session) (st : Store) : Store :=
  set_SESSION_STORE (dict_set sid (set_scored true s))
    (set_RESULT_STORE (fun rs =>
       match dict_get sid rs with
       | Some e => dict_set sid (set_match m e) rs
       | None => dict_set sid (set_match m empty_entry) rs
       end) st).

(** The ranking [_compute_scores] returns when no question is missing. *)
Definition ranking (st : Store) (session : Session) : list ScoreResult :=
  sort_desc (tally_results
    (fold_left (apply_answer (QUESTION_STORE st)) (answers session)
               (initial_tally (CHARACTER_STORE st)))).

(** The character [compute_match] attaches to a top match. *)
Definition resolved (st : Store) (top : option ScoreResult) : option Character :=
  match top with
  | Some t =>
      if (0 <? score t)%float
      then dict_get (character_id t) (CHARACTER_STORE st)
      else None
  | None => None
  end.

Definition quiz_of (s : Session) : string :=
  match s_quiz_id s with Some q => q | None => "" end.

(** The demo state once the three characters have been deleted. *)
Definition empty_catalog_store : Store :=
  Eval vm_compute in
    snd ((admin_delete_character "dev-admin-token" "vader" "dev-admin-token" ;;;
          admin_delete_character "dev-admin-token" "luke" "dev-admin-token" ;;;
          admin_delete_character "dev-admin-token" "leia" "dev-admin-token")
           demo_store).

(** The session ["s1"] has answered [q1] with [c1] only, and [c1] has
    then been removed from [q1]: every tally is 0.0. *)
Definition zero_score_store : Store :=
  Eval vm_compute in
    snd ((submit_answer 1 (mkSubmitAnswerRequest "s1" "default" "q1" "c1") ;;;
          admin_update_question "dev-admin-token" "q1"
            (mkQuestionUpdate None
               (Some [mkChoice "c2" "Strategizing a mission" [("leia", 1%float)]])
               None)
            "dev-admin-token")
           fresh_store).

Definition zero_score_session : Session :=
  mkSession "s1" 0 (60 * minute) [("q1", "c1")] [] (Some "default") false.

Definition expired_error : HTTPException := mkHTTPException 410 "Session expired".

Definition bad_request (msg : string) : HTTPException := mkHTTPException 400 msg.

(** What [RESULT_STORE] holds for a session. *)
Definition stored_match (sid : string) (st : Store) : option MatchResult :=
  match dict_get sid (RESULT_STORE st) with
  | Some e => re_match e
  | None => None
  end.

Definition stored_portrait (sid : string) (st : Store) : option string :=
  match dict_get sid (RESULT_STORE st) with
  | Some e => re_portrait_url e
  | None => None
  end.

Definition stored_top_match (sid : string) (st : Store) : option ScoreResult :=
  match stored_match sid st with
  | Some m => top_match m
  | None => None
  end.

Definition portrait_name (sid : string) : string := "portrait_" ++ sid ++ ".png".

Definition portrait_path (sid : string) : string := "/media/results/" ++ portrait_name sid.

(** The demo state after the upload of a PNG, no match being computed. *)
Definition uploaded_store : Store :=
  Eval vm_compute in snd (upload_selfie 3 "aa" "s1" "image/png" "first" demo_store).

(** The demo state after a match and two uploads. *)
Definition matched_store : Store :=
  Eval vm_compute in
    snd ((compute_match 4 4 "s1" ;;;
          upload_selfie 5 "aa" "s1" "image/png" "first" ;;;
          upload_selfie 6 "bb" "s1" "image/jpeg" "second") demo_store).

Definition matched_session : Session :=
  mkSession "s1" 0 (60 * minute) [("q1", "c1"); ("q2", "c6")]
            ["/media/uploads/s1_aa.png"; "/media/uploads/s1_bb.jpg"]
            (Some "default") true.

(** The same state once the second uploaded file has been removed from
    the uploads directory. *)
Definition blob_lost_store : Store :=
  Eval vm_compute in set_UPLOADS_DIR (dict_del "s1_bb.jpg") matched_store.

(** The demo state after the portrait of ["s1"] has been generated. *)
Definition portrait_store : Store :=
  Eval vm_compute in snd (generate_portrait 7 "s1" matched_store).

(** The weights the answered choices give to [cid], in the order of the
    answers. *)
Definition weights_received (qs : dict Question) (items : dict string)
    (cid : string) : list float :=
  flat_map (fun a => match contribution qs cid a with
                     | Some w => [w]
                     | None => []
                     end) items.

(** A catalog in which three questions weight Leia by 0.1, 0.2 and 0.3 and
    the first of them weights Luke by 0.6: the two questions of the demo
    quiz updated by the administrator, and a third one created. *)
Definition third_question : string := "7c9e6679742540de944be07fc1f90ae7".

Definition rounding_catalog : Store :=
  Eval vm_compute in
    snd ((admin_update_question "dev-admin-token" "q1"
            (mkQuestionUpdate None
               (Some [mkChoice "c1" "Meditating and reflecting"
                               [("leia", 0.1%float); ("luke", 0.6%float)]])
               None)
            "dev-admin-token" ;;;
          admin_update_question "dev-admin-token" "q2"
            (mkQuestionUpdate None
               (Some [mkChoice "c4" "Hope" [("leia", 0.2%float)]])
               None)
            "dev-admin-token" ;;;
          admin_create_question "dev-admin-token" third_question
            (mkQuestionCreate "Pick a virtue:"
               [mkChoice "c7" "Patience" [("leia", 0.3%float)]] 3)
            "dev-admin-token")
           (seed_store 0)).

(** Two sessions give the same three answers, ["s1"] in the order of the
    questions and ["s2"] in the opposite order. *)
Definition rounding_store : Store :=
  Eval vm_compute in
    snd ((create_session 0 0 "s1" 60 ;;;
          create_session 0 0 "s2" 60 ;;;
          submit_answer 1 (mkSubmitAnswerRequest "s1" "default" "q1" "c1") ;;;
          submit_answer 2 (mkSubmitAnswerRequest "s1" "default" "q2" "c4") ;;;
          submit_answer 3 (mkSubmitAnswerRequest "s1" "default" third_question "c7") ;;;
          submit_answer 4 (mkSubmitAnswerRequest "s2" "default" third_question "c7") ;;;
          submit_answer 5 (mkSubmitAnswerRequest "s2" "default" "q2" "c4") ;;;
          submit_answer 6 (mkSubmitAnswerRequest "s2" "default" "q1" "c1"))
           rounding_catalog).

Definition forward_session : Session :=
  mkSession "s1" 0 (60 * minute)
            [("q1", "c1"); ("q2", "c4"); (third_question, "c7")] []
            (Some "default") false.

Definition backward_session : Session :=
  mkSession "s2" 0 (60 * minute)
            [(third_question, "c7"); ("q2", "c4"); ("q1", "c1")] []
            (Some "default") false.

(** * The other handlers *)

(** ** Quiz retrieval *)

Definition dict_values {V} (d : dict V) : list V := map snd d.

Definition list_quizzes : M (list Quiz) :=
  gets (fun st => dict_values (QUIZ_STORE st)).

Definition get_quiz (quiz_id : string) : M Quiz :=
  _get_quiz_or_404 quiz_id.

(** The loop of [get_quiz_questions] over [quiz["question_ids"]];
    [ordered] is the list built so far. *)
Fixpoint quiz_questions_loop (qids : list string) (ordered : list Question)
  : M (list Question) :=
  match qids with
  | [] => ret ordered
  | qid :: rest =>
      q <- _get_question_or_404 qid ;;
      quiz_questions_loop rest (ordered ++ [q])
  end.

Definition get_quiz_questions (quiz_id : string) : M (list Question) :=
  quiz <- _get_quiz_or_404 quiz_id ;;
  quiz_questions_loop (qz_question_ids quiz) [].

(** ** Administration: the remaining endpoints *)

Definition set_QUIZ_STORE (f : dict Quiz -> dict Quiz) (st : Store) : Store :=
  mkStore (f (QUIZ_STORE st)) (QUESTION_STORE st) (CHARACTER_STORE st)
          (SESSION_STORE st) (RESULT_STORE st) (UPLOADS_DIR st) (RESULTS_DIR st).

Record CharacterCreate := mkCharacterCreate {
  cc_name : string;
  cc_description : string;
  cc_image_url : option string;
  cc_traits : dict float
}.

Record CharacterUpdate := mkCharacterUpdate {
  cu_name : option string;
  cu_description : option string;
  cu_image_url : option string;
  cu_traits : option (dict float)
}.

Record QuizCreate := mkQuizCreate {
  qzc_title : string;
  qzc_description : option string;
  qzc_question_ids : list string
}.

Record QuizUpdate := mkQuizUpdate {
  qzu_title : option string;
  qzu_description : option string;
  qzu_question_ids : option (list string)
}.

Definition admin_auth (ADMIN_TOKEN token : string) : M (dict string) :=
  _require_admin ADMIN_TOKEN token ;;;
  ret [("status", "ok")].

Definition admin_list_questions (ADMIN_TOKEN token : string) : M (list Question) :=
  _require_admin ADMIN_TOKEN token ;;;
  gets (fun st => dict_values (QUESTION_STORE st)).

Definition admin_list_characters (ADMIN_TOKEN token : string) : M (list Character) :=
  _require_admin ADMIN_TOKEN token ;;;
  gets (fun st => dict_values (CHARACTER_STORE st)).

Definition admin_create_character (ADMIN_TOKEN uuid_hex : string)
    (payload : CharacterCreate) (token : string) : M Character :=
  _require_admin ADMIN_TOKEN token ;;;
  let cid := uuid_hex in
  let character :=
    mkCharacter cid (cc_name payload) (cc_description payload)
                (cc_image_url payload) (cc_traits payload) in
  modify (set_CHARACTER_STORE (dict_set cid character)) ;;;
  ret character.

Definition admin_update_character (ADMIN_TOKEN : string) (character_id : string)
    (payload : CharacterUpdate) (token : string) : M Character :=
  _require_admin ADMIN_TOKEN token ;;;
  existing <- _get_character_or_404 character_id ;;
  let existing :=
    match cu_name payload with
    | Some n => mkCharacter (c_id existing) n (c_description existing)
                            (c_image_url existing) (c_traits existing)
    | None => existing
    end in
  let existing :=
    match cu_description payload with
    | Some d => mkCharacter (c_id existing) (c_name existing) d
                            (c_image_url existing) (c_traits existing)
    | None => existing
    end in
  let existing :=
    match cu_image_url payload with
    | Some u => mkCharacter (c_id existing) (c_name existing) (c_description existing)
                            (Some u) (c_traits existing)
    | None => existing
    end in
  let existing :=
    match cu_traits payload with
    | Some t => mkCharacter (c_id existing) (c_name existing) (c_description existing)
                            (c_image_url existing) t
    | None => existing
    end in
  modify (set_CHARACTER_STORE (dict_set character_id existing)) ;;;
  ret existing.

Definition admin_list_quizzes (ADMIN_TOKEN token : string) : M (list Quiz) :=
  _require_admin ADMIN_TOKEN token ;;;
  gets (fun st => dict_values (QUIZ_STORE st)).

(** [stamp1] and [stamp2] are the two readings of [_now_iso()]. *)
Definition admin_create_quiz (ADMIN_TOKEN uuid_hex : string) (stamp1 stamp2 : Z)
    (payload : QuizCreate) (token : string) : M Quiz :=
  _require_admin ADMIN_TOKEN token ;;;
  let qz_id := uuid_hex in
  let quiz :=
    mkQuiz qz_id (qzc_title payload) (qzc_description payload)
           (qzc_question_ids payload) stamp1 stamp2 in
  modify (set_QUIZ_STORE (dict_set qz_id quiz)) ;;;
  ret quiz.

Definition admin_update_quiz (ADMIN_TOKEN : string) (stamp : Z) (quiz_id : string)
    (payload : QuizUpdate) (token : string) : M Quiz :=
  _require_admin ADMIN_TOKEN token ;;;
  existing <- _get_quiz_or_404 quiz_id ;;
  let existing :=
    match qzu_title payload with
    | Some t => mkQuiz (qz_id existing) t (qz_description existing)
                       (qz_question_ids existing) (qz_created_at existing)
                       (qz_updated_at existing)
    | None => existing
    end in
  let existing :=
    match qzu_description payload with
    | Some d => mkQuiz (qz_id existing) (qz_title existing) (Some d)
                       (qz_question_ids existing) (qz_created_at existing)
                       (qz_updated_at existing)
    | None => existing
    end in
  let existing :=
    match qzu_question_ids payload with
    | Some ids => mkQuiz (qz_id existing) (qz_title existing) (qz_description existing)
                         ids (qz_created_at existing) (qz_updated_at existing)
    | None => existing
    end in
  let existing :=
    mkQuiz (qz_id existing) (qz_title existing) (qz_description existing)
           (qz_question_ids existing) (qz_created_at existing) stamp in
  modify (set_QUIZ_STORE (dict_set quiz_id existing)) ;;;
  ret existing.

Definition admin_delete_quiz (ADMIN_TOKEN : string) (quiz_id : string)
    (token : string) : M (dict string) :=
  _require_admin ADMIN_TOKEN token ;;;
  present <- gets (fun st => dict_mem quiz_id (QUIZ_STORE st)) ;;
  if negb present
  then raise 404 "Quiz not found"
  else
    modify (set_QUIZ_STORE (dict_del quiz_id)) ;;;
    ret [("status", "ok")].

(** * Notions used by the further statements *)

Definition forbidden : HTTPException :=
  mkHTTPException 403 "Forbidden: invalid admin token".

(** The instant at which a session created at [now] expires. *)
Definition expiry (now ttl_minutes : Z) : Z := now + Z.max 1 ttl_minutes * minute.

(** The session [create_session] stores. *)
Definition new_session (now stamp : Z) (uuid : string) (ttl_minutes : Z) : Session :=
  mkSession uuid stamp (expiry now ttl_minutes) [] [] None false.

(** The result [get_result] returns for a stored match [m]. *)
Definition merged_result (sid : string) (st : Store) (m : MatchResult) : MatchResult :=
  if truthy (stored_portrait sid st)
  then with_portrait_url (stored_portrait sid st) m
  else m.

Definition portrait_ok (sid : string) : dict string :=
  [("status", "ok"); ("portrait_url", portrait_path sid)].

(** The stores a successful [generate_portrait] leaves, [bytes] being the
    content of the copied file. *)
Definition store_portrait (sid bytes : string) (st : Store) : Store :=
  set_RESULT_STORE (fun rs =>
      match dict_get sid rs with
      | Some e => dict_set sid (set_portrait_url (portrait_path sid) e) rs
      | None => dict_set sid (set_portrait_url (portrait_path sid) empty_entry) rs
      end)
    (set_RESULTS_DIR (dict_set (portrait_name sid) bytes) st).

(** The name and the path [upload_selfie] gives to a file. *)
Definition upload_name (sid uuid_hex content_type : string) : string :=
  sid ++ "_" ++ uuid_hex ++
  (if String.eqb content_type "image/jpeg" then ".jpg" else ".png").

Definition upload_path (sid uuid_hex content_type : string) : string :=
  "/media/uploads/" ++ upload_name sid uuid_hex content_type.

Definition allowed_type (content_type : string) : bool :=
  String.eqb content_type "image/jpeg" || String.eqb content_type "image/png".

(** The stores a successful [upload_selfie] leaves. *)
Definition store_upload (sid uuid_hex content_type chunk : string) (s : Session)
    (st : Store) : Store :=
  set_SESSION_STORE
    (dict_set sid (append_upload (upload_path sid uuid_hex content_type) s))
    (set_UPLOADS_DIR (dict_set (upload_name sid uuid_hex content_type) chunk) st).

(** No ["/"] occurs in the string, as in an identifier made by [uuid4]. *)
Fixpoint no_slash (s : string) : bool :=
  match s with
  | EmptyString => true
  | String c rest => negb (Ascii.eqb c "/") && no_slash rest
  end.

(** What a handler serving the session [sid] may change: the catalog, the
    other sessions and the other results are kept; no session appears or
    disappears; the session itself keeps its identifier, creation time
    and expiry. *)
Definition touches_only (sid : string) (st st' : Store) : Prop :=
  QUIZ_STORE st' = QUIZ_STORE st /\
  QUESTION_STORE st' = QUESTION_STORE st /\
  CHARACTER_STORE st' = CHARACTER_STORE st /\
  dict_keys (SESSION_STORE st') = dict_keys (SESSION_STORE st) /\
  (forall k, k <> sid ->
     dict_get k (SESSION_STORE st') = dict_get k (SESSION_STORE st)) /\
  (forall k, k <> sid ->
     dict_get k (RESULT_STORE st') = dict_get k (RESULT_STORE st)) /\
  (forall s, dict_get sid (SESSION_STORE st) = Some s ->
     exists s', dict_get sid (SESSION_STORE st') = Some s' /\
                s_id s' = s_id s /\
                s_created_at s' = s_created_at s /\
                s_expires_at s' = s_expires_at s).

(** An edit of the catalog: sessions, results and files are kept. *)
Definition catalog_edit (st st' : Store) : Prop :=
  SESSION_STORE st' = SESSION_STORE st /\
  RESULT_STORE st' = RESULT_STORE st /\
  UPLOADS_DIR st' = UPLOADS_DIR st /\
  RESULTS_DIR st' = RESULTS_DIR st.

(** The fields of a question after an update. *)
Definition updated_question (payload : QuestionUpdate) (q : Question) : Question :=
  mkQuestion (q_id q)
    (match qu_text payload with Some t => t | None => q_text q end)
    (match qu_choices payload with Some cs => cs | None => q_choices q end)
    (match qu_order payload with Some o => o | None => q_order q end).

(** The fields of a character after an update. *)
Definition updated_character (payload : CharacterUpdate) (c : Character) : Character :=
  mkCharacter (c_id c)
    (match cu_name payload with Some n => n | None => c_name c end)
    (match cu_description payload with Some d => d | None => c_description c end)
    (match cu_image_url payload with Some u => Some u | None => c_image_url c end)
    (match cu_traits payload with Some t => t | None => c_traits c end).

(** The scores of the characters in the order of the catalog. *)
Definition catalog_scores (st : Store) (s : Session) : list ScoreResult :=
  map (fun cid => mkScoreResult cid
                    (summed_weights (QUESTION_STORE st) (answers s) cid))
      (dict_keys (CHARACTER_STORE st)).

(** The score is equal to [v]. *)
Definition tied (v : float) (r : ScoreResult) : bool := (score r =? v)%float.

(** The fields of a quiz after an update stamped [stamp]. *)
Definition updated_quiz (stamp : Z) (payload : QuizUpdate) (z : Quiz) : Quiz :=
  mkQuiz (qz_id z)
    (match qzu_title payload with Some t => t | None => qz_title z end)
    (match qzu_description payload with Some d => Some d | None => qz_description z end)
    (match qzu_question_ids payload with Some ids => ids | None => qz_question_ids z end)
    (qz_created_at z) stamp.

(** * Properties *)

(** ** Dictionaries *)

Section DictFacts.
Context {V : Type}.
Implicit Types (d : dict V) (k : string) (v : V).

Lemma dict_get_some_in k d v : dict_get k d = Some v -> In (k, v) d.
Proof.
  induction d as [|[k' v'] d IH]; simpl; [discriminate|].
  destruct (String.eqb_spec k k') as [->|_].
  - intros [= ->]. now left.
  - intros H. right. auto.
Qed.

Lemma dict_get_none_keys k d : dict_get k d = None <-> ~ In k (dict_keys d).
Proof.
  induction d as [|[k' v'] d IH]; simpl.
  - tauto.
  - destruct (String.eqb_spec k k') as [->|Hne].
    + split; [discriminate | intros H; exfalso; apply H; now left].
    + rewrite IH. split; intros H; [intros [E|I]; [congruence | tauto] | tauto].
Qed.

Lemma dict_get_keys k d : In k (dict_keys d) -> exists v, dict_get k d = Some v.
Proof.
  intros H. destruct (dict_get k d) eqn:E; [eauto|].
  apply dict_get_none_keys in E. contradiction.
Qed.

Lemma dict_mem_keys k d : dict_mem k d = true <-> In k (dict_keys d).
Proof.
  unfold dict_mem. split.
  - destruct (dict_get k d) eqn:E; [intros _ | discriminate].
    apply dict_get_some_in in E. apply (in_map fst) in E. exact E.
  - intros H. apply dict_get_keys in H as [v ->]. reflexivity.
Qed.

Lemma dict_keys_set_present k v d :
  dict_get k d <> None -> dict_keys (dict_set k v d) = dict_keys d.
Proof.
  induction d as [|[k' v'] d IH]; simpl; [congruence|].
  destruct (String.eqb_spec k k') as [->|_]; simpl; [reflexivity|].
  intros H. now rewrite IH.
Qed.

Lemma dict_set_absent k v d :
  dict_get k d = None -> dict_set k v d = (d ++ [(k, v)])%list.
Proof.
  induction d as [|[k' v'] d IH]; simpl; [reflexivity|].
  destruct (String.eqb_spec k k') as [->|_]; [discriminate|].
  intros H. now rewrite IH.
Qed.

Lemma dict_get_set_same k v d : dict_get k (dict_set k v d) = Some v.
Proof.
  induction d as [|[k' v'] d IH]; simpl.
  - now rewrite String.eqb_refl.
  - destruct (String.eqb_spec k k') as [->|Hne]; simpl.
    + now rewrite String.eqb_refl.
    + destruct (String.eqb_spec k k'); [contradiction | exact IH].
Qed.

Lemma dict_get_set_other k k0 v d :
  k0 <> k -> dict_get k0 (dict_set k v d) = dict_get k0 d.
Proof.
  intros Hne. induction d as [|[k' v'] d IH]; simpl.
  - destruct (String.eqb_spec k0 k); [contradiction | reflexivity].
  - destruct (String.eqb_spec k k') as [->|Hne']; simpl.
    + destruct (String.eqb_spec k0 k'); [contradiction | reflexivity].
    + now rewrite IH.
Qed.

Lemma dict_set_set k v1 v2 d :
  dict_set k v2 (dict_set k v1 d) = dict_set k v2 d.
Proof.
  induction d as [|[k' v'] d IH]; simpl.
  - now rewrite String.eqb_refl.
  - destruct (String.eqb_spec k k') as [->|Hne]; simpl.
    + now rewrite String.eqb_refl.
    + destruct (String.eqb_spec k k'); [contradiction | now rewrite IH].
Qed.
End DictFacts.

Lemma existsb_eqb_in k l : existsb (String.eqb k) l = true <-> In k l.
Proof.
  rewrite existsb_exists. split.
  - intros (x & Hin & E). apply String.eqb_eq in E. now subst.
  - intros H. exists k. split; [exact H | apply String.eqb_refl].
Qed.

Lemma nodupb_NoDup l : nodupb l = true <-> NoDup l.
Proof.
  induction l as [|k l IH]; simpl.
  - split; [constructor | reflexivity].
  - rewrite andb_true_iff, negb_true_iff, IH. split.
    + intros [H1 H2]. constructor; [|exact H2].
      rewrite <- existsb_eqb_in. congruence.
    + intros H. inversion H as [|? ? Hn Hd]; subst. split; [|exact Hd].
      destruct (existsb (String.eqb k) l) eqn:E; [|reflexivity].
      apply existsb_eqb_in in E. contradiction.
Qed.

(** ** Comparison of binary64 numbers *)

Lemma SFcompare_antisym x y :
  SFcompare y x = option_map CompOpp (SFcompare x y).
Proof.
  destruct x as [sx|sx| |sx mx ex], y as [sy|sy| |sy my ey]; simpl;
    try destruct sx; try destruct sy; simpl; try reflexivity.
  all: rewrite (Z.compare_antisym ex ey);
    change (Pos.compare_cont Eq) with Pos.compare;
    rewrite (Pos.compare_antisym mx my);
    destruct (ex ?= ey); simpl; try reflexivity;
    destruct (mx ?= my)%positive; reflexivity.
Qed.

Lemma SFleb_trans x y z :
  SFleb x y = true -> SFleb y z = true -> SFleb x z = true.
Proof.
  unfold SFleb.
  destruct x as [sx|sx| |sx mx ex], y as [sy|sy| |sy my ey], z as [sz|sz| |sz mz ez];
    simpl; try destruct sx; try destruct sy; try destruct sz; simpl;
    try reflexivity; try discriminate; try (intros _; discriminate).
  all: change (Pos.compare_cont Eq) with Pos.compare;
    destruct (Z.compare_spec ex ey); destruct (Z.compare_spec ey ez);
    destruct (Z.compare_spec ex ez);
    destruct (Pos.compare_spec mx my); destruct (Pos.compare_spec my mz);
    destruct (Pos.compare_spec mx mz); simpl;
    try reflexivity; try discriminate; try (intros _; discriminate); try lia.
Qed.

Lemma leb_trans (x y z : float) :
  (x <=? y)%float = true -> (y <=? z)%float = true -> (x <=? z)%float = true.
Proof. rewrite !leb_spec. apply SFleb_trans. Qed.

Lemma ltb_leb (x y : float) : (x <? y)%float = true -> (x <=? y)%float = true.
Proof.
  rewrite ltb_spec, leb_spec. unfold SFltb, SFleb.
  destruct (SFcompare (Prim2SF x) (Prim2SF y)) as [[]|]; congruence.
Qed.

Lemma leb_is_nan_l (x y : float) : (x <=? y)%float = true -> is_nan x = false.
Proof.
  unfold is_nan. rewrite leb_spec, eqb_spec. unfold SFleb, SFeqb.
  destruct (Prim2SF x) as [sx|sx| |sx mx ex]; simpl; try reflexivity.
  - destruct sx; reflexivity.
  - discriminate.
  - intros _. rewrite Z.compare_refl.
    change (Pos.compare_cont Eq) with Pos.compare.
    rewrite Pos.compare_refl. destruct sx; reflexivity.
Qed.

Lemma leb_is_nan_r (x y : float) : (x <=? y)%float = true -> is_nan y = false.
Proof.
  intros H. apply (leb_is_nan_l y y).
  revert H. rewrite !leb_spec. unfold SFleb.
  rewrite (SFcompare_antisym (Prim2SF y) (Prim2SF y)).
  destruct (Prim2SF x) as [sx|sx| |sx mx ex], (Prim2SF y) as [sy|sy| |sy my ey];
    simpl; try discriminate; intros _; try reflexivity;
    try (destruct sy; reflexivity).
  all: rewrite Z.compare_refl; change (Pos.compare_cont Eq) with Pos.compare;
    rewrite Pos.compare_refl; destruct sy; reflexivity.
Qed.

(** Numbers that are not NaN are totally ordered. *)
Lemma not_ltb_leb (x y : float) :
  is_nan x = false -> is_nan y = false ->
  (x <? y)%float = false -> (y <=? x)%float = true.
Proof.
  unfold is_nan. rewrite ltb_spec, leb_spec, !eqb_spec.
  unfold SFltb, SFleb, SFeqb. rewrite (SFcompare_antisym (Prim2SF x) (Prim2SF y)).
  destruct (Prim2SF x) as [sx|sx| |sx mx ex], (Prim2SF y) as [sy|sy| |sy my ey];
    simpl; try discriminate; try reflexivity;
    try (destruct sx; simpl; congruence);
    try (destruct sy; simpl; congruence).
  - destruct sx, sy; simpl; congruence.
  - rewrite !Z.compare_refl. change (Pos.compare_cont Eq) with Pos.compare.
    rewrite !Pos.compare_refl. intros _ _.
    destruct sx, sy; simpl; try congruence;
      destruct (ex ?= ey); simpl; try congruence;
      destruct (mx ?= my)%positive; simpl; congruence.
Qed.

Lemma eqb_zero_not_pos (x : float) :
  (x =? 0)%float = true -> (0 <? x)%float = false.
Proof.
  rewrite eqb_spec, ltb_spec. unfold SFeqb, SFltb.
  rewrite (SFcompare_antisym (Prim2SF x) (Prim2SF 0%float)).
  destruct (SFcompare (Prim2SF x) (Prim2SF 0%float)) as [[]|]; simpl; congruence.
Qed.

(** Sums of non-negative numbers are non-negative, hence never NaN. *)


Lemma iter_pos_inv {A} (P : A -> Prop) (f : A -> A) :
  (forall x, P x -> P (f x)) -> forall n x, P x -> P (iter_pos f n x).
Proof.
  intros Hf. induction n as [n IH|n IH|]; simpl; intros x Hx; auto.
Qed.

Lemma shr_1_nonneg mrs : 0 <= shr_m mrs -> 0 <= shr_m (shr_1 mrs).
Proof.
  destruct mrs as [m r s]. simpl.
  destruct m as [|[p|p|]|[p|p|]]; simpl; lia.
Qed.

Lemma shr_fexp_nonneg prec emax m e l :
  0 <= m -> 0 <= shr_m (fst (shr_fexp prec emax m e l)).
Proof.
  intros Hm. unfold shr_fexp, shr.
  assert (H0 : 0 <= shr_m (shr_record_of_loc m l)).
  { destruct l as [|[]]; simpl; exact Hm. }
  destruct (fexp prec emax (Zdigits2 m + e) - e); simpl; try exact H0.
  apply (iter_pos_inv (fun r => 0 <= shr_m r)); [apply shr_1_nonneg | exact H0].
Qed.

Lemma round_nearest_even_nonneg m l : 0 <= m -> 0 <= round_nearest_even m l.
Proof.
  intros Hm. destruct l as [|[]]; simpl; try lia.
  destruct (Z.even m); lia.
Qed.

Lemma binary_round_aux_nonneg prec emax m e l :
  0 <= m -> SFnonneg (binary_round_aux prec emax false m e l) = true.
Proof.
  intros Hm. unfold binary_round_aux.
  pose proof (shr_fexp_nonneg prec emax m e l Hm) as H1.
  destruct (shr_fexp prec emax m e l) as [mrs' e']. simpl in H1.
  pose proof (shr_fexp_nonneg prec emax _ e' loc_Exact
                (round_nearest_even_nonneg _ (loc_of_shr_record mrs') H1)) as H2.
  destruct (shr_fexp prec emax _ e' loc_Exact) as [mrs'' e'']. simpl in H2.
  destruct (shr_m mrs''); try reflexivity; [|lia].
  destruct (e'' <=? emax - prec); reflexivity.
Qed.

Lemma SFadd_nonneg prec emax x y :
  SFnonneg x = true -> SFnonneg y = true -> SFnonneg (SFadd prec emax x y) = true.
Proof.
  destruct x as [sx|sx| |sx mx ex], y as [sy|sy| |sy my ey]; simpl;
    try discriminate; try (intros; assumption); try reflexivity.
  - intros _ _. destruct sx, sy; reflexivity.
  - destruct sx, sy; simpl; try discriminate. reflexivity.
  - destruct sx, sy; simpl; try discriminate. intros _ _.
    unfold binary_round.
    destruct (shl_align _ _ _) as [mz ez].
    apply binary_round_aux_nonneg. lia.
Qed.

Lemma leb_zero_spec (x : float) : (0 <=? x)%float = SFnonneg (Prim2SF x).
Proof.
  rewrite leb_spec. change (Prim2SF 0%float) with (S754_zero false).
  unfold SFleb.
  destruct (Prim2SF x) as [s|s| |s m e]; simpl; try reflexivity;
    destruct s; reflexivity.
Qed.

Lemma add_nonneg (x y : float) :
  (0 <=? x)%float = true -> (0 <=? y)%float = true -> (0 <=? x + y)%float = true.
Proof. rewrite !leb_zero_spec, add_spec. apply SFadd_nonneg. Qed.

(** ** The sort *)


Lemma insert_desc_perm r l : Permutation (insert_desc r l) (r :: l).
Proof.
  induction l as [|r' l IH]; simpl; [reflexivity|].
  destruct (score r <? score r')%float; [|reflexivity].
  rewrite IH. apply perm_swap.
Qed.

Lemma sort_desc_perm l : Permutation (sort_desc l) l.
Proof.
  induction l as [|r l IH]; simpl; [reflexivity|].
  rewrite insert_desc_perm. now constructor.
Qed.

Lemma insert_desc_sorted r l :
  is_nan (score r) = false -> no_nan l ->
  StronglySorted ge_score l -> StronglySorted ge_score (insert_desc r l).
Proof.
  intros Hr Hl Hs. induction Hs as [|r' l Hs IH Hall]; simpl.
  - constructor; constructor.
  - inversion Hl as [|? ? Hr' Hl']; subst.
    destruct (score r <? score r')%float eqn:E.
    + constructor; [apply IH; exact Hl'|].
      apply (Permutation_Forall (x := r :: l)).
      * symmetry. apply insert_desc_perm.
      * constructor; [apply ltb_leb; exact E | exact Hall].
    + assert (Hge : ge_score r r') by (apply not_ltb_leb; assumption).
      constructor; [constructor; assumption|].
      constructor; [exact Hge|].
      eapply Forall_impl; [|exact Hall].
      intros a Ha. unfold ge_score in *. eapply leb_trans; eassumption.
Qed.

Lemma sort_desc_sorted l : no_nan l -> StronglySorted ge_score (sort_desc l).
Proof.
  induction 1 as [|r l Hr Hl IH]; simpl; [constructor|].
  apply insert_desc_sorted; [exact Hr | | exact IH].
  apply (Permutation_Forall (x := l)); [symmetry; apply sort_desc_perm | exact Hl].
Qed.

(** ** The tally *)


Lemma score_answers_state items tally st :
  snd (score_answers items tally st) = st.
Proof.
  revert tally. induction items as [|[qid cid] items IH]; intros tally; simpl.
  - reflexivity.
  - unfold bind, _get_question_or_404, gets, bind. simpl.
    destruct (dict_get qid (QUESTION_STORE st)) as [q|]; simpl; [|reflexivity].
    destruct (find_choice cid (q_choices q)); apply IH.
Qed.

Lemma score_answers_ok items tally st :
  existsb (question_missing (QUESTION_STORE st)) items = false ->
  score_answers items tally st =
    (Return (fold_left (apply_answer (QUESTION_STORE st)) items tally), st).
Proof.
  revert tally. induction items as [|[qid cid] items IH]; intros tally; simpl.
  - reflexivity.
  - rewrite orb_false_iff. unfold question_missing at 1, dict_mem. simpl.
    intros [Hq Hrest].
    unfold bind, _get_question_or_404, gets, bind, apply_answer. simpl.
    destruct (dict_get qid (QUESTION_STORE st)) as [q|]; simpl; [|discriminate].
    destruct (find_choice cid (q_choices q)); apply IH; exact Hrest.
Qed.

Lemma score_answers_missing items tally st :
  existsb (question_missing (QUESTION_STORE st)) items = true ->
  score_answers items tally st = (Raise (not_found "Question not found"), st).
Proof.
  revert tally. induction items as [|[qid cid] items IH]; intros tally; simpl.
  - discriminate.
  - unfold question_missing at 1, dict_mem. simpl.
    unfold bind, _get_question_or_404, gets, bind. simpl.
    destruct (dict_get qid (QUESTION_STORE st)) as [q|]; simpl; [|reflexivity].
    intros H. destruct (find_choice cid (q_choices q)); apply IH; exact H.
Qed.

Lemma compute_scores_ok session st :
  existsb (question_missing (QUESTION_STORE st)) (answers session) = false ->
  _compute_scores session st =
    (Return (sort_desc (tally_results
       (fold_left (apply_answer (QUESTION_STORE st)) (answers session)
                  (initial_tally (CHARACTER_STORE st))))), st).
Proof.
  intros H. unfold _compute_scores, bind, gets. simpl.
  rewrite score_answers_ok by exact H. reflexivity.
Qed.

Lemma compute_scores_missing session st :
  existsb (question_missing (QUESTION_STORE st)) (answers session) = true ->
  _compute_scores session st = (Raise (not_found "Question not found"), st).
Proof.
  intros H. unfold _compute_scores, bind, gets. simpl.
  rewrite score_answers_missing by exact H. reflexivity.
Qed.

Lemma tally_add_keys tally cw : dict_keys (tally_add tally cw) = dict_keys tally.
Proof.
  destruct cw as [k w]. unfold tally_add.
  destruct (dict_get k tally) eqn:E; [|reflexivity].
  apply dict_keys_set_present. congruence.
Qed.

Lemma fold_tally_add_keys ws tally :
  dict_keys (fold_left tally_add ws tally) = dict_keys tally.
Proof.
  revert tally. induction ws as [|cw ws IH]; intros tally; simpl; [reflexivity|].
  now rewrite IH, tally_add_keys.
Qed.

Lemma apply_answer_keys qs tally a :
  dict_keys (apply_answer qs tally a) = dict_keys tally.
Proof.
  unfold apply_answer. destruct (dict_get (fst a) qs) as [q|]; [|reflexivity].
  destruct (find_choice (snd a) (q_choices q)); [|reflexivity].
  apply fold_tally_add_keys.
Qed.

Lemma fold_apply_answer_keys qs items tally :
  dict_keys (fold_left (apply_answer qs) items tally) = dict_keys tally.
Proof.
  revert tally. induction items as [|a items IH]; intros tally; simpl; [reflexivity|].
  now rewrite IH, apply_answer_keys.
Qed.

Lemma initial_tally_keys cs : dict_keys (initial_tally cs) = dict_keys cs.
Proof.
  unfold initial_tally, dict_keys. rewrite map_map. simpl. apply map_id.
Qed.

Lemma initial_tally_get cs cid :
  In cid (dict_keys cs) -> dict_get cid (initial_tally cs) = Some 0%float.
Proof.
  unfold initial_tally. induction (dict_keys cs) as [|k ks IH]; simpl; [tauto|].
  intros [->|H].
  - now rewrite String.eqb_refl.
  - destruct (String.eqb cid k); [reflexivity | auto].
Qed.

Lemma tally_results_ids tally :
  map character_id (tally_results tally) = dict_keys tally.
Proof.
  unfold tally_results, dict_keys. rewrite map_map.
  apply map_ext. now intros [k v].
Qed.

Lemma tally_add_get c k w tally :
  dict_get c (tally_add tally (k, w)) =
    if String.eqb c k
    then option_map (fun v => (v + w)%float) (dict_get c tally)
    else dict_get c tally.
Proof.
  unfold tally_add. destruct (String.eqb_spec c k) as [->|Hne].
  - destruct (dict_get k tally) as [v|] eqn:E; simpl.
    + apply dict_get_set_same.
    + exact E.
  - destruct (dict_get k tally); [|reflexivity].
    now apply dict_get_set_other.
Qed.

Lemma fold_tally_add_get c ws tally :
  dict_wf ws = true ->
  dict_get c (fold_left tally_add ws tally) =
    match dict_get c ws with
    | Some w => option_map (fun v => (v + w)%float) (dict_get c tally)
    | None => dict_get c tally
    end.
Proof.
  unfold dict_wf. revert tally.
  induction ws as [|[k w] ws IH]; intros tally Hwf; [reflexivity|].
  simpl in Hwf. apply andb_true_iff in Hwf as [Hk Hws].
  apply negb_true_iff in Hk.
  cbn [fold_left dict_get]. rewrite IH by exact Hws. rewrite tally_add_get.
  destruct (String.eqb_spec c k) as [->|Hne]; [|reflexivity].
  destruct (dict_get k ws) eqn:E; [|reflexivity].
  apply dict_get_some_in, (in_map fst) in E. simpl in E.
  apply existsb_eqb_in in E. unfold dict_keys in Hk. congruence.
Qed.

Lemma find_choice_in cid cs choice :
  find_choice cid cs = Some choice -> In choice cs.
Proof. intros H. now apply find_some in H. Qed.

Lemma store_question_wf st qid q :
  catalog_wf st = true ->
  dict_get qid (QUESTION_STORE st) = Some q -> question_wf q = true.
Proof.
  unfold catalog_wf. rewrite andb_true_iff, forallb_forall. intros [_ H] Hq.
  apply dict_get_some_in in Hq. exact (H _ Hq).
Qed.

Lemma apply_answer_get st c tally a :
  catalog_wf st = true ->
  dict_get c (apply_answer (QUESTION_STORE st) tally a) =
    option_map (fun v => add_contribution (QUESTION_STORE st) c v a)
               (dict_get c tally).
Proof.
  intros Hwf. unfold apply_answer, add_contribution, contribution.
  destruct (dict_get (fst a) (QUESTION_STORE st)) as [q|] eqn:Hq.
  - destruct (find_choice (snd a) (q_choices q)) as [choice|] eqn:Hc.
    + rewrite fold_tally_add_get.
      * destruct (dict_get c (ch_weights choice));
          destruct (dict_get c tally); reflexivity.
      * pose proof (store_question_wf _ _ _ Hwf Hq) as Hw.
        unfold question_wf in Hw. rewrite forallb_forall in Hw.
        apply Hw. eapply find_choice_in; eassumption.
    + destruct (dict_get c tally); reflexivity.
  - destruct (dict_get c tally); reflexivity.
Qed.

Lemma fold_apply_answer_get st c items tally :
  catalog_wf st = true ->
  dict_get c (fold_left (apply_answer (QUESTION_STORE st)) items tally) =
    option_map (fold_left (add_contribution (QUESTION_STORE st) c) items)
               (dict_get c tally).
Proof.
  intros Hwf. revert tally.
  induction items as [|a items IH]; intros tally; simpl.
  - destruct (dict_get c tally); reflexivity.
  - rewrite IH, apply_answer_get by exact Hwf.
    destruct (dict_get c tally); reflexivity.
Qed.

Lemma in_dict_get {V} k (v : V) d :
  dict_wf d = true -> In (k, v) d -> dict_get k d = Some v.
Proof.
  unfold dict_wf. induction d as [|[k' v'] d IH]; simpl; [tauto|].
  rewrite andb_true_iff, negb_true_iff. intros [Hk Hd] [[= -> ->]|Hin].
  - now rewrite String.eqb_refl.
  - destruct (String.eqb_spec k k') as [->|_]; [|auto].
    apply (in_map fst) in Hin. simpl in Hin.
    apply existsb_eqb_in in Hin. unfold dict_keys in Hk. congruence.
Qed.

(** Non-negative weights keep every tally non-negative. *)

Lemma dict_set_Forall {V} (Q : V -> Prop) k v (d : dict V) :
  Forall (fun kv => Q (snd kv)) d -> Q v ->
  Forall (fun kv => Q (snd kv)) (dict_set k v d).
Proof.
  intros Hd Hv. induction Hd as [|[k' v'] d Hkv Hd IH]; simpl.
  - constructor; [exact Hv | constructor].
  - destruct (String.eqb k k'); constructor; auto.
Qed.

Lemma dict_get_Forall {V} (Q : V -> Prop) k v (d : dict V) :
  Forall (fun kv => Q (snd kv)) d -> dict_get k d = Some v -> Q v.
Proof.
  intros Hd Hg. apply dict_get_some_in in Hg.
  rewrite Forall_forall in Hd. exact (Hd _ Hg).
Qed.

Lemma tally_add_nonneg tally k w :
  tally_nonneg tally -> (0 <=? w)%float = true -> tally_nonneg (tally_add tally (k, w)).
Proof.
  intros Ht Hw. unfold tally_add.
  destruct (dict_get k tally) as [v|] eqn:E; [|exact Ht].
  apply (dict_set_Forall (fun x => (0 <=? x)%float = true)); [exact Ht|].
  apply add_nonneg; [|exact Hw].
  exact (dict_get_Forall (fun x => (0 <=? x)%float = true) _ _ _ Ht E).
Qed.

Lemma fold_tally_add_nonneg ws tally :
  forallb (fun cw => (0 <=? snd cw)%float) ws = true ->
  tally_nonneg tally -> tally_nonneg (fold_left tally_add ws tally).
Proof.
  revert tally. induction ws as [|[k w] ws IH]; intros tally Hws Ht; [exact Ht|].
  simpl in Hws. apply andb_true_iff in Hws as [Hw Hws].
  cbn [fold_left]. apply IH; [exact Hws|]. now apply tally_add_nonneg.
Qed.

Lemma apply_answer_nonneg st tally a :
  weights_nonneg st = true ->
  tally_nonneg tally -> tally_nonneg (apply_answer (QUESTION_STORE st) tally a).
Proof.
  intros Hst Ht. unfold apply_answer.
  destruct (dict_get (fst a) (QUESTION_STORE st)) as [q|] eqn:Hq; [|exact Ht].
  destruct (find_choice (snd a) (q_choices q)) as [choice|] eqn:Hc; [|exact Ht].
  apply fold_tally_add_nonneg; [|exact Ht].
  unfold weights_nonneg in Hst. rewrite forallb_forall in Hst.
  apply dict_get_some_in in Hq. specialize (Hst _ Hq). simpl in Hst.
  unfold question_nonneg in Hst. rewrite forallb_forall in Hst.
  apply Hst. eapply find_choice_in; eassumption.
Qed.

Lemma fold_apply_answer_nonneg st items tally :
  weights_nonneg st = true ->
  tally_nonneg tally ->
  tally_nonneg (fold_left (apply_answer (QUESTION_STORE st)) items tally).
Proof.
  intros Hst. revert tally.
  induction items as [|a items IH]; intros tally Ht; [exact Ht|].
  cbn [fold_left]. apply IH. now apply apply_answer_nonneg.
Qed.

Lemma initial_tally_nonneg cs : tally_nonneg (initial_tally cs).
Proof.
  unfold tally_nonneg, initial_tally.
  induction (dict_keys cs); simpl; constructor; [reflexivity | assumption].
Qed.

Lemma tally_results_no_nan tally :
  tally_nonneg tally -> no_nan (tally_results tally).
Proof.
  unfold tally_nonneg, no_nan, tally_results. intros H.
  induction H as [|[k v] t Hkv Ht IH]; simpl; constructor; [|exact IH].
  simpl in *. eapply leb_is_nan_r; exact Hkv.
Qed.

Lemma in_tally_results r tally :
  In r (tally_results tally) -> In (character_id r, score r) tally.
Proof.
  unfold tally_results. rewrite in_map_iff.
  intros ([k v] & <- & Hin). exact Hin.
Qed.

Lemma answers_resolve_false st session :
  answers_resolve st session = true ->
  existsb (question_missing (QUESTION_STORE st)) (answers session) = false.
Proof. unfold answers_resolve. now rewrite negb_true_iff. Qed.

(** ** Scoring (C1) *)

Lemma hd_error_in {A} (l : list A) x : hd_error l = Some x -> In x l.
Proof. destruct l; simpl; [discriminate | intros [= ->]; now left]. Qed.

(** The search of [_compute_scores] stops at the first choice that
    carries the identifier. *)
Lemma find_choice_first cid q :
  find_choice cid (q_choices q) = hd_error (choices_with_id cid q).
Proof.
  unfold find_choice, choices_with_id.
  induction (q_choices q) as [|c cs IH]; simpl; [reflexivity|].
  destruct (String.eqb (ch_id c) cid); [reflexivity | exact IH].
Qed.

Lemma contribution_answered qs cid a :
  contribution qs cid a =
    match answered_choice qs a with
    | Some c => dict_get cid (ch_weights c)
    | None => None
    end.
Proof.
  unfold contribution, answered_choice.
  destruct (dict_get (fst a) qs) as [q|]; [|reflexivity].
  now rewrite find_choice_first.
Qed.

Lemma fold_add_contribution qs cid items acc :
  fold_left (add_contribution qs cid) items acc =
    fold_left PrimFloat.add (weights_of cid (answered_choices qs items)) acc.
Proof.
  revert acc. induction items as [|a items IH]; intros acc; [reflexivity|].
  cbn [fold_left answered_choices flat_map]. rewrite IH.
  unfold weights_of. rewrite flat_map_app, fold_left_app. f_equal.
  unfold add_contribution. rewrite contribution_answered.
  destruct (answered_choice qs a) as [c|]; [|reflexivity].
  cbn [flat_map]. rewrite app_nil_r.
  destruct (dict_get cid (ch_weights c)); reflexivity.
Qed.

(** C1. Whatever the catalog and the session, its dictionaries being
    genuine and the answered questions all existing, [_compute_scores]
    returns, without touching the stores, a list with exactly one pair per
    character of [CHARACTER_STORE] and no other; the score of a character
    is the plain sum, from 0.0, of the weights that the answered choices
    give it, an answered choice being the one of the answered question
    that carries the recorded identifier: 0.0 when nothing weights the
    character, neither averaged nor scaled; and the list is sorted by
    decreasing score.  The order is asserted for scores that are
    numbers: no score is NaN when the weights are non-negative, as the
    data model has them. *)
Theorem compute_scores_ranking (st : Store) (session : Session) :
  catalog_wf st = true ->
  answers_resolve st session = true ->
  exists results,
    _compute_scores session st = (Return results, st) /\
    Permutation (map character_id results) (dict_keys (CHARACTER_STORE st)) /\
    NoDup (map character_id results) /\
    (forall r, In r results ->
       score r =
         float_sum (weights_of (character_id r)
                      (answered_choices (QUESTION_STORE st) (answers session)))) /\
    (forall r, In r results ->
       weights_of (character_id r)
         (answered_choices (QUESTION_STORE st) (answers session)) = [] ->
       score r = 0%float) /\
    (forall c, In c (answered_choices (QUESTION_STORE st) (answers session)) ->
       exists qid q,
         In (qid, ch_id c) (answers session) /\
         dict_get qid (QUESTION_STORE st) = Some q /\ In c (q_choices q)) /\
    (no_nan results -> StronglySorted ge_score results) /\
    (weights_nonneg st = true -> no_nan results).
Proof.
  intros Hwf Hres.
  pose proof Hwf as Hwf'. unfold catalog_wf in Hwf'.
  apply andb_true_iff in Hwf' as [Hcs _].
  set (T := fold_left (apply_answer (QUESTION_STORE st)) (answers session)
                      (initial_tally (CHARACTER_STORE st))).
  assert (HkT : dict_keys T = dict_keys (CHARACTER_STORE st)).
  { unfold T. now rewrite fold_apply_answer_keys, initial_tally_keys. }
  assert (Hperm : Permutation (map character_id (sort_desc (tally_results T)))
                              (dict_keys (CHARACTER_STORE st))).
  { rewrite <- HkT, <- tally_results_ids.
    apply Permutation_map, sort_desc_perm. }
  assert (Hsum : forall r, In r (sort_desc (tally_results T)) ->
            score r =
              float_sum (weights_of (character_id r)
                (answered_choices (QUESTION_STORE st) (answers session)))).
  { intros r Hr.
    apply (Permutation_in _ (sort_desc_perm _)) in Hr.
    apply in_tally_results in Hr.
    assert (HwT : dict_wf T = true) by (unfold dict_wf; now rewrite HkT).
    pose proof (in_dict_get _ _ _ HwT Hr) as Hg.
    unfold T in Hg. rewrite fold_apply_answer_get in Hg by exact Hwf.
    rewrite initial_tally_get in Hg.
    + simpl in Hg. injection Hg as Hg.
      unfold float_sum. rewrite <- fold_add_contribution. symmetry. exact Hg.
    + rewrite <- HkT. apply (in_map fst) in Hr. exact Hr. }
  exists (sort_desc (tally_results T)).
  split; [apply compute_scores_ok, answers_resolve_false, Hres|].
  split; [exact Hperm|].
  split.
  { apply (Permutation_NoDup (l := dict_keys (CHARACTER_STORE st)));
      [symmetry; exact Hperm | now apply nodupb_NoDup]. }
  split; [exact Hsum|].
  split.
  { intros r Hr Hnone. rewrite (Hsum r Hr), Hnone. reflexivity. }
  split.
  { intros c Hc. unfold answered_choices in Hc.
    apply in_flat_map in Hc as ([qid cid] & Hin & Hc).
    unfold answered_choice in Hc. cbn [fst snd] in Hc.
    destruct (dict_get qid (QUESTION_STORE st)) as [q|] eqn:Hq; [|contradiction].
    destruct (hd_error (choices_with_id cid q)) as [c'|] eqn:Hh; [|contradiction].
    destruct Hc as [->|[]].
    apply hd_error_in in Hh. unfold choices_with_id in Hh.
    apply filter_In in Hh as [Hmem Hid]. apply String.eqb_eq in Hid.
    exists qid, q. rewrite Hid. now repeat split. }
  split.
  - intros Hnn. apply sort_desc_sorted.
    apply (Permutation_Forall (sort_desc_perm _)). exact Hnn.
  - intros Hnn.
    apply (Permutation_Forall (Permutation_sym (sort_desc_perm _))).
    apply tally_results_no_nan.
    apply fold_apply_answer_nonneg; [exact Hnn | apply initial_tally_nonneg].
Qed.

Lemma compute_scores_ranking_witness :
  dict_get "s1" (SESSION_STORE demo_store) = Some demo_session /\
  answered_choices (QUESTION_STORE demo_store) (answers demo_session) =
    [mkChoice "c1" "Meditating and reflecting" [("luke", 1%float)];
     mkChoice "c6" "Leadership" [("leia", 1%float)]] /\
  (exists results,
     _compute_scores demo_session demo_store = (Return results, demo_store) /\
     results = [mkScoreResult "luke" 1; mkScoreResult "leia" 1;
                mkScoreResult "vader" 0] /\
     (forall r, In r results ->
        score r =
          float_sum (weights_of (character_id r)
            (answered_choices (QUESTION_STORE demo_store) (answers demo_session)))) /\
     StronglySorted ge_score results) /\
  (exists results,
     _compute_scores (set_answers [("q1", "c2"); ("q2", "c6")] demo_session)
       demo_store = (Return results, demo_store) /\
     results = [mkScoreResult "leia" 2; mkScoreResult "vader" 0;
                mkScoreResult "luke" 0] /\
     float_sum (weights_of "leia"
       (answered_choices (QUESTION_STORE demo_store)
          [("q1", "c2"); ("q2", "c6")])) = 2%float).
Proof.
  split; [reflexivity|]. split; [reflexivity|]. split.
  - destruct (compute_scores_ranking demo_store demo_session)
      as (results & Hrun & _ & _ & Hsum & _ & _ & Hsorted & Hnum);
      [reflexivity | reflexivity |].
    exists results. split; [exact Hrun|].
    split; [|split; [exact Hsum | apply Hsorted, Hnum; reflexivity]].
    assert (E := Hrun). vm_compute in E. now injection E as <-.
  - destruct (compute_scores_ranking demo_store
                (set_answers [("q1", "c2"); ("q2", "c6")] demo_session))
      as (results & Hrun & _ & _ & Hsum & _);
      [reflexivity | reflexivity |].
    exists results. split; [exact Hrun|].
    assert (E := Hrun). vm_compute in E. injection E as <-.
    split; [reflexivity|].
    exact (eq_sym (Hsum (mkScoreResult "leia" 2) (or_introl eq_refl))).
Defined.

(** ** Dangling references (C2) *)

Lemma existsb_missing_in qs items :
  existsb (question_missing qs) items = true <->
  exists qid cid, In (qid, cid) items /\ dict_get qid qs = None.
Proof.
  rewrite existsb_exists. unfold question_missing, dict_mem. split.
  - intros ([qid cid] & Hin & H). exists qid, cid. split; [exact Hin|].
    simpl in H. destruct (dict_get qid qs); [discriminate | reflexivity].
  - intros (qid & cid & Hin & H). exists (qid, cid). split; [exact Hin|].
    simpl. now rewrite H.
Qed.

Lemma apply_answer_skip qs tally qid cid q :
  dict_get qid qs = Some q -> find_choice cid (q_choices q) = None ->
  apply_answer qs tally (qid, cid) = tally.
Proof. intros Hq Hc. unfold apply_answer. simpl. now rewrite Hq, Hc. Qed.

(** C2. An answer whose question has left [QUESTION_STORE] makes the
    whole of [_compute_scores] fail with 404 "Question not found", and
    nothing else makes it fail; an answer whose question exists but has no
    choice with the recorded identifier is skipped: the outcome is the one
    obtained without that answer. *)
Theorem dangling_reference_policy (st : Store) (session : Session) :
  ((exists qid cid, In (qid, cid) (answers session) /\
                    dict_get qid (QUESTION_STORE st) = None) ->
   _compute_scores session st = (Raise (not_found "Question not found"), st))
  /\
  (forall e st', _compute_scores session st = (Raise e, st') ->
     exists qid cid, In (qid, cid) (answers session) /\
                     dict_get qid (QUESTION_STORE st) = None)
  /\
  (forall pre post qid cid q,
     answers session = (pre ++ (qid, cid) :: post)%list ->
     dict_get qid (QUESTION_STORE st) = Some q ->
     find_choice cid (q_choices q) = None ->
     _compute_scores session st =
       _compute_scores (set_answers (pre ++ post)%list session) st).
Proof.
  split; [|split].
  - intros H. apply compute_scores_missing, existsb_missing_in, H.
  - intros e st' H.
    destruct (existsb (question_missing (QUESTION_STORE st)) (answers session)) eqn:E.
    + apply existsb_missing_in, E.
    + rewrite compute_scores_ok in H by exact E. discriminate.
  - intros pre post qid cid q Hans Hq Hc.
    assert (Hskip : question_missing (QUESTION_STORE st) (qid, cid) = false).
    { unfold question_missing, dict_mem. simpl. now rewrite Hq. }
    destruct (existsb (question_missing (QUESTION_STORE st)) (pre ++ post)%list) eqn:E.
    + rewrite !compute_scores_missing; [reflexivity | exact E |].
      rewrite Hans. rewrite existsb_app in *. simpl. now rewrite Hskip.
    + rewrite !compute_scores_ok; [| exact E |].
      * simpl. rewrite Hans, !fold_left_app. simpl.
        now rewrite (apply_answer_skip _ _ _ _ _ Hq Hc).
      * rewrite Hans. rewrite existsb_app in *. simpl. now rewrite Hskip.
Qed.

Lemma dangling_reference_policy_witness :
  _compute_scores demo_session question_deleted_store =
    (Raise (not_found "Question not found"), question_deleted_store) /\
  (exists qid cid, In (qid, cid) (answers demo_session) /\
                   dict_get qid (QUESTION_STORE question_deleted_store) = None) /\
  _compute_scores demo_session choice_removed_store =
    _compute_scores (set_answers [("q2", "c6")] demo_session) choice_removed_store.
Proof.
  pose proof (dangling_reference_policy question_deleted_store demo_session)
    as (Hhard & Honly & _).
  pose proof (dangling_reference_policy choice_removed_store demo_session)
    as (_ & _ & Hskip).
  assert (H : _compute_scores demo_session question_deleted_store =
              (Raise (not_found "Question not found"), question_deleted_store)).
  { apply Hhard. exists "q1", "c1". split; [now left | reflexivity]. }
  split; [exact H | split].
  - exact (Honly _ _ H).
  - apply (Hskip [] [("q2", "c6")] "q1" "c1"
             (mkQuestion "q1" "Pick your ideal weekend activity:"
                [mkChoice "c2" "Strategizing a mission" [("leia", 1%float)];
                 mkChoice "c3" "Harnessing the power of the dark side"
                          [("vader", 1%float)]] 1));
      reflexivity.
Defined.

(** ** Handlers step by step *)

Lemma get_session_absent now sid st :
  dict_get sid (SESSION_STORE st) = None ->
  _get_session_or_404 now sid st = (Raise (not_found "Session not found"), st).
Proof.
  intros H. unfold _get_session_or_404, bind, gets. now rewrite H.
Qed.

Lemma get_session_expired now sid s st :
  dict_get sid (SESSION_STORE st) = Some s -> s_expires_at s < now ->
  _get_session_or_404 now sid st = (Raise expired_error, st).
Proof.
  intros H Hexp. unfold _get_session_or_404, bind, gets. rewrite H.
  destruct (Z.gtb_spec now (s_expires_at s)); [reflexivity | lia].
Qed.

Lemma get_session_live now sid s st :
  dict_get sid (SESSION_STORE st) = Some s -> now <= s_expires_at s ->
  _get_session_or_404 now sid st = (Return s, st).
Proof.
  intros H Hexp. unfold _get_session_or_404, bind, gets. rewrite H.
  destruct (Z.gtb_spec now (s_expires_at s)); [lia | reflexivity].
Qed.

Lemma update_session_run sid f s st :
  dict_get sid (SESSION_STORE st) = Some s ->
  update_session sid f st = (Return tt, set_SESSION_STORE (dict_set sid (f s)) st).
Proof.
  intros H. unfold update_session, modify, set_SESSION_STORE. now rewrite H.
Qed.

Lemma submit_answer_ok now st p s :
  valid_submission now st p = true ->
  dict_get (session_id p) (SESSION_STORE st) = Some s ->
  submit_answer now p st =
    (Return (submit_ok p),
     set_SESSION_STORE (dict_set (session_id p) (record_answer p s)) st).
Proof.
  unfold valid_submission. intros Hv Hs. rewrite Hs in Hv.
  apply andb_true_iff in Hv as [Hv Hq]. apply andb_true_iff in Hv as [Hexp Hz].
  unfold submit_answer, bind at 1.
  assert (Hle : now <= s_expires_at s)
    by (destruct (Z.gtb_spec now (s_expires_at s)); [discriminate | lia]).
  rewrite (get_session_live now _ s st Hs Hle).
  unfold dict_mem in Hz.
  unfold bind at 1, _get_quiz_or_404, bind at 1, gets.
  destruct (dict_get (quiz_id p) (QUIZ_STORE st)); [|discriminate].
  unfold ret at 1.
  unfold bind at 1, _get_question_or_404, bind at 1, gets.
  destruct (dict_get (question_id p) (QUESTION_STORE st)) as [q0|]; [|discriminate].
  unfold ret at 1. rewrite Hq. cbn [negb].
  unfold bind at 1. rewrite (update_session_run _ _ s) by exact Hs.
  unfold bind at 1. erewrite update_session_run
    by (cbn [SESSION_STORE set_SESSION_STORE]; apply dict_get_set_same).
  unfold bind at 1. erewrite update_session_run
    by (cbn [SESSION_STORE set_SESSION_STORE]; apply dict_get_set_same).
  unfold ret, submit_ok, record_answer, set_SESSION_STORE. simpl.
  now rewrite !dict_set_set.
Qed.

Lemma find_by_id l r :
  NoDup (map character_id l) -> In r l ->
  find (fun r' => String.eqb (character_id r') (character_id r)) l = Some r.
Proof.
  induction l as [|r0 l IH]; simpl; [tauto|].
  intros Hnd [->|Hin].
  - now rewrite String.eqb_refl.
  - inversion Hnd as [|? ? Hn Hd]; subst.
    destruct (String.eqb_spec (character_id r0) (character_id r)) as [E|_].
    + exfalso. apply Hn. rewrite E. now apply in_map.
    + now apply IH.
Qed.

Lemma find_by_id_none l cid :
  ~ In cid (map character_id l) ->
  find (fun r' => String.eqb (character_id r') cid) l = None.
Proof.
  induction l as [|r0 l IH]; simpl; [reflexivity|].
  intros H. destruct (String.eqb_spec (character_id r0) cid) as [E|_].
  - exfalso. apply H. now left.
  - apply IH. tauto.
Qed.

(** The score a ranking gives to a character is its tally. *)
Lemma score_of_ranking cid tally :
  dict_wf tally = true ->
  score_of cid (sort_desc (tally_results tally)) = dict_get cid tally.
Proof.
  intros Hwf. unfold score_of.
  assert (Hids : Permutation (map character_id (sort_desc (tally_results tally)))
                             (dict_keys tally)).
  { rewrite <- tally_results_ids. apply Permutation_map, sort_desc_perm. }
  destruct (dict_get cid tally) as [v|] eqn:E.
  - apply dict_get_some_in in E.
    assert (Hin : In (mkScoreResult cid v) (sort_desc (tally_results tally))).
    { apply (Permutation_in _ (Permutation_sym (sort_desc_perm _))).
      unfold tally_results. apply in_map_iff. now exists (cid, v). }
    rewrite (find_by_id _ (mkScoreResult cid v)); [reflexivity | | exact Hin].
    apply (Permutation_NoDup (Permutation_sym Hids)). now apply nodupb_NoDup.
  - rewrite find_by_id_none; [reflexivity|].
    intros Hin. apply (Permutation_in _ Hids) in Hin.
    apply dict_get_none_keys in E. contradiction.
Qed.

Lemma dict_wf_set {V} k (v : V) d :
  dict_wf d = true -> dict_wf (dict_set k v d) = true.
Proof.
  unfold dict_wf. intros Hwf.
  destruct (dict_get k d) as [v0|] eqn:E.
  - rewrite dict_keys_set_present; [exact Hwf | congruence].
  - rewrite (dict_set_absent _ _ _ E). unfold dict_keys.
    rewrite map_app. simpl. apply nodupb_NoDup.
    apply (Permutation_NoDup (Permutation_cons_append _ k)).
    constructor; [|now apply nodupb_NoDup].
    now apply dict_get_none_keys.
Qed.

Lemma record_answer_twice p p2 s :
  question_id p2 = question_id p ->
  record_answer p2 (record_answer p s) = record_answer p2 s.
Proof.
  intros Hq. unfold record_answer, set_scored, set_quiz_id, set_answer. simpl.
  now rewrite Hq, dict_set_set.
Qed.

(** ** Submission and scoring (C3) *)

(** The search of [_compute_scores] finds the choice that carries the
    identifier, the first one if several do. *)
Lemma find_choice_designated cid before choice after :
  ch_id choice = cid -> ~ In cid (map ch_id before) ->
  find_choice cid (before ++ choice :: after) = Some choice.
Proof.
  intros Hid Hnot. unfold find_choice.
  induction before as [|c before IH]; simpl.
  - now rewrite Hid, String.eqb_refl.
  - destruct (String.eqb_spec (ch_id c) cid) as [E|_].
    + exfalso. apply Hnot. now left.
    + apply IH. intros H. apply Hnot. now right.
Qed.

(** C3. A valid submission succeeds and records [answers[question] =
    choice] in the session: the other answers are kept and the question
    has this one choice, whatever it had before.  When the question had no
    answer yet, scoring the session afterwards gives every character its
    former score plus the weight that the submitted choice gives it, and
    its former score when that choice does not weight it; the submitted
    choice is the choice of the question that carries the submitted
    identifier, no choice before it doing so.  Submitting another valid
    choice for the same question afterwards leaves the stores exactly as
    that second submission alone would, so whatever is computed next, the
    scores included, only sees the last choice. *)
Theorem submit_answer_scoring (now : Z) (st : Store) (p : SubmitAnswerRequest)
    (s : Session) (q : Question) (before : list Choice) (choice : Choice)
    (after : list Choice) :
  valid_submission now st p = true ->
  dict_get (session_id p) (SESSION_STORE st) = Some s ->
  dict_get (question_id p) (QUESTION_STORE st) = Some q ->
  q_choices q = (before ++ choice :: after)%list ->
  ch_id choice = choice_id p ->
  ~ In (choice_id p) (map ch_id before) ->
  exists st',
    submit_answer now p st = (Return (submit_ok p), st') /\
    dict_get (session_id p) (SESSION_STORE st') = Some (record_answer p s) /\
    answers (record_answer p s) =
      dict_set (question_id p) (choice_id p) (answers s) /\
    (forall qid, qid <> question_id p ->
       dict_get qid (answers (record_answer p s)) = dict_get qid (answers s)) /\
    (forall cid, dict_wf (answers s) = true ->
       In (question_id p, cid) (answers (record_answer p s)) ->
       cid = choice_id p) /\
    (catalog_wf st = true -> answers_resolve st s = true ->
     dict_get (question_id p) (answers s) = None ->
     exists former latter,
       _compute_scores s st = (Return former, st) /\
       _compute_scores (record_answer p s) st' = (Return latter, st') /\
       forall cid,
         score_of cid latter =
           match dict_get cid (ch_weights choice) with
           | Some w => option_map (fun v => (v + w)%float) (score_of cid former)
           | None => score_of cid former
           end) /\
    (forall now2 p2 B (k : dict string -> M B),
       session_id p2 = session_id p -> question_id p2 = question_id p ->
       valid_submission now2 st p2 = true ->
       (submit_answer now p ;;; r <- submit_answer now2 p2 ;; k r) st =
       (r <- submit_answer now2 p2 ;; k r) st).
Proof.
  intros Hv Hs Hq Hdec Hid Hfirst.
  assert (Hc : find_choice (choice_id p) (q_choices q) = Some choice)
    by (rewrite Hdec; now apply find_choice_designated).
  exists (set_SESSION_STORE (dict_set (session_id p) (record_answer p s)) st).
  split; [now apply submit_answer_ok|].
  split; [cbn [SESSION_STORE set_SESSION_STORE]; apply dict_get_set_same|].
  split; [reflexivity|].
  split; [intros qid Hne; now apply dict_get_set_other|].
  split.
  { intros cid Hwf Hin.
    apply in_dict_get in Hin; [|now apply dict_wf_set].
    cbn in Hin. rewrite dict_get_set_same in Hin. congruence. }
  split.
  - intros Hwf Hres Hnew.
    set (qs := QUESTION_STORE st).
    set (T := fold_left (apply_answer qs) (answers s)
                        (initial_tally (CHARACTER_STORE st))).
    assert (HkT : dict_wf T = true).
    { unfold dict_wf, T. rewrite fold_apply_answer_keys, initial_tally_keys.
      unfold catalog_wf in Hwf. now apply andb_true_iff in Hwf as [Hwf _]. }
    exists (sort_desc (tally_results T)),
           (sort_desc (tally_results (fold_left tally_add (ch_weights choice) T))).
    split; [|split].
    + apply compute_scores_ok, answers_resolve_false, Hres.
    + rewrite compute_scores_ok.
      * cbn [QUESTION_STORE CHARACTER_STORE set_SESSION_STORE].
        unfold record_answer. cbn [answers set_scored set_quiz_id set_answer].
        rewrite (dict_set_absent _ _ _ Hnew), fold_left_app.
        cbn [fold_left]. unfold apply_answer at 1. cbn [fst snd].
        now rewrite Hq, Hc.
      * cbn [QUESTION_STORE set_SESSION_STORE].
        unfold record_answer. cbn [answers set_scored set_quiz_id set_answer].
        rewrite (dict_set_absent _ _ _ Hnew), existsb_app.
        rewrite (answers_resolve_false _ _ Hres). cbn [existsb orb].
        unfold question_missing, dict_mem. cbn [fst]. now rewrite Hq.
    + intros cid. rewrite !score_of_ranking.
      * apply fold_tally_add_get.
        pose proof (store_question_wf _ _ _ Hwf Hq) as Hw.
        unfold question_wf in Hw. rewrite forallb_forall in Hw.
        apply Hw. eapply find_choice_in; eassumption.
      * exact HkT.
      * unfold dict_wf in *. now rewrite fold_tally_add_keys.
  - intros now2 p2 B k Hsid Hqid Hv2.
    unfold bind at 1. rewrite (submit_answer_ok now st p s Hv Hs).
    unfold bind.
    assert (Hv2' : valid_submission now2
              (set_SESSION_STORE (dict_set (session_id p) (record_answer p s)) st)
              p2 = true).
    { revert Hv2. unfold valid_submission.
      cbn [SESSION_STORE QUIZ_STORE QUESTION_STORE set_SESSION_STORE].
      rewrite Hsid, Hs, dict_get_set_same. exact (fun H => H). }
    rewrite (submit_answer_ok now2 _ p2 (record_answer p s) Hv2')
      by (cbn [SESSION_STORE set_SESSION_STORE]; rewrite Hsid;
          apply dict_get_set_same).
    rewrite (submit_answer_ok now2 st p2 s Hv2) by (now rewrite Hsid).
    rewrite (record_answer_twice p p2 s Hqid).
    unfold set_SESSION_STORE. cbn [SESSION_STORE QUIZ_STORE QUESTION_STORE
      CHARACTER_STORE RESULT_STORE UPLOADS_DIR RESULTS_DIR].
    now rewrite Hsid, dict_set_set.
Qed.

Lemma submit_answer_scoring_witness :
  exists st',
    submit_answer 1 (mkSubmitAnswerRequest "s1" "default" "q1" "c2") fresh_store =
      (Return [("status", "ok"); ("session_id", "s1")], st') /\
    (exists former latter,
       _compute_scores fresh_session fresh_store = (Return former, fresh_store) /\
       _compute_scores
         (record_answer (mkSubmitAnswerRequest "s1" "default" "q1" "c2") fresh_session)
         st' = (Return latter, st') /\
       (forall cid,
          score_of cid latter =
            match dict_get cid [("leia", 1%float)] with
            | Some w => option_map (fun v => (v + w)%float) (score_of cid former)
            | None => score_of cid former
            end) /\
       former = [mkScoreResult "vader" 0; mkScoreResult "luke" 0;
                 mkScoreResult "leia" 0] /\
       latter = [mkScoreResult "leia" 1; mkScoreResult "vader" 0;
                 mkScoreResult "luke" 0]) /\
    (submit_answer 1 (mkSubmitAnswerRequest "s1" "default" "q1" "c2") ;;;
     r <- submit_answer 2 (mkSubmitAnswerRequest "s1" "default" "q1" "c3") ;;
     compute_match 3 3 "s1") fresh_store =
    (r <- submit_answer 2 (mkSubmitAnswerRequest "s1" "default" "q1" "c3") ;;
     compute_match 3 3 "s1") fresh_store /\
    option_map scores
      (match fst ((submit_answer 1 (mkSubmitAnswerRequest "s1" "default" "q1" "c2") ;;;
                   r <- submit_answer 2
                          (mkSubmitAnswerRequest "s1" "default" "q1" "c3") ;;
                   compute_match 3 3 "s1") fresh_store) with
       | Return m => Some m
       | _ => None
       end) =
      Some [mkScoreResult "vader" 1; mkScoreResult "luke" 0;
            mkScoreResult "leia" 0].
Proof.
  destruct (submit_answer_scoring 1 fresh_store
              (mkSubmitAnswerRequest "s1" "default" "q1" "c2") fresh_session
              (mkQuestion "q1" "Pick your ideal weekend activity:"
                 [mkChoice "c1" "Meditating and reflecting" [("luke", 1%float)];
                  mkChoice "c2" "Strategizing a mission" [("leia", 1%float)];
                  mkChoice "c3" "Harnessing the power of the dark side"
                           [("vader", 1%float)]] 1)
              [mkChoice "c1" "Meditating and reflecting" [("luke", 1%float)]]
              (mkChoice "c2" "Strategizing a mission" [("leia", 1%float)])
              [mkChoice "c3" "Harnessing the power of the dark side"
                        [("vader", 1%float)]])
    as (st' & Hrun & _ & _ & _ & _ & Hadd & Hreplace);
    [reflexivity | reflexivity | reflexivity | reflexivity | reflexivity
    | simpl; intros [H|[]]; discriminate |].
  exists st'. split; [exact Hrun | split; [|split]].
  - destruct Hadd as (former & latter & Hf & Hl & Hsum);
      [reflexivity | reflexivity | reflexivity |].
    exists former, latter.
    split; [exact Hf|]. split; [exact Hl|]. split; [exact Hsum|].
    assert (E := Hrun). vm_compute in E. injection E as <-.
    assert (Ef := Hf). vm_compute in Ef. injection Ef as <-.
    assert (El := Hl). vm_compute in El. injection El as <-.
    split; reflexivity.
  - apply (Hreplace 2 (mkSubmitAnswerRequest "s1" "default" "q1" "c3") _
             (fun _ => compute_match 3 3 "s1")); reflexivity.
  - rewrite (Hreplace 2 (mkSubmitAnswerRequest "s1" "default" "q1" "c3") _
               (fun _ => compute_match 3 3 "s1")) by reflexivity.
    reflexivity.
Defined.

(** ** Match computation (C4, C9) *)

(** The scenario of the demo quiz: [q1] answered with [c1] and [q2] with
    [c6] rank Luke and Leia at 1.0, Luke first as in the catalog, and Vader
    at 0.0. *)
Example demo_ranking :
  fst (_compute_scores demo_session demo_store) =
    Return [mkScoreResult "luke" 1%float; mkScoreResult "leia" 1%float;
            mkScoreResult "vader" 0%float].
Proof. reflexivity. Qed.

Lemma ranking_ids st session r :
  In r (ranking st session) -> In (character_id r) (dict_keys (CHARACTER_STORE st)).
Proof.
  unfold ranking. intros H.
  apply (Permutation_in _ (sort_desc_perm _)), (in_map character_id) in H.
  now rewrite tally_results_ids, fold_apply_answer_keys, initial_tally_keys in H.
Qed.

Lemma resolve_character st top :
  (forall t, top = Some t -> In (character_id t) (dict_keys (CHARACTER_STORE st))) ->
  match top with
  | Some t =>
      if (0 <? score t)%float
      then cdict <- _get_character_or_404 (character_id t) ;; ret (Some cdict)
      else ret None
  | None => ret None
  end st = (Return (resolved st top), st).
Proof.
  intros H. unfold resolved. destruct top as [t|]; [|reflexivity].
  destruct (0 <? score t)%float; [|reflexivity].
  destruct (dict_get_keys _ _ (H t eq_refl)) as [c Hc].
  unfold bind, _get_character_or_404, gets, bind. now rewrite Hc.
Qed.

Lemma compute_match_ok now stamp sid st s :
  dict_get sid (SESSION_STORE st) = Some s -> now <= s_expires_at s ->
  truthy (s_quiz_id s) = true -> answers_resolve st s = true ->
  let m := mkMatchResult sid (quiz_of s) (hd_error (ranking st s)) (ranking st s)
                         (resolved st (hd_error (ranking st s))) None stamp in
  compute_match now stamp sid st = (Return m, store_match sid m s st).
Proof.
  intros Hs Hle Hq Hres m.
  unfold compute_match, bind at 1. rewrite (get_session_live now sid s st Hs Hle).
  rewrite Hq. cbn [negb].
  unfold bind at 1.
  rewrite (compute_scores_ok s st (answers_resolve_false _ _ Hres)).
  fold (ranking st s).
  unfold bind at 1. rewrite resolve_character.
  - unfold bind at 1, update_result, modify.
    unfold bind at 1. erewrite update_session_run
      by (cbn [SESSION_STORE set_RESULT_STORE]; exact Hs).
    reflexivity.
  - intros t Ht. apply (ranking_ids st s), hd_error_in, Ht.
Qed.

Lemma ranking_empty_catalog st s : CHARACTER_STORE st = [] -> ranking st s = [].
Proof.
  intros H. unfold ranking. rewrite H.
  pose proof (fold_apply_answer_keys (QUESTION_STORE st) (answers s)
                (initial_tally [])) as Hk.
  destruct (fold_left (apply_answer (QUESTION_STORE st)) (answers s)
                      (initial_tally []));
    [reflexivity | discriminate Hk].
Qed.

(** C4. For a live session with a quiz whose answered questions exist,
    [compute_match] returns a result whose [scores] are those of
    [_compute_scores] and whose [top_match] is their first entry, if any.
    With an empty catalog the list is empty and both [top_match] and
    [character] are absent.  A top score equal to 0 leaves [character]
    absent while [top_match] is present; [character] is present exactly
    when the top score is strictly positive, and is then the stored
    character of the top match. *)
Theorem compute_match_top (now stamp : Z) (sid : string) (st : Store) (s : Session) :
  dict_get sid (SESSION_STORE st) = Some s -> now <= s_expires_at s ->
  truthy (s_quiz_id s) = true -> answers_resolve st s = true ->
  exists m st',
    compute_match now stamp sid st = (Return m, st') /\
    _compute_scores s st = (Return (scores m), st) /\
    top_match m = hd_error (scores m) /\
    (CHARACTER_STORE st = [] ->
       scores m = [] /\ top_match m = None /\ character m = None) /\
    (scores m <> [] -> exists t, top_match m = Some t) /\
    (forall t, top_match m = Some t -> (score t =? 0)%float = true ->
       character m = None) /\
    (forall t, top_match m = Some t -> (0 <? score t)%float = true ->
       exists c, character m = Some c /\
                 dict_get (character_id t) (CHARACTER_STORE st) = Some c) /\
    (forall c, character m = Some c ->
       exists t, top_match m = Some t /\ (0 <? score t)%float = true).
Proof.
  intros Hs Hle Hq Hres.
  eexists. eexists. split; [apply (compute_match_ok now stamp sid st s); assumption|].
  cbn [scores top_match character].
  split; [apply compute_scores_ok, answers_resolve_false, Hres|].
  split; [reflexivity|]. split; [|split; [|split; [|split]]].
  - intros He. rewrite (ranking_empty_catalog st s He). now repeat split.
  - intros Hne. destruct (ranking st s) as [|t l]; [contradiction | now exists t].
  - intros t Ht Hz. rewrite Ht. unfold resolved.
    now rewrite (eqb_zero_not_pos _ Hz).
  - intros t Ht Hpos. rewrite Ht. unfold resolved. rewrite Hpos.
    assert (Hin : In (character_id t) (dict_keys (CHARACTER_STORE st))).
    { apply (ranking_ids st s), hd_error_in, Ht. }
    destruct (dict_get_keys _ _ Hin) as [c Hc]. exists c. now rewrite Hc.
  - intros c Hc. unfold resolved in Hc.
    destruct (hd_error (ranking st s)) as [t|]; [|discriminate].
    exists t. split; [reflexivity|].
    destruct (0 <? score t)%float; [reflexivity | discriminate].
Qed.

Lemma compute_match_top_witness :
  (exists m st',
     compute_match 3 3 "s1" empty_catalog_store = (Return m, st') /\
     scores m = [] /\ top_match m = None /\ character m = None) /\
  (exists m st',
     compute_match 3 3 "s1" zero_score_store = (Return m, st') /\
     top_match m = Some (mkScoreResult "vader" 0%float) /\ character m = None) /\
  (exists m st' c,
     compute_match 3 3 "s1" demo_store = (Return m, st') /\
     top_match m = Some (mkScoreResult "luke" 1%float) /\
     character m = Some c /\ c_name c = "Luke Skywalker").
Proof.
  split; [|split].
  - destruct (compute_match_top 3 3 "s1" empty_catalog_store demo_session)
      as (m & st' & Hrun & _ & _ & Hempty & _); [reflexivity | simpl; lia | reflexivity.. |].
    exists m, st'. split; [exact Hrun | now apply Hempty].
  - destruct (compute_match_top 3 3 "s1" zero_score_store zero_score_session)
      as (m & st' & Hrun & Hsc & Htop & _ & _ & Hzero & _);
      [reflexivity | simpl; lia | reflexivity.. |].
    assert (Ht : top_match m = Some (mkScoreResult "vader" 0%float)).
    { assert (E : fst (_compute_scores zero_score_session zero_score_store) =
                  Return [mkScoreResult "vader" 0%float; mkScoreResult "luke" 0%float;
                          mkScoreResult "leia" 0%float]) by reflexivity.
      rewrite Hsc in E. injection E as E. now rewrite Htop, E. }
    exists m, st'. split; [exact Hrun | split; [exact Ht|]].
    apply (Hzero _ Ht). reflexivity.
  - destruct (compute_match_top 3 3 "s1" demo_store demo_session)
      as (m & st' & Hrun & Hsc & Htop & _ & _ & _ & Hpos & _);
      [reflexivity | simpl; lia | reflexivity.. |].
    assert (Ht : top_match m = Some (mkScoreResult "luke" 1%float)).
    { assert (E : fst (_compute_scores demo_session demo_store) =
                  Return [mkScoreResult "luke" 1%float; mkScoreResult "leia" 1%float;
                          mkScoreResult "vader" 0%float]) by reflexivity.
      rewrite Hsc in E. injection E as E. now rewrite Htop, E. }
    destruct (Hpos _ Ht eq_refl) as (c & Hc & Hstore).
    exists m, st', c. repeat split; [exact Hrun | exact Ht | exact Hc |].
    vm_compute in Hstore. now injection Hstore as <-.
Defined.

(** Unfolds a handler down to the reads and writes of the stores. *)
Ltac run_handler f :=
  unfold f, _get_session_or_404, _get_quiz_or_404, _get_question_or_404,
    bind, gets, raise, ret; cbn.

Lemma bind_raise {A B} (c : M A) (k : A -> M B) st e st' :
  c st = (Raise e, st') -> bind c k st = (Raise e, st').
Proof. intros H. unfold bind. now rewrite H. Qed.

Lemma bind_return {A B} (c : M A) (k : A -> M B) st a st' :
  c st = (Return a, st') -> bind c k st = k a st'.
Proof. intros H. unfold bind. now rewrite H. Qed.

(** The ways [compute_match] ends. *)
Lemma compute_match_cases now stamp sid st :
  compute_match now stamp sid st = (Raise (not_found "Session not found"), st) \/
  compute_match now stamp sid st = (Raise expired_error, st) \/
  compute_match now stamp sid st = (Raise (bad_request "No quiz selected in session"), st) \/
  compute_match now stamp sid st = (Raise (not_found "Question not found"), st) \/
  exists m st', compute_match now stamp sid st = (Return m, st').
Proof.
  destruct (dict_get sid (SESSION_STORE st)) as [s|] eqn:Hs.
  - destruct (Z.lt_ge_cases (s_expires_at s) now) as [Hexp|Hlive].
    + right; left. unfold compute_match.
      apply bind_raise. apply (get_session_expired now sid s); assumption.
    + right; right.
      destruct (truthy (s_quiz_id s)) eqn:Hq.
      * right. destruct (answers_resolve st s) eqn:Hres.
        -- right. eexists. eexists. now apply (compute_match_ok now stamp sid st s).
        -- left. unfold compute_match.
           rewrite (bind_return _ _ _ _ _ (get_session_live now sid s st Hs Hlive)).
           rewrite Hq. cbn [negb]. apply bind_raise, compute_scores_missing.
           unfold answers_resolve in Hres. now apply negb_false_iff in Hres.
      * left. unfold compute_match.
        rewrite (bind_return _ _ _ _ _ (get_session_live now sid s st Hs Hlive)).
        now rewrite Hq.
  - left. unfold compute_match. now apply bind_raise, get_session_absent.
Qed.

(** C9. Every identifier ranked by [_compute_scores] is a key of
    [CHARACTER_STORE], which the scoring leaves as it was; hence the lookup
    of the top character in [compute_match] finds it, and no call of
    [compute_match] ends with "Character not found". *)
Theorem top_character_resolves :
  (forall session st results st',
     _compute_scores session st = (Return results, st') ->
     st' = st /\
     forall r, In r results ->
       exists c, dict_get (character_id r) (CHARACTER_STORE st') = Some c) /\
  (forall now stamp sid st e st',
     compute_match now stamp sid st = (Raise e, st') ->
     detail e <> "Character not found").
Proof.
  split.
  - intros session st results st' H.
    destruct (existsb (question_missing (QUESTION_STORE st)) (answers session)) eqn:E.
    + rewrite compute_scores_missing in H by exact E. discriminate.
    + rewrite compute_scores_ok in H by exact E. injection H as <- <-.
      split; [reflexivity|]. intros r Hr.
      apply dict_get_keys. exact (ranking_ids st session r Hr).
  - intros now stamp sid st e st' H.
    destruct (compute_match_cases now stamp sid st)
      as [E|[E|[E|[E|(m & st1 & E)]]]];
      rewrite E in H; try discriminate; injection H as <- _; discriminate.
Qed.

Lemma top_character_resolves_witness :
  (forall r,
     In r [mkScoreResult "luke" 1%float; mkScoreResult "leia" 1%float;
           mkScoreResult "vader" 0%float] ->
     exists c, dict_get (character_id r) (CHARACTER_STORE demo_store) = Some c) /\
  detail (not_found "Question not found") <> "Character not found".
Proof.
  destruct top_character_resolves as [Hranked Hmatch]. split.
  - apply (Hranked demo_session demo_store _ demo_store). reflexivity.
  - apply (Hmatch 3 3 "s1" question_deleted_store _ question_deleted_store).
    reflexivity.
Defined.

(** ** Failed submissions (C10) *)

Lemma submit_answer_unfold now p st :
  submit_answer now p st =
    match dict_get (session_id p) (SESSION_STORE st) with
    | None => (Raise (not_found "Session not found"), st)
    | Some s =>
        if now >? s_expires_at s then (Raise expired_error, st)
        else
          match dict_get (quiz_id p) (QUIZ_STORE st) with
          | None => (Raise (not_found "Quiz not found"), st)
          | Some _ =>
              match dict_get (question_id p) (QUESTION_STORE st) with
              | None => (Raise (not_found "Question not found"), st)
              | Some q =>
                  if existsb (String.eqb (choice_id p)) (map ch_id (q_choices q))
                  then (Return (submit_ok p),
                        set_SESSION_STORE
                          (dict_set (session_id p) (record_answer p s)) st)
                  else (Raise (bad_request "Invalid choice for question"), st)
              end
          end
    end.
Proof.
  destruct (dict_get (session_id p) (SESSION_STORE st)) as [s|] eqn:Hs.
  - destruct (now >? s_expires_at s) eqn:Hexp.
    + unfold submit_answer. apply bind_raise.
      unfold _get_session_or_404, bind, gets. now rewrite Hs, Hexp.
    + destruct (dict_get (quiz_id p) (QUIZ_STORE st)) as [z|] eqn:Hz.
      * destruct (dict_get (question_id p) (QUESTION_STORE st)) as [q0|] eqn:Hq.
        -- destruct (existsb _ _) eqn:Hc.
           ++ apply submit_answer_ok; [|exact Hs].
              unfold valid_submission, dict_mem. now rewrite Hs, Hexp, Hz, Hq, Hc.
           ++ run_handler submit_answer.
              rewrite Hs; cbn. rewrite Hexp; cbn. rewrite Hz; cbn.
              rewrite Hq; cbn. now rewrite Hc.
        -- run_handler submit_answer.
           rewrite Hs; cbn. rewrite Hexp; cbn. rewrite Hz; cbn. now rewrite Hq.
      * run_handler submit_answer.
        rewrite Hs; cbn. rewrite Hexp; cbn. now rewrite Hz.
  - unfold submit_answer. apply bind_raise. now apply get_session_absent.
Qed.

(** C10. A call of [submit_answer] that fails leaves every store as it
    was, the session included: an unknown or expired session, an unknown
    quiz, an unknown question and a choice that is not one of the
    question's are all detected before the first write.  These are the
    only failures. *)
Theorem submit_answer_atomic (now : Z) (p : SubmitAnswerRequest) (st : Store) :
  (forall e st', submit_answer now p st = (Raise e, st') -> st' = st) /\
  (dict_get (session_id p) (SESSION_STORE st) = None ->
   submit_answer now p st = (Raise (not_found "Session not found"), st)) /\
  (forall s, dict_get (session_id p) (SESSION_STORE st) = Some s ->
     (s_expires_at s < now ->
      submit_answer now p st = (Raise expired_error, st)) /\
     (now <= s_expires_at s ->
      (dict_get (quiz_id p) (QUIZ_STORE st) = None ->
       submit_answer now p st = (Raise (not_found "Quiz not found"), st)) /\
      (dict_get (quiz_id p) (QUIZ_STORE st) <> None ->
       (dict_get (question_id p) (QUESTION_STORE st) = None ->
        submit_answer now p st = (Raise (not_found "Question not found"), st)) /\
       (forall q, dict_get (question_id p) (QUESTION_STORE st) = Some q ->
          ~ In (choice_id p) (map ch_id (q_choices q)) ->
          submit_answer now p st =
            (Raise (bad_request "Invalid choice for question"), st))))) /\
  (valid_submission now st p = false ->
   exists e, submit_answer now p st = (Raise e, st)).
Proof.
  split; [|split; [|split]].
  - intros e st'. rewrite submit_answer_unfold.
    destruct (dict_get (session_id p) (SESSION_STORE st)) as [s|];
      [|now intros [= _ <-]].
    destruct (now >? s_expires_at s); [now intros [= _ <-]|].
    destruct (dict_get (quiz_id p) (QUIZ_STORE st)); [|now intros [= _ <-]].
    destruct (dict_get (question_id p) (QUESTION_STORE st)) as [q0|];
      [|now intros [= _ <-]].
    destruct (existsb _ _); [discriminate | now intros [= _ <-]].
  - intros Hs. rewrite submit_answer_unfold. now rewrite Hs.
  - intros s Hs. rewrite submit_answer_unfold, Hs. split.
    + intros Hexp. destruct (Z.gtb_spec now (s_expires_at s)); [reflexivity | lia].
    + intros Hlive. destruct (Z.gtb_spec now (s_expires_at s)); [lia|]. split.
      * now intros ->.
      * intros Hz. destruct (dict_get (quiz_id p) (QUIZ_STORE st)); [|congruence].
        split; [now intros ->|].
        intros q0 -> Hn.
        destruct (existsb _ _) eqn:Hc; [|reflexivity].
        apply existsb_eqb_in in Hc. contradiction.
  - rewrite submit_answer_unfold. unfold valid_submission, dict_mem.
    destruct (dict_get (session_id p) (SESSION_STORE st)) as [s|]; [|eauto].
    destruct (now >? s_expires_at s); [eauto|].
    destruct (dict_get (quiz_id p) (QUIZ_STORE st)); [|eauto].
    destruct (dict_get (question_id p) (QUESTION_STORE st)) as [q0|]; [|eauto].
    destruct (existsb _ _); [discriminate | eauto].
Qed.

Lemma submit_answer_atomic_witness :
  snd (submit_answer 1 (mkSubmitAnswerRequest "s1" "default" "q1" "c9") fresh_store)
    = fresh_store /\
  submit_answer 1 (mkSubmitAnswerRequest "s0" "default" "q1" "c1") fresh_store =
    (Raise (not_found "Session not found"), fresh_store) /\
  submit_answer (60 * minute + 1)
    (mkSubmitAnswerRequest "s1" "default" "q1" "c1") fresh_store =
    (Raise expired_error, fresh_store) /\
  submit_answer 1 (mkSubmitAnswerRequest "s1" "weekly" "q1" "c1") fresh_store =
    (Raise (not_found "Quiz not found"), fresh_store) /\
  submit_answer 1 (mkSubmitAnswerRequest "s1" "default" "q7" "c1") fresh_store =
    (Raise (not_found "Question not found"), fresh_store) /\
  submit_answer 1 (mkSubmitAnswerRequest "s1" "default" "q1" "c9") fresh_store =
    (Raise (bad_request "Invalid choice for question"), fresh_store) /\
  exists e,
    submit_answer 1 (mkSubmitAnswerRequest "s1" "default" "q1" "c4") fresh_store =
      (Raise e, fresh_store).
Proof.
  split; [|split; [|split; [|split; [|split; [|split]]]]].
  - destruct (submit_answer_atomic 1
                (mkSubmitAnswerRequest "s1" "default" "q1" "c9") fresh_store)
      as (Hatomic & _).
    destruct (submit_answer 1 (mkSubmitAnswerRequest "s1" "default" "q1" "c9")
                fresh_store) as [[a|e|x] st'] eqn:E.
    + vm_compute in E. discriminate.
    + simpl. exact (Hatomic e st' eq_refl).
    + vm_compute in E. discriminate.
  - apply (submit_answer_atomic 1
             (mkSubmitAnswerRequest "s0" "default" "q1" "c1") fresh_store).
    reflexivity.
  - apply (submit_answer_atomic (60 * minute + 1)
             (mkSubmitAnswerRequest "s1" "default" "q1" "c1") fresh_store)
      with (s := fresh_session); [reflexivity | simpl; lia].
  - apply (submit_answer_atomic 1
             (mkSubmitAnswerRequest "s1" "weekly" "q1" "c1") fresh_store)
      with (s := fresh_session); [reflexivity | simpl; lia | reflexivity].
  - apply (submit_answer_atomic 1
             (mkSubmitAnswerRequest "s1" "default" "q7" "c1") fresh_store)
      with (s := fresh_session);
      [reflexivity | simpl; lia | simpl; discriminate | reflexivity].
  - apply (submit_answer_atomic 1
             (mkSubmitAnswerRequest "s1" "default" "q1" "c9") fresh_store)
      with (s := fresh_session)
           (q := mkQuestion "q1" "Pick your ideal weekend activity:"
                   [mkChoice "c1" "Meditating and reflecting" [("luke", 1%float)];
                    mkChoice "c2" "Strategizing a mission" [("leia", 1%float)];
                    mkChoice "c3" "Harnessing the power of the dark side"
                             [("vader", 1%float)]] 1);
      [reflexivity | simpl; lia | simpl; discriminate | reflexivity |].
    simpl. intros [H|[H|[H|[]]]]; discriminate.
  - apply (submit_answer_atomic 1
             (mkSubmitAnswerRequest "s1" "default" "q1" "c4") fresh_store).
    reflexivity.
Defined.

(** ** Expired and unknown sessions (C6) *)

(** C6. When the session is in [SESSION_STORE] and its [expires_at] is
    before the clock, each of [submit_answer], [compute_match],
    [upload_selfie], [generate_portrait] and [get_result] ends with 410
    "Session expired" (not with 404) and leaves the stores, the expired
    session included, as they were; when the identifier is not in
    [SESSION_STORE] each ends with 404 "Session not found". *)
Theorem expired_session_outcome (now : Z) (sid : string) (st : Store) :
  (forall s,
     dict_get sid (SESSION_STORE st) = Some s -> s_expires_at s < now ->
     _get_session_or_404 now sid st = (Raise expired_error, st) /\
     (forall p, session_id p = sid ->
        submit_answer now p st = (Raise expired_error, st)) /\
     (forall stamp, compute_match now stamp sid st = (Raise expired_error, st)) /\
     (forall uuid content_type chunk,
        upload_selfie now uuid sid content_type chunk st =
          (Raise expired_error, st)) /\
     generate_portrait now sid st = (Raise expired_error, st) /\
     get_result now sid st = (Raise expired_error, st) /\
     status_code expired_error = 410 /\
     dict_get sid (SESSION_STORE st) = Some s) /\
  (dict_get sid (SESSION_STORE st) = None ->
     _get_session_or_404 now sid st = (Raise (not_found "Session not found"), st) /\
     (forall p, session_id p = sid ->
        submit_answer now p st = (Raise (not_found "Session not found"), st)) /\
     (forall stamp,
        compute_match now stamp sid st =
          (Raise (not_found "Session not found"), st)) /\
     (forall uuid content_type chunk,
        upload_selfie now uuid sid content_type chunk st =
          (Raise (not_found "Session not found"), st)) /\
     generate_portrait now sid st = (Raise (not_found "Session not found"), st) /\
     get_result now sid st = (Raise (not_found "Session not found"), st) /\
     status_code (not_found "Session not found") = 404).
Proof.
  split.
  - intros s Hs Hexp.
    pose proof (get_session_expired now sid s st Hs Hexp) as H.
    repeat split; try exact H; try exact Hs.
    + intros p <-. unfold submit_answer. now apply bind_raise.
    + intros stamp. unfold compute_match. now apply bind_raise.
    + intros uuid ct chunk. unfold upload_selfie. now apply bind_raise.
    + unfold generate_portrait. now apply bind_raise.
    + unfold get_result. now apply bind_raise.
  - intros Hs.
    pose proof (get_session_absent now sid st Hs) as H.
    repeat split; try exact H.
    + intros p <-. unfold submit_answer. now apply bind_raise.
    + intros stamp. unfold compute_match. now apply bind_raise.
    + intros uuid ct chunk. unfold upload_selfie. now apply bind_raise.
    + unfold generate_portrait. now apply bind_raise.
    + unfold get_result. now apply bind_raise.
Qed.

Lemma expired_session_outcome_witness :
  (submit_answer (60 * minute + 1)
     (mkSubmitAnswerRequest "s1" "default" "q1" "c2") demo_store =
     (Raise expired_error, demo_store) /\
   compute_match (60 * minute + 1) 0 "s1" demo_store = (Raise expired_error, demo_store) /\
   upload_selfie (60 * minute + 1) "0f" "s1" "image/png" "PNG" demo_store =
     (Raise expired_error, demo_store) /\
   generate_portrait (60 * minute + 1) "s1" demo_store = (Raise expired_error, demo_store) /\
   get_result (60 * minute + 1) "s1" demo_store = (Raise expired_error, demo_store)) /\
  (get_result 1 "s0" demo_store = (Raise (not_found "Session not found"), demo_store) /\
   generate_portrait 1 "s0" demo_store =
     (Raise (not_found "Session not found"), demo_store)).
Proof.
  destruct (expired_session_outcome (60 * minute + 1) "s1" demo_store) as [Hexp _].
  destruct (Hexp demo_session) as (_ & H1 & H2 & H3 & H4 & H5 & _);
    [reflexivity | simpl; lia |].
  destruct (expired_session_outcome 1 "s0" demo_store) as [_ Habs].
  destruct Habs as (_ & _ & _ & _ & H6 & H7 & _); [reflexivity|].
  exact (conj (conj (H1 (mkSubmitAnswerRequest "s1" "default" "q1" "c2") eq_refl)
                 (conj (H2 0) (conj (H3 "0f" "image/png" "PNG") (conj H4 H5))))
              (conj H7 H6)).
Defined.

(** ** Portrait generation (C7) *)

(** C7. For a live session, [generate_portrait] ends with 400 "No selfie
    uploaded for session" when [uploads] is empty; otherwise with 400 "No
    match computed for session" when [RESULT_STORE] holds no match with a
    [top_match] for the session; otherwise it takes the last element of
    [uploads], ends with 404 "Uploaded file not found on server" when the
    file of that name is no longer in the uploads directory, and else
    copies that file to the portrait of the session and records its path.
    The failures leave the stores as they were. *)
Theorem generate_portrait_preconditions (now : Z) (sid : string) (st : Store)
    (s : Session) :
  dict_get sid (SESSION_STORE st) = Some s -> now <= s_expires_at s ->
  (uploads s = [] ->
   generate_portrait now sid st =
     (Raise (bad_request "No selfie uploaded for session"), st)) /\
  (uploads s <> [] -> stored_top_match sid st = None ->
   generate_portrait now sid st =
     (Raise (bad_request "No match computed for session"), st)) /\
  (uploads s <> [] -> stored_top_match sid st <> None ->
   (dict_get (basename (last (uploads s) "")) (UPLOADS_DIR st) = None ->
    generate_portrait now sid st =
      (Raise (not_found "Uploaded file not found on server"), st)) /\
   (forall bytes,
      dict_get (basename (last (uploads s) "")) (UPLOADS_DIR st) = Some bytes ->
      exists st',
        generate_portrait now sid st =
          (Return [("status", "ok"); ("portrait_url", portrait_path sid)], st') /\
        dict_get (portrait_name sid) (RESULTS_DIR st') = Some bytes /\
        stored_portrait sid st' = Some (portrait_path sid) /\
        stored_match sid st' = stored_match sid st)).
Proof.
  intros Hs Hlive.
  pose proof (get_session_live now sid s st Hs Hlive) as Hget.
  unfold generate_portrait. rewrite (bind_return _ _ _ _ _ Hget).
  unfold stored_top_match, stored_match, stored_portrait.
  split; [|split].
  - now intros ->.
  - intros Hne Hnone. destruct (uploads s) as [|u us]; [contradiction|].
    unfold bind, gets.
    destruct (dict_get sid (RESULT_STORE st)) as [e|]; [|reflexivity].
    destruct (re_match e) as [m|]; [|reflexivity].
    now rewrite Hnone.
  - intros Hne Hsome. destruct (uploads s) as [|u us] eqn:Hu; [contradiction|].
    unfold bind, gets. cbv beta iota.
    destruct (dict_get sid (RESULT_STORE st)) as [e|] eqn:He; [|contradiction].
    destruct (re_match e) as [m|] eqn:Hm; [|contradiction].
    destruct (top_match m) as [t|]; [|contradiction].
    split.
    + intros Hblob. now rewrite Hblob.
    + intros bytes Hblob. rewrite Hblob.
      eexists. split; [reflexivity|].
      unfold update_result, modify.
      cbn [RESULTS_DIR RESULT_STORE set_RESULTS_DIR set_RESULT_STORE snd].
      rewrite He. rewrite !dict_get_set_same.
      cbn [re_match re_portrait_url set_portrait_url].
      now rewrite Hm.
Qed.

Lemma generate_portrait_preconditions_witness :
  generate_portrait 7 "s1" demo_store =
    (Raise (bad_request "No selfie uploaded for session"), demo_store) /\
  generate_portrait 7 "s1" uploaded_store =
    (Raise (bad_request "No match computed for session"), uploaded_store) /\
  generate_portrait 7 "s1" blob_lost_store =
    (Raise (not_found "Uploaded file not found on server"), blob_lost_store) /\
  exists st',
    generate_portrait 7 "s1" matched_store =
      (Return [("status", "ok"); ("portrait_url", "/media/results/portrait_s1.png")],
       st') /\
    dict_get "portrait_s1.png" (RESULTS_DIR st') = Some "second".
Proof.
  split; [|split; [|split]].
  - apply (generate_portrait_preconditions 7 "s1" demo_store demo_session);
      [reflexivity | simpl; lia | reflexivity].
  - apply (generate_portrait_preconditions 7 "s1" uploaded_store
             (append_upload "/media/uploads/s1_aa.png" demo_session));
      [reflexivity | simpl; lia | simpl; discriminate | reflexivity].
  - apply (generate_portrait_preconditions 7 "s1" blob_lost_store matched_session);
      [reflexivity | simpl; lia | simpl; discriminate | vm_compute; discriminate
      | reflexivity].
  - destruct (generate_portrait_preconditions 7 "s1" matched_store matched_session)
      as (_ & _ & Hgen); [reflexivity | simpl; lia |].
    destruct Hgen as [_ Hcopy]; [simpl; discriminate | vm_compute; discriminate |].
    destruct (Hcopy "second") as (st' & Hrun & Hfile & _); [reflexivity|].
    exists st'. split; [exact Hrun | exact Hfile].
Defined.

(** ** Result retrieval (C8) *)

(** C8, as amended.  [get_result] ends with 404 "Session not found" for
    an unknown session and with 410 "Session expired" for a session past
    its expiry; for a live session it ends with 404 "No result for
    session" when no match is stored for it, and otherwise returns the
    stored match, its [portrait_url] replaced by the stored portrait path
    when there is one.  It never writes, and 404 and 410 are the only
    status codes of its errors. *)
Theorem get_result_outcomes (now : Z) (sid : string) (st : Store) :
  (dict_get sid (SESSION_STORE st) = None ->
   get_result now sid st = (Raise (not_found "Session not found"), st)) /\
  (forall s, dict_get sid (SESSION_STORE st) = Some s ->
     (s_expires_at s < now ->
      get_result now sid st = (Raise expired_error, st)) /\
     (now <= s_expires_at s ->
      (stored_match sid st = None ->
       get_result now sid st = (Raise (not_found "No result for session"), st)) /\
      (forall m, stored_match sid st = Some m ->
         get_result now sid st =
           (Return (if truthy (stored_portrait sid st)
                    then with_portrait_url (stored_portrait sid st) m
                    else m), st)))) /\
  (forall e st', get_result now sid st = (Raise e, st') ->
     st' = st /\ (status_code e = 404 \/ status_code e = 410)).
Proof.
  assert (Hlive : forall s, dict_get sid (SESSION_STORE st) = Some s ->
            now <= s_expires_at s ->
            get_result now sid st =
              match stored_match sid st with
              | None => (Raise (not_found "No result for session"), st)
              | Some m =>
                  (Return (if truthy (stored_portrait sid st)
                           then with_portrait_url (stored_portrait sid st) m
                           else m), st)
              end).
  { intros s Hs Hle. unfold get_result.
    rewrite (bind_return _ _ _ _ _ (get_session_live now sid s st Hs Hle)).
    unfold bind, gets, stored_match, stored_portrait. cbv beta iota.
    destruct (dict_get sid (RESULT_STORE st)) as [e|]; cbn.
    - destruct (re_match e); [|reflexivity].
      destruct (truthy (re_portrait_url e)); reflexivity.
    - reflexivity. }
  split; [|split].
  - intros Hs. unfold get_result. now apply bind_raise, get_session_absent.
  - intros s Hs. split.
    + intros Hexp. unfold get_result.
      apply bind_raise. now apply (get_session_expired now sid s).
    + intros Hle. rewrite (Hlive s Hs Hle). split.
      * now intros ->.
      * now intros m ->.
  - intros e st'. destruct (dict_get sid (SESSION_STORE st)) as [s|] eqn:Hs.
    + destruct (Z.lt_ge_cases (s_expires_at s) now) as [Hexp|Hle].
      * unfold get_result.
        rewrite (bind_raise _ _ _ _ _ (get_session_expired now sid s st Hs Hexp)).
        intros [= <- <-]. split; [reflexivity | now right].
      * rewrite (Hlive s eq_refl Hle). destruct (stored_match sid st); [discriminate|].
        intros [= <- <-]. split; [reflexivity | now left].
    + unfold get_result.
      rewrite (bind_raise _ _ _ _ _ (get_session_absent now sid st Hs)).
      intros [= <- <-]. split; [reflexivity | now left].
Qed.

Lemma get_result_outcomes_witness :
  get_result 8 "s0" portrait_store =
    (Raise (not_found "Session not found"), portrait_store) /\
  get_result (60 * minute + 1) "s1" portrait_store =
    (Raise expired_error, portrait_store) /\
  get_result 8 "s1" uploaded_store =
    (Raise (not_found "No result for session"), uploaded_store) /\
  exists m,
    get_result 8 "s1" portrait_store = (Return m, portrait_store) /\
    top_match m = Some (mkScoreResult "luke" 1%float) /\
    portrait_url m = Some "/media/results/portrait_s1.png".
Proof.
  destruct (get_result_outcomes 8 "s0" portrait_store) as (Habsent & _ & _).
  destruct (get_result_outcomes (60 * minute + 1) "s1" portrait_store)
    as (_ & Hexpired & _).
  destruct (get_result_outcomes 8 "s1" uploaded_store) as (_ & Hnone & _).
  destruct (get_result_outcomes 8 "s1" portrait_store) as (_ & Hsome & _).
  split; [apply Habsent; reflexivity|].
  split; [apply (Hexpired matched_session); [reflexivity | simpl; lia]|].
  split.
  - apply (Hnone (append_upload "/media/uploads/s1_aa.png" demo_session));
      [reflexivity | simpl; lia | reflexivity].
  - destruct (Hsome matched_session eq_refl) as [_ Hlive].
    destruct Hlive as [_ Hret]; [simpl; lia|].
    destruct (stored_match "s1" portrait_store) as [m|] eqn:Hm;
      [|vm_compute in Hm; discriminate].
    eexists. split; [apply (Hret m eq_refl)|].
    vm_compute in Hm. injection Hm as <-. split; reflexivity.
Defined.

(** C8 as stated fails: for a session past its expiry the error of
    [get_result] is 410, not 404. *)
Lemma get_result_expired_counterexample :
  get_result (60 * minute + 1) "s1" portrait_store =
    (Raise (mkHTTPException 410 "Session expired"), portrait_store) /\
  ~ (forall now sid st e st',
       get_result now sid st = (Raise e, st') -> status_code e = 404).
Proof.
  split; [reflexivity|].
  intros H.
  specialize (H (60 * minute + 1) "s1" portrait_store expired_error portrait_store
                eq_refl).
  discriminate H.
Qed.

(** ** Determinism of the scoring (C5) *)

Lemma existsb_perm {A} (f : A -> bool) l1 l2 :
  Permutation l1 l2 -> existsb f l1 = existsb f l2.
Proof.
  induction 1 as [|x l1 l2 _ IH|x y l|l1 l2 l3 _ IH1 _ IH2]; simpl.
  - reflexivity.
  - now rewrite IH.
  - destruct (f x), (f y); reflexivity.
  - now rewrite IH1.
Qed.

Lemma fold_weights_received qs cid items acc :
  fold_left (add_contribution qs cid) items acc =
    fold_left PrimFloat.add (weights_received qs items cid) acc.
Proof.
  unfold weights_received. revert acc.
  induction items as [|a items IH]; intros acc; [reflexivity|].
  cbn [fold_left flat_map]. rewrite fold_left_app, IH.
  unfold add_contribution. destruct (contribution qs cid a); reflexivity.
Qed.

Lemma dict_ext {V} (d1 d2 : dict V) :
  dict_keys d1 = dict_keys d2 -> dict_wf d1 = true ->
  (forall k, In k (dict_keys d1) -> dict_get k d1 = dict_get k d2) ->
  d1 = d2.
Proof.
  unfold dict_wf. revert d2.
  induction d1 as [|[k v] d1 IH]; intros [|[k2 v2] d2]; simpl; try discriminate.
  - reflexivity.
  - intros [= <- Hk] Hwf Hget.
    apply andb_true_iff in Hwf as [Hn Hwf]. apply negb_true_iff in Hn.
    pose proof (Hget k (or_introl eq_refl)) as Hv.
    rewrite String.eqb_refl in Hv. injection Hv as <-.
    f_equal. apply IH; [exact Hk | exact Hwf |].
    intros k' Hin. specialize (Hget k' (or_intror Hin)).
    destruct (String.eqb_spec k' k) as [E|_]; [|exact Hget].
    exfalso. rewrite E in Hin.
    apply existsb_eqb_in in Hin. unfold dict_keys in *. congruence.
Qed.

(** C5, as amended.  [_compute_scores] writes to no store, and its outcome
    is determined by [CHARACTER_STORE], [QUESTION_STORE] and the answers
    taken in their order of iteration, ties included.  For two orders of
    the same answers, the outcome is the same error, or two rankings of
    the same characters; the rankings are equal when every character is
    given its weights in the same order by both. *)
Theorem compute_scores_deterministic (st1 st2 : Store) (s1 s2 : Session) :
  CHARACTER_STORE st1 = CHARACTER_STORE st2 ->
  QUESTION_STORE st1 = QUESTION_STORE st2 ->
  snd (_compute_scores s1 st1) = st1 /\
  (answers s1 = answers s2 ->
   fst (_compute_scores s1 st1) = fst (_compute_scores s2 st2)) /\
  (Permutation (answers s1) (answers s2) ->
   (forall e, fst (_compute_scores s1 st1) = Raise e <->
              fst (_compute_scores s2 st2) = Raise e) /\
   (forall r1 r2,
      fst (_compute_scores s1 st1) = Return r1 ->
      fst (_compute_scores s2 st2) = Return r2 ->
      Permutation (map character_id r1) (map character_id r2)) /\
   (catalog_wf st1 = true ->
    (forall cid, weights_received (QUESTION_STORE st1) (answers s1) cid =
                 weights_received (QUESTION_STORE st1) (answers s2) cid) ->
    fst (_compute_scores s1 st1) = fst (_compute_scores s2 st2))).
Proof.
  intros Hcs Hqs.
  assert (Hrun : forall st s,
            _compute_scores s st =
              if existsb (question_missing (QUESTION_STORE st)) (answers s)
              then (Raise (not_found "Question not found"), st)
              else (Return (ranking st s), st)).
  { intros st s.
    destruct (existsb (question_missing (QUESTION_STORE st)) (answers s)) eqn:E.
    - now apply compute_scores_missing.
    - now apply compute_scores_ok. }
  split; [|split].
  - rewrite Hrun. now destruct (existsb _ _).
  - intros Ha. rewrite !Hrun. unfold ranking. rewrite <- Hcs, <- Hqs, <- Ha.
    now destruct (existsb _ _).
  - intros Hperm. rewrite !Hrun, <- Hqs.
    rewrite <- (existsb_perm _ _ _ Hperm).
    destruct (existsb _ (answers s1)); cbn [fst].
    + split; [tauto|]. split; [discriminate|]. reflexivity.
    + split; [split; discriminate|]. split.
      * intros r1 r2 [= <-] [= <-].
        transitivity (dict_keys (CHARACTER_STORE st1)).
        -- unfold ranking.
           rewrite (Permutation_map character_id (sort_desc_perm _)).
           now rewrite tally_results_ids, fold_apply_answer_keys, initial_tally_keys.
        -- unfold ranking. rewrite <- Hcs, <- Hqs.
           rewrite (Permutation_map character_id (sort_desc_perm _)).
           now rewrite tally_results_ids, fold_apply_answer_keys, initial_tally_keys.
      * intros Hwf Hsame. f_equal. unfold ranking. rewrite <- Hcs, <- Hqs.
        f_equal. f_equal. apply dict_ext.
        -- now rewrite !fold_apply_answer_keys.
        -- unfold dict_wf. rewrite fold_apply_answer_keys, initial_tally_keys.
           unfold catalog_wf in Hwf. now apply andb_true_iff in Hwf as [Hwf _].
        -- intros cid _. rewrite !fold_apply_answer_get by exact Hwf.
           destruct (dict_get cid (initial_tally (CHARACTER_STORE st1)));
             [|reflexivity].
           cbn [option_map]. f_equal.
           now rewrite !fold_weights_received, Hsame.
Qed.

Lemma compute_scores_deterministic_witness :
  snd (_compute_scores forward_session rounding_store) = rounding_store /\
  Permutation
    (map character_id
       [mkScoreResult "leia" 0.60000000000000009%float;
        mkScoreResult "luke" 0.6%float; mkScoreResult "vader" 0%float])
    (map character_id
       [mkScoreResult "luke" 0.6%float; mkScoreResult "leia" 0.6%float;
        mkScoreResult "vader" 0%float]) /\
  fst (_compute_scores demo_session demo_store) =
    fst (_compute_scores (set_answers [("q2", "c6"); ("q1", "c1")] demo_session)
                         demo_store).
Proof.
  destruct (compute_scores_deterministic rounding_store rounding_store
              forward_session backward_session eq_refl eq_refl)
    as (Hpure & _ & Hperm).
  destruct Hperm as (_ & Hids & _); [apply (Permutation_rev (answers forward_session))|].
  destruct (compute_scores_deterministic demo_store demo_store demo_session
              (set_answers [("q2", "c6"); ("q1", "c1")] demo_session)
              eq_refl eq_refl) as (_ & _ & Hperm).
  destruct Hperm as (_ & _ & Hsame);
    [apply (Permutation_rev (answers demo_session))|].
  split; [exact Hpure|]. split; [apply Hids; reflexivity|].
  apply Hsame; [reflexivity|].
  intros cid. unfold weights_received, contribution. cbn.
  destruct (String.eqb cid "luke"), (String.eqb cid "leia"); reflexivity.
Defined.

(** C5 as stated fails: the sessions ["s1"] and ["s2"] hold the same three
    answers, submitted in opposite orders; the sum of Leia's weights is
    0.1 + 0.2 + 0.3 for the one and 0.3 + 0.2 + 0.1 for the other, which
    differ in binary64, and the two rankings differ, top match included. *)
Lemma answer_order_counterexample :
  dict_get "s1" (SESSION_STORE rounding_store) = Some forward_session /\
  dict_get "s2" (SESSION_STORE rounding_store) = Some backward_session /\
  Permutation (answers forward_session) (answers backward_session) /\
  fst (_compute_scores forward_session rounding_store) =
    Return [mkScoreResult "leia" 0.60000000000000009%float;
            mkScoreResult "luke" 0.6%float; mkScoreResult "vader" 0%float] /\
  fst (_compute_scores backward_session rounding_store) =
    Return [mkScoreResult "luke" 0.6%float; mkScoreResult "leia" 0.6%float;
            mkScoreResult "vader" 0%float] /\
  fst (_compute_scores forward_session rounding_store) <>
    fst (_compute_scores backward_session rounding_store).
Proof.
  assert (Hf : fst (_compute_scores forward_session rounding_store) =
               Return [mkScoreResult "leia" 0.60000000000000009%float;
                       mkScoreResult "luke" 0.6%float; mkScoreResult "vader" 0%float])
    by (vm_compute; reflexivity).
  assert (Hb : fst (_compute_scores backward_session rounding_store) =
               Return [mkScoreResult "luke" 0.6%float; mkScoreResult "leia" 0.6%float;
                       mkScoreResult "vader" 0%float])
    by (vm_compute; reflexivity).
  split; [reflexivity|]. split; [reflexivity|].
  split; [apply (Permutation_rev (answers forward_session))|].
  split; [exact Hf|]. split; [exact Hb|].
  rewrite Hf, Hb. discriminate.
Qed.

(** * Further properties of the handlers *)

(** ** Life of a session *)

(** The two failures of the arithmetic on dates come to one test: the
    expiry is past [datetime.max]. *)
Lemma expiry_delta now ttl :
  representable now = true -> expiry now ttl <= datetime_max ->
  timedelta_minutes (Z.max 1 ttl) = Some (Z.max 1 ttl * minute) /\
  datetime_add now (Z.max 1 ttl * minute) = Some (expiry now ttl).
Proof.
  unfold representable, expiry, timedelta_minutes, datetime_add, representable.
  intros Hnow Hle. apply andb_true_iff in Hnow as [H0 _].
  apply Z.leb_le in H0.
  set (d := Z.max 1 ttl * minute) in *.
  assert (Hd : 0 < d) by (unfold d, minute; lia).
  assert (Hq : 0 <= d / day <= 3652059).
  { pose proof (Z.div_mod d day) as E.
    pose proof (Z.mod_pos_bound d day) as B.
    unfold datetime_max, day, minute in *. lia. }
  split.
  - cbv zeta. destruct (Z.gtb_spec (Z.abs (d / day)) 999999999); [lia | reflexivity].
  - destruct (Z.leb_spec 0 (now + d)); [|lia].
    destruct (Z.leb_spec (now + d) datetime_max); [reflexivity | lia].
Qed.

Lemma expiry_overflow now ttl :
  datetime_max < expiry now ttl ->
  datetime_add now (Z.max 1 ttl * minute) = None.
Proof.
  unfold expiry, datetime_add, representable. intros Hgt.
  destruct (Z.leb_spec (now + Z.max 1 ttl * minute) datetime_max); [lia|].
  now rewrite andb_false_r.
Qed.

Lemma create_session_run now stamp uuid ttl st :
  representable now = true -> expiry now ttl <= datetime_max ->
  create_session now stamp uuid ttl st =
    (Return (mkSessionCreateResponse uuid (expiry now ttl)),
     set_SESSION_STORE (dict_set uuid (new_session now stamp uuid ttl)) st).
Proof.
  intros Hnow Hle. destruct (expiry_delta now ttl Hnow Hle) as [Hd Ha].
  unfold create_session. now rewrite Hd, Ha.
Qed.

Lemma create_session_fails now stamp uuid ttl st :
  representable now = true -> datetime_max < expiry now ttl ->
  create_session now stamp uuid ttl st = (Uncaught OverflowError, st).
Proof.
  intros Hnow Hgt. unfold create_session.
  destruct (timedelta_minutes (Z.max 1 ttl)) as [d|] eqn:Hd; [|reflexivity].
  assert (d = Z.max 1 ttl * minute) as ->.
  { unfold timedelta_minutes in Hd. cbv zeta in Hd.
    destruct (_ >? _) in Hd; congruence. }
  now rewrite (expiry_overflow now ttl Hgt).
Qed.

(** X1. [create_session] computes the expiry, [now + max(1, ttl_minutes)]
    minutes, before it stores anything.  When a [datetime] can hold that
    instant, it answers with the identifier and the expiry and stores an
    empty session under it, leaving the other sessions alone; a lookup of
    the new session succeeds at every instant up to the expiry, fails with
    410 after it, and so succeeds during the first minute whatever
    [ttl_minutes] is.  When the instant is past [datetime.max], the
    handler is left by [OverflowError] and nothing is stored. *)
Theorem create_session_lifetime (now stamp : Z) (uuid : string) (ttl : Z)
    (st : Store) :
  representable now = true ->
  (expiry now ttl <= datetime_max ->
   exists st',
     create_session now stamp uuid ttl st =
       (Return (mkSessionCreateResponse uuid (expiry now ttl)), st') /\
     (forall t, t <= expiry now ttl ->
        _get_session_or_404 t uuid st' =
          (Return (new_session now stamp uuid ttl), st')) /\
     (forall t, expiry now ttl < t ->
        _get_session_or_404 t uuid st' = (Raise expired_error, st')) /\
     (forall t, t <= now + minute ->
        _get_session_or_404 t uuid st' =
          (Return (new_session now stamp uuid ttl), st')) /\
     (1 <= ttl -> expiry now ttl = now + ttl * minute) /\
     (forall sid, sid <> uuid ->
        dict_get sid (SESSION_STORE st') = dict_get sid (SESSION_STORE st))) /\
  (datetime_max < expiry now ttl ->
   create_session now stamp uuid ttl st = (Uncaught OverflowError, st)).
Proof.
  intros Hnow. split; [|now apply create_session_fails].
  intros Hrep.
  eexists. split; [now apply create_session_run|].
  assert (Hget : dict_get uuid
            (SESSION_STORE
               (set_SESSION_STORE (dict_set uuid (new_session now stamp uuid ttl)) st))
            = Some (new_session now stamp uuid ttl))
    by (cbn [SESSION_STORE set_SESSION_STORE]; apply dict_get_set_same).
  split; [|split; [|split; [|split]]].
  - intros t Ht. now apply (get_session_live t uuid _ _ Hget).
  - intros t Ht. now apply (get_session_expired t uuid _ _ Hget).
  - intros t Ht. apply (get_session_live t uuid _ _ Hget).
    cbn [s_expires_at new_session]. unfold expiry, minute in *. lia.
  - intros Httl. unfold expiry. now rewrite Z.max_r by lia.
  - intros sid Hne. cbn [SESSION_STORE set_SESSION_STORE].
    now apply dict_get_set_other.
Qed.

Lemma create_session_lifetime_witness :
  (exists st',
     create_session 0 0 "s1" (-5) (seed_store 0) =
       (Return (mkSessionCreateResponse "s1" minute), st') /\
     _get_session_or_404 minute "s1" st' =
       (Return (new_session 0 0 "s1" (-5)), st') /\
     _get_session_or_404 (minute + 1) "s1" st' = (Raise expired_error, st') /\
     expiry 0 60 = 60 * minute) /\
  create_session 0 0 "s1" 10000000000 (seed_store 0) =
    (Uncaught OverflowError, seed_store 0) /\
  create_session (datetime_max - minute + 1) 0 "s1" 1 (seed_store 0) =
    (Uncaught OverflowError, seed_store 0).
Proof.
  destruct (create_session_lifetime 0 0 "s1" (-5) (seed_store 0) eq_refl)
    as [Hin _].
  destruct Hin as (st' & Hrun & Hlive & Hdead & Hmin & _);
    [vm_compute; discriminate|].
  destruct (create_session_lifetime 0 0 "s1" 60 (seed_store 0) eq_refl)
    as [Hin _].
  destruct Hin as (_ & _ & _ & _ & _ & Hexact & _);
    [vm_compute; discriminate|].
  destruct (create_session_lifetime 0 0 "s1" 10000000000 (seed_store 0) eq_refl)
    as [_ Hbig].
  destruct (create_session_lifetime (datetime_max - minute + 1) 0 "s1" 1
              (seed_store 0) eq_refl) as [_ Hlate].
  split; [|split].
  - exists st'. split; [exact Hrun|].
    split; [apply Hmin; simpl; lia|].
    split; [apply Hdead; vm_compute; reflexivity|].
    apply Hexact. lia.
  - apply Hbig. vm_compute. reflexivity.
  - apply Hlate. vm_compute. reflexivity.
Defined.

(** X2. A session that has no quiz yet, as a session is when created,
    cannot be matched: [compute_match] ends with 400 "No quiz selected in
    session" and writes nothing, also right after a [create_session] that
    stored the session.  After a [create_session] that failed on the
    expiry there is no session to match: the stores are as they were and
    [compute_match] ends with 404 "Session not found" for an identifier
    that was not in use. *)
Theorem compute_match_needs_quiz (now stamp : Z) (sid : string) (st : Store) :
  (forall s, dict_get sid (SESSION_STORE st) = Some s -> now <= s_expires_at s ->
     truthy (s_quiz_id s) = false ->
     compute_match now stamp sid st =
       (Raise (bad_request "No quiz selected in session"), st)) /\
  (forall t0 stamp0 ttl,
     representable t0 = true -> expiry t0 ttl <= datetime_max ->
     now <= expiry t0 ttl ->
     (create_session t0 stamp0 sid ttl ;;; compute_match now stamp sid) st =
       (Raise (bad_request "No quiz selected in session"),
        set_SESSION_STORE (dict_set sid (new_session t0 stamp0 sid ttl)) st)) /\
  (forall t0 stamp0 ttl,
     representable t0 = true -> datetime_max < expiry t0 ttl ->
     dict_get sid (SESSION_STORE st) = None ->
     snd (create_session t0 stamp0 sid ttl st) = st /\
     compute_match now stamp sid (snd (create_session t0 stamp0 sid ttl st)) =
       (Raise (not_found "Session not found"), st)).
Proof.
  assert (H : forall st0 s, dict_get sid (SESSION_STORE st0) = Some s ->
            now <= s_expires_at s -> truthy (s_quiz_id s) = false ->
            compute_match now stamp sid st0 =
              (Raise (bad_request "No quiz selected in session"), st0)).
  { intros st0 s Hs Hle Hq. unfold compute_match.
    rewrite (bind_return _ _ _ _ _ (get_session_live now sid s st0 Hs Hle)).
    now rewrite Hq. }
  split; [apply H | split].
  - intros t0 stamp0 ttl Hnow Hrep Hle.
    unfold bind at 1. rewrite create_session_run by assumption.
    apply (H _ (new_session t0 stamp0 sid ttl)); [|exact Hle | reflexivity].
    cbn [SESSION_STORE set_SESSION_STORE]. apply dict_get_set_same.
  - intros t0 stamp0 ttl Hnow Hgt Hnone.
    rewrite create_session_fails by assumption. cbn [snd].
    split; [reflexivity|].
    unfold compute_match.
    now rewrite (bind_raise _ _ _ _ _ (get_session_absent now sid st Hnone)).
Qed.

Lemma compute_match_needs_quiz_witness :
  compute_match 1 1 "s1" fresh_store =
    (Raise (bad_request "No quiz selected in session"), fresh_store) /\
  (create_session 0 0 "s1" 60 ;;; compute_match 1 1 "s1") (seed_store 0) =
    (Raise (bad_request "No quiz selected in session"), fresh_store) /\
  compute_match 1 1 "s1"
    (snd (create_session 0 0 "s1" 10000000000 (seed_store 0))) =
    (Raise (not_found "Session not found"), seed_store 0).
Proof.
  destruct (compute_match_needs_quiz 1 1 "s1" fresh_store) as (Hplain & _ & _).
  destruct (compute_match_needs_quiz 1 1 "s1" (seed_store 0))
    as (_ & Hnew & Hnone).
  split; [|split].
  - apply (Hplain fresh_session); [reflexivity | simpl; lia | reflexivity].
  - apply (Hnew 0 0 60); [reflexivity | vm_compute; discriminate
                          | vm_compute; discriminate].
  - apply (Hnone 0 0 10000000000); [reflexivity | vm_compute; reflexivity
                                    | reflexivity].
Defined.

(** ** Matches and results *)

Lemma get_result_live now sid s st :
  dict_get sid (SESSION_STORE st) = Some s -> now <= s_expires_at s ->
  get_result now sid st =
    match stored_match sid st with
    | None => (Raise (not_found "No result for session"), st)
    | Some m => (Return (merged_result sid st m), st)
    end.
Proof.
  intros Hs Hle. unfold get_result.
  rewrite (bind_return _ _ _ _ _ (get_session_live now sid s st Hs Hle)).
  unfold bind, gets, stored_match, merged_result, stored_portrait. cbv beta iota.
  destruct (dict_get sid (RESULT_STORE st)) as [e|]; cbn.
  - destruct (re_match e); [|reflexivity].
    destruct (truthy (re_portrait_url e)); reflexivity.
  - reflexivity.
Qed.

Lemma store_match_session sid m s st :
  dict_get sid (SESSION_STORE (store_match sid m s st)) = Some (set_scored true s).
Proof.
  unfold store_match. cbn [SESSION_STORE set_SESSION_STORE set_RESULT_STORE].
  apply dict_get_set_same.
Qed.

Lemma store_match_stored sid m s st :
  stored_match sid (store_match sid m s st) = Some m /\
  stored_portrait sid (store_match sid m s st) = stored_portrait sid st.
Proof.
  unfold stored_match, stored_portrait, store_match.
  cbn [RESULT_STORE set_SESSION_STORE set_RESULT_STORE].
  destruct (dict_get sid (RESULT_STORE st)) as [e|];
    rewrite dict_get_set_same; split; reflexivity.
Qed.

Lemma store_match_twice sid m s st :
  store_match sid m (set_scored true s) (store_match sid m s st) =
    store_match sid m s st.
Proof.
  unfold store_match, set_SESSION_STORE, set_RESULT_STORE.
  cbn [QUIZ_STORE QUESTION_STORE CHARACTER_STORE SESSION_STORE RESULT_STORE
       UPLOADS_DIR RESULTS_DIR].
  f_equal.
  - now rewrite dict_set_set.
  - destruct (dict_get sid (RESULT_STORE st)) as [e|];
      now rewrite dict_get_set_same, dict_set_set.
Qed.

(** X3. Two successive calls of [compute_match] for a session, with no
    other request in between, return the same session, quiz, ranking, top
    match and character, and no portrait; the second differs by its
    [created_at] only, and when the two are stamped alike the stores after
    the second call are those after the first. *)
Theorem compute_match_idempotent (now1 stamp1 now2 stamp2 : Z) (sid : string)
    (st : Store) (s : Session) :
  dict_get sid (SESSION_STORE st) = Some s ->
  now1 <= s_expires_at s -> now2 <= s_expires_at s ->
  truthy (s_quiz_id s) = true -> answers_resolve st s = true ->
  exists m1 st1 m2 st2,
    compute_match now1 stamp1 sid st = (Return m1, st1) /\
    compute_match now2 stamp2 sid st1 = (Return m2, st2) /\
    m_quiz_id m2 = m_quiz_id m1 /\
    scores m2 = scores m1 /\
    top_match m2 = top_match m1 /\
    character m2 = character m1 /\
    m_session_id m2 = m_session_id m1 /\
    portrait_url m2 = portrait_url m1 /\
    m_created_at m1 = stamp1 /\ m_created_at m2 = stamp2 /\
    (stamp2 = stamp1 -> m2 = m1 /\ st2 = st1).
Proof.
  intros Hs H1 H2 Hq Hres.
  pose proof (compute_match_ok now1 stamp1 sid st s Hs H1 Hq Hres) as E1.
  cbv zeta in E1.
  set (m1 := mkMatchResult sid (quiz_of s) (hd_error (ranking st s)) (ranking st s)
               (resolved st (hd_error (ranking st s))) None stamp1) in *.
  pose proof (compute_match_ok now2 stamp2 sid (store_match sid m1 s st)
                (set_scored true s) (store_match_session sid m1 s st) H2 Hq Hres)
    as E2.
  cbv zeta in E2.
  eexists. eexists. eexists. eexists.
  split; [exact E1|]. split; [exact E2|].
  repeat (split; [reflexivity|]).
  intros ->. split; [reflexivity|].
  apply store_match_twice.
Qed.

Lemma compute_match_idempotent_witness :
  exists m1 st1 m2 st2,
    compute_match 3 3 "s1" demo_store = (Return m1, st1) /\
    compute_match 4 9 "s1" st1 = (Return m2, st2) /\
    scores m2 = scores m1 /\ top_match m2 = top_match m1 /\
    character m2 = character m1.
Proof.
  destruct (compute_match_idempotent 3 3 4 9 "s1" demo_store demo_session)
    as (m1 & st1 & m2 & st2 & E1 & E2 & _ & Hs & Ht & Hc & _);
    [reflexivity | simpl; lia | simpl; lia | reflexivity | reflexivity |].
  exists m1, st1, m2, st2.
  exact (conj E1 (conj E2 (conj Hs (conj Ht Hc)))).
Defined.

(** X4. The match [compute_match] returns is the one [get_result] serves
    afterwards, as long as the session lives: unchanged when no portrait
    was generated for the session before, and otherwise with the path of
    that earlier portrait as its [portrait_url] and every other field as
    computed. *)
Theorem match_then_result (now stamp t : Z) (sid : string) (st : Store)
    (s : Session) :
  dict_get sid (SESSION_STORE st) = Some s ->
  now <= s_expires_at s -> t <= s_expires_at s ->
  truthy (s_quiz_id s) = true -> answers_resolve st s = true ->
  exists m st1,
    compute_match now stamp sid st = (Return m, st1) /\
    portrait_url m = None /\
    (stored_portrait sid st = None -> get_result t sid st1 = (Return m, st1)) /\
    (stored_portrait sid st = Some "" -> get_result t sid st1 = (Return m, st1)) /\
    (forall p, stored_portrait sid st = Some p -> p <> "" ->
       exists r,
         get_result t sid st1 = (Return r, st1) /\
         portrait_url r = Some p /\
         m_session_id r = m_session_id m /\ m_quiz_id r = m_quiz_id m /\
         top_match r = top_match m /\ scores r = scores m /\
         character r = character m /\ m_created_at r = m_created_at m).
Proof.
  intros Hs Hle Ht Hq Hres.
  pose proof (compute_match_ok now stamp sid st s Hs Hle Hq Hres) as E.
  cbv zeta in E.
  set (m := mkMatchResult sid (quiz_of s) (hd_error (ranking st s)) (ranking st s)
              (resolved st (hd_error (ranking st s))) None stamp) in *.
  assert (G : get_result t sid (store_match sid m s st) =
              (Return (merged_result sid st m), store_match sid m s st)).
  { rewrite (get_result_live t sid (set_scored true s));
      [|apply store_match_session | exact Ht].
    destruct (store_match_stored sid m s st) as [Hm Hp].
    rewrite Hm. unfold merged_result. now rewrite Hp. }
  exists m, (store_match sid m s st).
  split; [exact E|]. split; [reflexivity|]. split; [|split].
  - intros Hn. rewrite G. unfold merged_result. now rewrite Hn.
  - intros Hn. rewrite G. unfold merged_result. now rewrite Hn.
  - intros p Hp Hne. exists (merged_result sid st m).
    split; [exact G|].
    unfold merged_result. rewrite Hp. cbn [truthy].
    destruct (String.eqb_spec p "") as [E0|_]; [contradiction|].
    cbn [negb]. unfold with_portrait_url.
    cbn [portrait_url m_session_id m_quiz_id top_match scores character
         m_created_at].
    repeat split; reflexivity.
Qed.

Lemma match_then_result_witness :
  (exists m st1,
     compute_match 3 3 "s1" demo_store = (Return m, st1) /\
     get_result 4 "s1" st1 = (Return m, st1)) /\
  (exists m st1 r,
     compute_match 8 8 "s1" portrait_store = (Return m, st1) /\
     portrait_url m = None /\
     get_result 9 "s1" st1 = (Return r, st1) /\
     portrait_url r = Some "/media/results/portrait_s1.png" /\
     scores r = scores m /\
     scores r = [mkScoreResult "luke" 1; mkScoreResult "leia" 1;
                 mkScoreResult "vader" 0]).
Proof.
  split.
  - destruct (match_then_result 3 3 4 "s1" demo_store demo_session)
      as (m & st1 & E & _ & Hplain & _);
      [reflexivity | simpl; lia | simpl; lia | reflexivity | reflexivity |].
    exists m, st1. split; [exact E | apply Hplain; reflexivity].
  - destruct (match_then_result 8 8 9 "s1" portrait_store matched_session)
      as (m & st1 & E & Hnone & _ & _ & Hold);
      [reflexivity | simpl; lia | simpl; lia | reflexivity | reflexivity |].
    destruct (Hold "/media/results/portrait_s1.png")
      as (r & Hr & Hurl & _ & _ & _ & Hsc & _);
      [reflexivity | discriminate |].
    exists m, st1, r.
    split; [exact E|]. split; [exact Hnone|]. split; [exact Hr|].
    split; [exact Hurl|]. split; [exact Hsc|].
    rewrite Hsc. assert (E' := E). vm_compute in E'. now injection E' as <- _.
Defined.

(** ** Uploads and portraits *)

Lemma generate_portrait_run now sid st s m bytes :
  dict_get sid (SESSION_STORE st) = Some s -> now <= s_expires_at s ->
  uploads s <> [] ->
  stored_match sid st = Some m -> top_match m <> None ->
  dict_get (basename (last (uploads s) "")) (UPLOADS_DIR st) = Some bytes ->
  generate_portrait now sid st = (Return (portrait_ok sid), store_portrait sid bytes st).
Proof.
  intros Hs Hle Hup Hm Htop Hblob. unfold generate_portrait.
  rewrite (bind_return _ _ _ _ _ (get_session_live now sid s st Hs Hle)).
  destruct (uploads s) as [|u us] eqn:Hu; [contradiction|].
  unfold stored_match in Hm.
  unfold bind, gets. cbv beta iota.
  destruct (dict_get sid (RESULT_STORE st)) as [e|]; [|discriminate].
  rewrite Hm. destruct (top_match m); [|contradiction].
  now rewrite Hblob.
Qed.

Lemma store_portrait_stored sid bytes st m :
  stored_match sid st = Some m ->
  stored_match sid (store_portrait sid bytes st) = Some m /\
  stored_portrait sid (store_portrait sid bytes st) = Some (portrait_path sid).
Proof.
  unfold stored_match, stored_portrait, store_portrait.
  cbn [RESULT_STORE set_RESULT_STORE set_RESULTS_DIR].
  destruct (dict_get sid (RESULT_STORE st)) as [e|]; [|discriminate].
  intros Hm. rewrite dict_get_set_same. split; [exact Hm | reflexivity].
Qed.

Lemma store_portrait_twice sid bytes st :
  store_portrait sid bytes (store_portrait sid bytes st) = store_portrait sid bytes st.
Proof.
  unfold store_portrait, set_RESULT_STORE, set_RESULTS_DIR.
  cbn [QUIZ_STORE QUESTION_STORE CHARACTER_STORE SESSION_STORE RESULT_STORE
       UPLOADS_DIR RESULTS_DIR].
  f_equal.
  - destruct (dict_get sid (RESULT_STORE st)) as [e|];
      now rewrite dict_get_set_same, dict_set_set.
  - now rewrite dict_set_set.
Qed.

(** X5. After a successful [generate_portrait], [get_result] serves the
    stored match with the path of the portrait of the session as its
    [portrait_url]; generating again with nothing else changed gives the
    same answer and leaves the stores as they are. *)
Theorem portrait_then_result (now t : Z) (sid : string) (st : Store)
    (s : Session) (m : MatchResult) (bytes : string) :
  dict_get sid (SESSION_STORE st) = Some s ->
  now <= s_expires_at s -> t <= s_expires_at s ->
  uploads s <> [] ->
  stored_match sid st = Some m -> top_match m <> None ->
  dict_get (basename (last (uploads s) "")) (UPLOADS_DIR st) = Some bytes ->
  exists st',
    generate_portrait now sid st = (Return (portrait_ok sid), st') /\
    get_result t sid st' =
      (Return (with_portrait_url (Some (portrait_path sid)) m), st') /\
    generate_portrait t sid st' = (Return (portrait_ok sid), st').
Proof.
  intros Hs Hle Ht Hup Hm Htop Hblob.
  exists (store_portrait sid bytes st).
  destruct (store_portrait_stored sid bytes st m Hm) as [Hm' Hp'].
  split; [now apply (generate_portrait_run now sid st s m bytes)|]. split.
  - rewrite (get_result_live t sid s); [|exact Hs | exact Ht].
    rewrite Hm'. unfold merged_result. rewrite Hp'. reflexivity.
  - rewrite (generate_portrait_run t sid _ s m bytes);
      [| exact Hs | exact Ht | exact Hup | exact Hm' | exact Htop | exact Hblob].
    now rewrite store_portrait_twice.
Qed.

Lemma portrait_then_result_witness :
  exists st' m,
    generate_portrait 7 "s1" matched_store =
      (Return [("status", "ok"); ("portrait_url", "/media/results/portrait_s1.png")],
       st') /\
    get_result 8 "s1" st' = (Return m, st') /\
    portrait_url m = Some "/media/results/portrait_s1.png" /\
    generate_portrait 8 "s1" st' =
      (Return [("status", "ok"); ("portrait_url", "/media/results/portrait_s1.png")],
       st').
Proof.
  destruct (stored_match "s1" matched_store) as [m|] eqn:Hm;
    [|vm_compute in Hm; discriminate].
  destruct (portrait_then_result 7 8 "s1" matched_store matched_session m "second")
    as (st' & Hgen & Hres & Hagain);
    [reflexivity | simpl; lia | simpl; lia | simpl; discriminate | exact Hm
    | vm_compute in Hm; injection Hm as <-; discriminate | reflexivity |].
  exists st', (with_portrait_url (Some (portrait_path "s1")) m).
  exact (conj Hgen (conj Hres (conj eq_refl Hagain))).
Defined.

Lemma basename_from_no_slash s acc :
  no_slash s = true -> basename_from acc s = (acc ++ s)%string.
Proof.
  revert acc. induction s as [|c s IH]; intros acc; simpl.
  - intros _. induction acc as [|a acc IHa]; simpl; [reflexivity | now rewrite <- IHa].
  - rewrite andb_true_iff, negb_true_iff. intros [Hc Hs].
    rewrite Hc, IH by exact Hs.
    induction acc as [|a acc IHa]; simpl; [reflexivity | now rewrite IHa].
Qed.

Lemma no_slash_app s1 s2 :
  no_slash s1 = true -> no_slash s2 = true -> no_slash (s1 ++ s2) = true.
Proof.
  induction s1 as [|c s1 IH]; simpl; [auto|].
  rewrite !andb_true_iff. intros [Hc H1] H2. split; [exact Hc | auto].
Qed.

Lemma basename_upload_path sid uuid_hex content_type :
  no_slash sid = true -> no_slash uuid_hex = true ->
  basename (upload_path sid uuid_hex content_type) =
    upload_name sid uuid_hex content_type.
Proof.
  intros H1 H2. unfold upload_path, basename. cbn [append basename_from Ascii.eqb Bool.eqb].
  apply (basename_from_no_slash _ "").
  unfold upload_name. apply no_slash_app; [exact H1|].
  apply (no_slash_app "_"); [reflexivity|].
  apply no_slash_app; [exact H2|].
  destruct (String.eqb content_type "image/jpeg"); reflexivity.
Qed.

Lemma upload_selfie_run now uuid_hex sid content_type chunk st s :
  dict_get sid (SESSION_STORE st) = Some s -> now <= s_expires_at s ->
  upload_selfie now uuid_hex sid content_type chunk st =
    if allowed_type content_type
    then (Return [("status", "ok");
                  ("path", upload_path sid uuid_hex content_type)],
          store_upload sid uuid_hex content_type chunk s st)
    else (Raise (bad_request "Unsupported file type"), st).
Proof.
  intros Hs Hle. unfold upload_selfie.
  rewrite (bind_return _ _ _ _ _ (get_session_live now sid s st Hs Hle)).
  unfold allowed_type.
  destruct (String.eqb content_type "image/jpeg" || String.eqb content_type "image/png");
    [|reflexivity].
  cbn [negb]. unfold bind at 1, modify at 1.
  unfold bind at 1. erewrite update_session_run
    by (cbn [SESSION_STORE set_UPLOADS_DIR]; exact Hs).
  reflexivity.
Qed.

(** X6. For a live session, [upload_selfie] refuses a declared type other
    than JPEG and PNG with 400 and writes nothing; otherwise it stores the
    bytes under a name made of the session and of a fresh identifier, and
    appends the path to the uploads of the session.  A portrait generated
    next, a match with a top entry being stored and the identifiers
    holding no slash, is a copy of the bytes just uploaded. *)
Theorem upload_then_generate (now now2 : Z) (uuid_hex sid content_type chunk : string)
    (st : Store) (s : Session) (m : MatchResult) :
  dict_get sid (SESSION_STORE st) = Some s ->
  now <= s_expires_at s -> now2 <= s_expires_at s ->
  (allowed_type content_type = false ->
   upload_selfie now uuid_hex sid content_type chunk st =
     (Raise (bad_request "Unsupported file type"), st)) /\
  (allowed_type content_type = true ->
   exists st1,
     upload_selfie now uuid_hex sid content_type chunk st =
       (Return [("status", "ok"); ("path", upload_path sid uuid_hex content_type)],
        st1) /\
     dict_get sid (SESSION_STORE st1) =
       Some (append_upload (upload_path sid uuid_hex content_type) s) /\
     dict_get (upload_name sid uuid_hex content_type) (UPLOADS_DIR st1) = Some chunk /\
     (no_slash sid = true -> no_slash uuid_hex = true ->
      stored_match sid st = Some m -> top_match m <> None ->
      exists st2,
        generate_portrait now2 sid st1 = (Return (portrait_ok sid), st2) /\
        dict_get (portrait_name sid) (RESULTS_DIR st2) = Some chunk)).
Proof.
  intros Hs Hle Hle2.
  pose proof (upload_selfie_run now uuid_hex sid content_type chunk st s Hs Hle) as E.
  split; intros Hty; rewrite Hty in E; [exact E|].
  exists (store_upload sid uuid_hex content_type chunk s st).
  assert (Hs1 : dict_get sid
            (SESSION_STORE (store_upload sid uuid_hex content_type chunk s st)) =
            Some (append_upload (upload_path sid uuid_hex content_type) s)).
  { unfold store_upload. cbn [SESSION_STORE set_SESSION_STORE set_UPLOADS_DIR].
    apply dict_get_set_same. }
  assert (Hf : dict_get (upload_name sid uuid_hex content_type)
            (UPLOADS_DIR (store_upload sid uuid_hex content_type chunk s st)) =
            Some chunk).
  { unfold store_upload. cbn [UPLOADS_DIR set_SESSION_STORE set_UPLOADS_DIR].
    apply dict_get_set_same. }
  split; [exact E|]. split; [exact Hs1|]. split; [exact Hf|].
  intros Hn1 Hn2 Hm Htop.
  exists (store_portrait sid chunk (store_upload sid uuid_hex content_type chunk s st)).
  split.
  - apply (generate_portrait_run now2 sid _ _ m chunk Hs1).
    + exact Hle2.
    + cbn [uploads append_upload]. now destruct (uploads s).
    + exact Hm.
    + exact Htop.
    + cbn [uploads append_upload]. rewrite last_last.
      now rewrite basename_upload_path.
  - unfold store_portrait. cbn [RESULTS_DIR set_RESULT_STORE set_RESULTS_DIR].
    apply dict_get_set_same.
Qed.

Lemma upload_then_generate_witness :
  upload_selfie 5 "cc" "s1" "image/gif" "GIF89a" matched_store =
    (Raise (bad_request "Unsupported file type"), matched_store) /\
  exists st1 st2,
    upload_selfie 5 "cc" "s1" "image/png" "third" matched_store =
      (Return [("status", "ok"); ("path", "/media/uploads/s1_cc.png")], st1) /\
    generate_portrait 6 "s1" st1 =
      (Return [("status", "ok"); ("portrait_url", "/media/results/portrait_s1.png")],
       st2) /\
    dict_get "portrait_s1.png" (RESULTS_DIR st2) = Some "third".
Proof.
  destruct (stored_match "s1" matched_store) as [m|] eqn:Hm;
    [|vm_compute in Hm; discriminate].
  destruct (upload_then_generate 5 6 "cc" "s1" "image/gif" "GIF89a" matched_store
              matched_session m) as [Hbad _];
    [reflexivity | simpl; lia | simpl; lia |].
  destruct (upload_then_generate 5 6 "cc" "s1" "image/png" "third" matched_store
              matched_session m) as [_ Hgood];
    [reflexivity | simpl; lia | simpl; lia |].
  split; [apply Hbad; reflexivity|].
  destruct Hgood as (st1 & Hup & _ & _ & Hgen); [reflexivity|].
  destruct Hgen as (st2 & Hg & Hfile);
    [reflexivity | reflexivity | exact Hm
    | vm_compute in Hm; injection Hm as <-; discriminate |].
  exists st1, st2. exact (conj Hup (conj Hg Hfile)).
Defined.

(** ** Quizzes and their questions *)

Lemma quiz_questions_loop_state qids ordered st :
  snd (quiz_questions_loop qids ordered st) = st.
Proof.
  revert ordered. induction qids as [|qid qids IH]; intros ordered; [reflexivity|].
  cbn [quiz_questions_loop]. unfold bind, _get_question_or_404, gets, bind.
  cbv beta iota.
  destruct (dict_get qid (QUESTION_STORE st)); [apply IH | reflexivity].
Qed.

Lemma quiz_questions_loop_ok qids ordered st :
  (forall qid, In qid qids -> dict_get qid (QUESTION_STORE st) <> None) ->
  exists qs,
    quiz_questions_loop qids ordered st = (Return (ordered ++ qs)%list, st) /\
    map Some qs = map (fun qid => dict_get qid (QUESTION_STORE st)) qids.
Proof.
  revert ordered. induction qids as [|qid qids IH]; intros ordered Hall.
  - exists []. split; [|reflexivity]. cbn. now rewrite app_nil_r.
  - destruct (dict_get qid (QUESTION_STORE st)) as [q|] eqn:Hq;
      [|exfalso; apply (Hall qid); [now left | exact Hq]].
    destruct (IH (ordered ++ [q])%list) as (qs & Hrun & Hmap).
    { intros k Hk. apply Hall. now right. }
    exists (q :: qs). split.
    + cbn [quiz_questions_loop]. unfold bind at 1, _get_question_or_404, bind, gets.
      cbv beta iota. rewrite Hq. cbv beta iota. unfold ret at 1.
      rewrite Hrun. now rewrite <- app_assoc.
    + cbn [map]. now rewrite Hq, Hmap.
Qed.

Lemma quiz_questions_loop_missing qids ordered st :
  (exists qid, In qid qids /\ dict_get qid (QUESTION_STORE st) = None) ->
  quiz_questions_loop qids ordered st =
    (Raise (not_found "Question not found"), st).
Proof.
  revert ordered. induction qids as [|qid qids IH]; intros ordered (k & Hin & Hk).
  - destruct Hin.
  - cbn [quiz_questions_loop]. unfold bind at 1, _get_question_or_404, bind, gets.
    cbv beta iota.
    destruct (dict_get qid (QUESTION_STORE st)) as [q|] eqn:Hq; [|reflexivity].
    cbv beta iota. unfold ret at 1. apply IH.
    destruct Hin as [->|Hin]; [congruence|]. now exists k.
Qed.

(** X7. [get_quiz_questions] fails with 404 "Quiz not found" for an
    unknown quiz.  For a known one it returns the questions named by
    [question_ids], in that order and with repetitions, when every
    identifier is in [QUESTION_STORE], and fails with 404 "Question not
    found" as soon as one is not.  It writes nothing. *)
Theorem get_quiz_questions_in_order (quiz_id : string) (st : Store) :
  snd (get_quiz_questions quiz_id st) = st /\
  (dict_get quiz_id (QUIZ_STORE st) = None ->
   get_quiz_questions quiz_id st = (Raise (not_found "Quiz not found"), st)) /\
  (forall quiz, dict_get quiz_id (QUIZ_STORE st) = Some quiz ->
     ((forall qid, In qid (qz_question_ids quiz) ->
         dict_get qid (QUESTION_STORE st) <> None) ->
      exists qs,
        get_quiz_questions quiz_id st = (Return qs, st) /\
        map Some qs =
          map (fun qid => dict_get qid (QUESTION_STORE st)) (qz_question_ids quiz)) /\
     ((exists qid, In qid (qz_question_ids quiz) /\
                   dict_get qid (QUESTION_STORE st) = None) ->
      get_quiz_questions quiz_id st =
        (Raise (not_found "Question not found"), st))).
Proof.
  unfold get_quiz_questions, bind at 1, _get_quiz_or_404, bind, gets.
  cbv beta iota.
  destruct (dict_get quiz_id (QUIZ_STORE st)) as [quiz|]; cbv beta iota.
  - split; [apply quiz_questions_loop_state|]. split; [discriminate|].
    intros quiz0 [= <-]. split.
    + intros Hall.
      destruct (quiz_questions_loop_ok (qz_question_ids quiz) [] st Hall)
        as (qs & Hrun & Hmap).
      exists qs. split; [exact Hrun | exact Hmap].
    + apply quiz_questions_loop_missing.
  - split; [reflexivity|]. split; [reflexivity | discriminate].
Qed.

Lemma get_quiz_questions_in_order_witness :
  get_quiz_questions "weekly" demo_store =
    (Raise (not_found "Quiz not found"), demo_store) /\
  (exists qs,
     get_quiz_questions "default" demo_store = (Return qs, demo_store) /\
     map q_id qs = ["q1"; "q2"]) /\
  get_quiz_questions "default" question_deleted_store =
    (Raise (not_found "Question not found"), question_deleted_store).
Proof.
  destruct (get_quiz_questions_in_order "weekly" demo_store) as (_ & Hnone & _).
  destruct (get_quiz_questions_in_order "default" demo_store) as (_ & _ & Hsome).
  destruct (get_quiz_questions_in_order "default" question_deleted_store)
    as (_ & _ & Hgone).
  split; [apply Hnone; reflexivity|]. split.
  - destruct (Hsome (mkQuiz "default" "Which Star Wars Character Are You?"
                       (Some "Answer questions to find your Star Wars alter ego!")
                       ["q1"; "q2"] 0 0) eq_refl) as [Hok _].
    destruct Hok as (qs & Hrun & Hmap).
    { simpl. intros qid [<-|[<-|[]]]; discriminate. }
    exists qs. split; [exact Hrun|].
    destruct qs as [|a [|b [|c qs]]]; try discriminate Hmap.
    cbn in Hmap. injection Hmap as -> ->. reflexivity.
  - destruct (Hgone (mkQuiz "default" "Which Star Wars Character Are You?"
                       (Some "Answer questions to find your Star Wars alter ego!")
                       ["q1"; "q2"] 0 0) eq_refl) as [_ Hmiss].
    apply Hmiss. exists "q1". split; [now left | reflexivity].
Defined.

(** ** Administration *)

Lemma require_admin_bad ADMIN_TOKEN token st :
  token <> ADMIN_TOKEN ->
  _require_admin ADMIN_TOKEN token st = (Raise forbidden, st).
Proof.
  intros Hne. unfold _require_admin.
  destruct (String.eqb_spec token ADMIN_TOKEN); [contradiction | reflexivity].
Qed.

Lemma require_admin_ok ADMIN_TOKEN st :
  _require_admin ADMIN_TOKEN ADMIN_TOKEN st = (Return tt, st).
Proof. unfold _require_admin. now rewrite String.eqb_refl. Qed.

Ltac refuse_token H :=
  intros; apply bind_raise; apply require_admin_bad; exact H.

(** X8. With a token other than [ADMIN_TOKEN] every administration
    handler ends with 403 "Forbidden: invalid admin token" before it reads
    or writes a store, whatever its other arguments; the token itself is
    accepted by [admin_auth]. *)
Theorem admin_token_required (ADMIN_TOKEN token : string) (st : Store) :
  token <> ADMIN_TOKEN ->
  admin_auth ADMIN_TOKEN token st = (Raise forbidden, st) /\
  admin_auth ADMIN_TOKEN ADMIN_TOKEN st = (Return [("status", "ok")], st) /\
  admin_list_questions ADMIN_TOKEN token st = (Raise forbidden, st) /\
  (forall uuid payload,
     admin_create_question ADMIN_TOKEN uuid payload token st = (Raise forbidden, st)) /\
  (forall qid payload,
     admin_update_question ADMIN_TOKEN qid payload token st = (Raise forbidden, st)) /\
  (forall qid,
     admin_delete_question ADMIN_TOKEN qid token st = (Raise forbidden, st)) /\
  admin_list_characters ADMIN_TOKEN token st = (Raise forbidden, st) /\
  (forall uuid payload,
     admin_create_character ADMIN_TOKEN uuid payload token st = (Raise forbidden, st)) /\
  (forall cid payload,
     admin_update_character ADMIN_TOKEN cid payload token st = (Raise forbidden, st)) /\
  (forall cid,
     admin_delete_character ADMIN_TOKEN cid token st = (Raise forbidden, st)) /\
  admin_list_quizzes ADMIN_TOKEN token st = (Raise forbidden, st) /\
  (forall uuid stamp1 stamp2 payload,
     admin_create_quiz ADMIN_TOKEN uuid stamp1 stamp2 payload token st =
       (Raise forbidden, st)) /\
  (forall stamp qzid payload,
     admin_update_quiz ADMIN_TOKEN stamp qzid payload token st = (Raise forbidden, st)) /\
  (forall qzid,
     admin_delete_quiz ADMIN_TOKEN qzid token st = (Raise forbidden, st)).
Proof.
  intros Hne.
  split; [refuse_token Hne|].
  split; [unfold admin_auth, bind; now rewrite require_admin_ok|].
  split; [refuse_token Hne|]. split; [refuse_token Hne|].
  split; [refuse_token Hne|]. split; [refuse_token Hne|].
  split; [refuse_token Hne|]. split; [refuse_token Hne|].
  split; [refuse_token Hne|]. split; [refuse_token Hne|].
  split; [refuse_token Hne|]. split; [refuse_token Hne|].
  split; refuse_token Hne.
Qed.

Lemma admin_token_required_witness :
  admin_delete_character "dev-admin-token" "luke" "guess" demo_store =
    (Raise forbidden, demo_store) /\
  admin_update_question "dev-admin-token" "q1"
    (mkQuestionUpdate (Some "?") None None) "" demo_store =
    (Raise forbidden, demo_store) /\
  admin_list_quizzes "dev-admin-token" "Dev-Admin-Token" demo_store =
    (Raise forbidden, demo_store).
Proof.
  destruct (admin_token_required "dev-admin-token" "guess" demo_store)
    as (_ & _ & _ & _ & _ & _ & _ & _ & _ & Hdel & _); [discriminate|].
  destruct (admin_token_required "dev-admin-token" "" demo_store)
    as (_ & _ & _ & _ & Hupd & _); [discriminate|].
  destruct (admin_token_required "dev-admin-token" "Dev-Admin-Token" demo_store)
    as (_ & _ & _ & _ & _ & _ & _ & _ & _ & _ & Hlist & _); [discriminate|].
  exact (conj (Hdel "luke")
           (conj (Hupd "q1" (mkQuestionUpdate (Some "?") None None)) Hlist)).
Defined.

Lemma quiz_questions_loop_frame qids ordered st st' :
  QUESTION_STORE st' = QUESTION_STORE st ->
  quiz_questions_loop qids ordered st' =
    (fst (quiz_questions_loop qids ordered st), st').
Proof.
  intros Hq. revert ordered.
  induction qids as [|qid qids IH]; intros ordered; [reflexivity|].
  cbn [quiz_questions_loop]. unfold bind, _get_question_or_404, gets, bind.
  cbv beta iota. rewrite Hq.
  destruct (dict_get qid (QUESTION_STORE st)); cbv beta iota; [|reflexivity].
  apply IH.
Qed.

(** X9. A quiz created by the administrator is served by [get_quiz] and
    listed last by [list_quizzes] under the identifier drawn for it, with
    the title, description and question identifiers of the request and the
    two timestamps read; the quizzes stored under other identifiers are
    served as before. *)
Theorem created_quiz_is_served (ADMIN_TOKEN uuid_hex : string) (stamp1 stamp2 : Z)
    (payload : QuizCreate) (st : Store) :
  exists st',
    let quiz := mkQuiz uuid_hex (qzc_title payload) (qzc_description payload)
                       (qzc_question_ids payload) stamp1 stamp2 in
    admin_create_quiz ADMIN_TOKEN uuid_hex stamp1 stamp2 payload ADMIN_TOKEN st =
      (Return quiz, st') /\
    get_quiz uuid_hex st' = (Return quiz, st') /\
    (forall qzid, qzid <> uuid_hex ->
       get_quiz qzid st' = (fst (get_quiz qzid st), st')) /\
    (dict_get uuid_hex (QUIZ_STORE st) = None ->
     fst (list_quizzes st') = Return (dict_values (QUIZ_STORE st) ++ [quiz])%list).
Proof.
  eexists. cbv zeta. split.
  - unfold admin_create_quiz, bind at 1. rewrite require_admin_ok. reflexivity.
  - split; [|split].
    + unfold get_quiz, _get_quiz_or_404, bind, gets. cbv beta iota.
      cbn [QUIZ_STORE set_QUIZ_STORE]. now rewrite dict_get_set_same.
    + intros qzid Hne. unfold get_quiz, _get_quiz_or_404, bind, gets. cbv beta iota.
      cbn [QUIZ_STORE set_QUIZ_STORE]. rewrite dict_get_set_other by exact Hne.
      now destruct (dict_get qzid (QUIZ_STORE st)).
    + intros Hnew. unfold list_quizzes, gets, dict_values. cbn [fst].
      cbn [QUIZ_STORE set_QUIZ_STORE].
      now rewrite (dict_set_absent _ _ _ Hnew), map_app.
Qed.

Lemma created_quiz_is_served_witness :
  exists st',
    admin_create_quiz "dev-admin-token" "9f" 5 6
      (mkQuizCreate "Weekly" None ["q2"]) "dev-admin-token" demo_store =
      (Return (mkQuiz "9f" "Weekly" None ["q2"] 5 6), st') /\
    get_quiz "9f" st' = (Return (mkQuiz "9f" "Weekly" None ["q2"] 5 6), st') /\
    fst (list_quizzes st') =
      Return [mkQuiz "default" "Which Star Wars Character Are You?"
                (Some "Answer questions to find your Star Wars alter ego!")
                ["q1"; "q2"] 0 0;
              mkQuiz "9f" "Weekly" None ["q2"] 5 6].
Proof.
  destruct (created_quiz_is_served "dev-admin-token" "9f" 5 6
              (mkQuizCreate "Weekly" None ["q2"]) demo_store)
    as (st' & Hrun & Hget & _ & Hlist).
  exists st'. split; [exact Hrun|]. split; [exact Hget|].
  apply Hlist. reflexivity.
Defined.

(** ** What the session handlers touch *)

Lemma compute_match_unfold now stamp sid st :
  compute_match now stamp sid st =
    match dict_get sid (SESSION_STORE st) with
    | None => (Raise (not_found "Session not found"), st)
    | Some s =>
        if now >? s_expires_at s then (Raise expired_error, st)
        else if negb (truthy (s_quiz_id s))
        then (Raise (bad_request "No quiz selected in session"), st)
        else if existsb (question_missing (QUESTION_STORE st)) (answers s)
        then (Raise (not_found "Question not found"), st)
        else
          let m := mkMatchResult sid (quiz_of s) (hd_error (ranking st s))
                     (ranking st s) (resolved st (hd_error (ranking st s)))
                     None stamp in
          (Return m, store_match sid m s st)
    end.
Proof.
  destruct (dict_get sid (SESSION_STORE st)) as [s|] eqn:Hs.
  - destruct (Z.gtb_spec now (s_expires_at s)) as [Hexp|Hle].
    + unfold compute_match. apply bind_raise.
      apply (get_session_expired now sid s); [exact Hs | lia].
    + destruct (truthy (s_quiz_id s)) eqn:Hq; cbn [negb].
      * destruct (existsb _ (answers s)) eqn:Hres.
        -- unfold compute_match.
           rewrite (bind_return _ _ _ _ _ (get_session_live now sid s st Hs Hle)).
           rewrite Hq. cbn [negb]. now apply bind_raise, compute_scores_missing.
        -- apply compute_match_ok; try assumption.
           unfold answers_resolve. now rewrite Hres.
      * unfold compute_match.
        rewrite (bind_return _ _ _ _ _ (get_session_live now sid s st Hs Hle)).
        now rewrite Hq.
  - unfold compute_match. now apply bind_raise, get_session_absent.
Qed.

Lemma generate_portrait_unfold now sid st :
  generate_portrait now sid st =
    match dict_get sid (SESSION_STORE st) with
    | None => (Raise (not_found "Session not found"), st)
    | Some s =>
        if now >? s_expires_at s then (Raise expired_error, st)
        else
          match uploads s with
          | [] => (Raise (bad_request "No selfie uploaded for session"), st)
          | _ :: _ =>
              match stored_top_match sid st with
              | None => (Raise (bad_request "No match computed for session"), st)
              | Some _ =>
                  match dict_get (basename (last (uploads s) ""))
                                 (UPLOADS_DIR st) with
                  | None =>
                      (Raise (not_found "Uploaded file not found on server"), st)
                  | Some bytes =>
                      (Return (portrait_ok sid), store_portrait sid bytes st)
                  end
              end
          end
    end.
Proof.
  unfold generate_portrait, _get_session_or_404, bind, gets,
    stored_top_match, stored_match. cbv beta iota.
  destruct (dict_get sid (SESSION_STORE st)) as [s|]; [|reflexivity].
  destruct (now >? s_expires_at s); [reflexivity|].
  unfold ret at 1. cbv beta iota.
  destruct (uploads s) as [|u us]; [reflexivity|].
  destruct (dict_get sid (RESULT_STORE st)) as [e|]; [|reflexivity].
  destruct (re_match e) as [m|]; [|reflexivity].
  destruct (top_match m); [|reflexivity].
  destruct (dict_get _ (UPLOADS_DIR st)); reflexivity.
Qed.

Lemma upload_selfie_unfold now uuid_hex sid content_type chunk st :
  upload_selfie now uuid_hex sid content_type chunk st =
    match dict_get sid (SESSION_STORE st) with
    | None => (Raise (not_found "Session not found"), st)
    | Some s =>
        if now >? s_expires_at s then (Raise expired_error, st)
        else if allowed_type content_type
        then (Return [("status", "ok");
                      ("path", upload_path sid uuid_hex content_type)],
              store_upload sid uuid_hex content_type chunk s st)
        else (Raise (bad_request "Unsupported file type"), st)
    end.
Proof.
  destruct (dict_get sid (SESSION_STORE st)) as [s|] eqn:Hs.
  - destruct (Z.gtb_spec now (s_expires_at s)) as [Hexp|Hle].
    + unfold upload_selfie. apply bind_raise.
      apply (get_session_expired now sid s); [exact Hs | lia].
    + now apply upload_selfie_run.
  - unfold upload_selfie. now apply bind_raise, get_session_absent.
Qed.

Lemma get_result_state now sid st : snd (get_result now sid st) = st.
Proof.
  destruct (dict_get sid (SESSION_STORE st)) as [s|] eqn:Hs.
  - destruct (Z.gtb_spec now (s_expires_at s)) as [Hexp|Hle].
    + unfold get_result.
      rewrite (bind_raise _ _ _ _ _ (get_session_expired now sid s st Hs ltac:(lia))).
      reflexivity.
    + rewrite (get_result_live now sid s st Hs Hle).
      now destruct (stored_match sid st).
  - unfold get_result.
    now rewrite (bind_raise _ _ _ _ _ (get_session_absent now sid st Hs)).
Qed.

Lemma touches_refl sid st : touches_only sid st st.
Proof.
  unfold touches_only. do 6 (split; [reflexivity|]).
  intros s Hs. now exists s.
Qed.

Lemma touches_trans sid st1 st2 st3 :
  touches_only sid st1 st2 -> touches_only sid st2 st3 -> touches_only sid st1 st3.
Proof.
  intros (A1 & A2 & A3 & A4 & A5 & A6 & A7) (B1 & B2 & B3 & B4 & B5 & B6 & B7).
  unfold touches_only.
  split; [congruence|]. split; [congruence|]. split; [congruence|].
  split; [congruence|].
  split; [intros k Hk; rewrite B5, A5; auto|].
  split; [intros k Hk; rewrite B6, A6; auto|].
  intros s Hs. destruct (A7 s Hs) as (s' & Hs' & E1 & E2 & E3).
  destruct (B7 s' Hs') as (s'' & Hs'' & F1 & F2 & F3).
  exists s''. repeat split; congruence.
Qed.

Lemma touches_session sid st s s' :
  dict_get sid (SESSION_STORE st) = Some s ->
  s_id s' = s_id s -> s_created_at s' = s_created_at s ->
  s_expires_at s' = s_expires_at s ->
  touches_only sid st (set_SESSION_STORE (dict_set sid s') st).
Proof.
  intros Hs E1 E2 E3. unfold touches_only.
  cbn [QUIZ_STORE QUESTION_STORE CHARACTER_STORE SESSION_STORE RESULT_STORE
       set_SESSION_STORE].
  do 3 (split; [reflexivity|]).
  split; [apply dict_keys_set_present; congruence|].
  split; [intros k Hk; now apply dict_get_set_other|].
  split; [reflexivity|].
  intros s0 Hs0. exists s'. rewrite dict_get_set_same.
  assert (s0 = s) by congruence. subst s0. now repeat split.
Qed.

Lemma touches_result sid st (f : ResultEntry -> ResultEntry) :
  touches_only sid st
    (set_RESULT_STORE (fun rs =>
       match dict_get sid rs with
       | Some e => dict_set sid (f e) rs
       | None => dict_set sid (f empty_entry) rs
       end) st).
Proof.
  unfold touches_only.
  cbn [QUIZ_STORE QUESTION_STORE CHARACTER_STORE SESSION_STORE RESULT_STORE
       set_RESULT_STORE].
  do 5 (split; [reflexivity|]). split.
  - intros k Hk. destruct (dict_get sid (RESULT_STORE st));
      now apply dict_get_set_other.
  - intros s Hs. now exists s.
Qed.

Lemma touches_uploads sid st f : touches_only sid st (set_UPLOADS_DIR f st).
Proof.
  unfold touches_only.
  cbn [QUIZ_STORE QUESTION_STORE CHARACTER_STORE SESSION_STORE RESULT_STORE
       set_UPLOADS_DIR].
  do 6 (split; [reflexivity|]).
  intros s Hs. now exists s.
Qed.

Lemma touches_results_dir sid st f : touches_only sid st (set_RESULTS_DIR f st).
Proof.
  unfold touches_only.
  cbn [QUIZ_STORE QUESTION_STORE CHARACTER_STORE SESSION_STORE RESULT_STORE
       set_RESULTS_DIR].
  do 6 (split; [reflexivity|]).
  intros s Hs. now exists s.
Qed.

(** X10. The handlers that serve a session, [submit_answer],
    [compute_match], [upload_selfie], [generate_portrait] and [get_result],
    whether they succeed or fail, leave the catalog, the other sessions
    and the results of the other sessions as they were, create and delete
    no session, and keep the identifier, creation time and expiry of the
    session they serve: no request renews a session, and a session found
    expired stays expired at every later instant. *)
Theorem session_handlers_frame (sid : string) (st : Store) :
  (forall now p, session_id p = sid ->
     touches_only sid st (snd (submit_answer now p st))) /\
  (forall now stamp, touches_only sid st (snd (compute_match now stamp sid st))) /\
  (forall now uuid_hex content_type chunk,
     touches_only sid st (snd (upload_selfie now uuid_hex sid content_type chunk st))) /\
  (forall now, touches_only sid st (snd (generate_portrait now sid st))) /\
  (forall now, touches_only sid st (snd (get_result now sid st))) /\
  (forall st' s t t',
     touches_only sid st st' ->
     dict_get sid (SESSION_STORE st) = Some s -> s_expires_at s < t -> t <= t' ->
     _get_session_or_404 t' sid st' = (Raise expired_error, st')).
Proof.
  split; [|split; [|split; [|split; [|split]]]].
  - intros now p <-. rewrite submit_answer_unfold.
    destruct (dict_get (session_id p) (SESSION_STORE st)) as [s|] eqn:Hs;
      [|apply touches_refl].
    destruct (now >? s_expires_at s); [apply touches_refl|].
    destruct (dict_get (quiz_id p) (QUIZ_STORE st)); [|apply touches_refl].
    destruct (dict_get (question_id p) (QUESTION_STORE st)) as [q0|];
      [|apply touches_refl].
    destruct (existsb _ _); [|apply touches_refl].
    cbn [snd]. now apply (touches_session _ _ s).
  - intros now stamp. rewrite compute_match_unfold.
    destruct (dict_get sid (SESSION_STORE st)) as [s|] eqn:Hs;
      [|apply touches_refl].
    destruct (now >? s_expires_at s); [apply touches_refl|].
    destruct (negb (truthy (s_quiz_id s))); [apply touches_refl|].
    destruct (existsb _ _); [apply touches_refl|].
    cbv zeta. cbn [snd]. unfold store_match.
    eapply touches_trans; [apply touches_result|].
    now apply (touches_session _ _ s).
  - intros now uuid_hex content_type chunk. rewrite upload_selfie_unfold.
    destruct (dict_get sid (SESSION_STORE st)) as [s|] eqn:Hs;
      [|apply touches_refl].
    destruct (now >? s_expires_at s); [apply touches_refl|].
    destruct (allowed_type content_type); [|apply touches_refl].
    cbn [snd]. unfold store_upload.
    eapply touches_trans; [apply touches_uploads|].
    now apply (touches_session _ _ s).
  - intros now. rewrite generate_portrait_unfold.
    destruct (dict_get sid (SESSION_STORE st)) as [s|] eqn:Hs;
      [|apply touches_refl].
    destruct (now >? s_expires_at s); [apply touches_refl|].
    destruct (uploads s); [apply touches_refl|].
    destruct (stored_top_match sid st); [|apply touches_refl].
    destruct (dict_get _ (UPLOADS_DIR st)); [|apply touches_refl].
    cbn [snd]. unfold store_portrait.
    eapply touches_trans; [apply touches_results_dir | apply touches_result].
  - intros now. rewrite get_result_state. apply touches_refl.
  - intros st' s t t' (_ & _ & _ & _ & _ & _ & Hkeep) Hs Hexp Hle.
    destruct (Hkeep s Hs) as (s' & Hs' & _ & _ & E).
    apply (get_session_expired t' sid s' st' Hs'). lia.
Qed.

Lemma session_handlers_frame_witness :
  dict_get "s2" (SESSION_STORE (snd (compute_match 7 7 "s1" rounding_store))) =
    dict_get "s2" (SESSION_STORE rounding_store) /\
  dict_get "s2"
    (SESSION_STORE
       (snd (submit_answer 7 (mkSubmitAnswerRequest "s1" "default" "q1" "c1")
               rounding_store))) =
    dict_get "s2" (SESSION_STORE rounding_store) /\
  _get_session_or_404 (61 * minute) "s1"
    (snd (submit_answer 7 (mkSubmitAnswerRequest "s1" "default" "q1" "c1")
            rounding_store)) =
    (Raise expired_error,
     snd (submit_answer 7 (mkSubmitAnswerRequest "s1" "default" "q1" "c1")
            rounding_store)).
Proof.
  destruct (session_handlers_frame "s1" rounding_store)
    as (Hsubmit & Hmatch & _ & _ & _ & Hexpired).
  destruct (Hmatch 7 7) as (_ & _ & _ & _ & Hothers & _).
  destruct (Hsubmit 7 (mkSubmitAnswerRequest "s1" "default" "q1" "c1") eq_refl)
    as (_ & _ & _ & _ & Hothers' & _).
  split; [apply Hothers; discriminate|].
  split; [apply Hothers'; discriminate|].
  apply (Hexpired _ forward_session (60 * minute + 1) (61 * minute)).
  - apply (Hsubmit 7 (mkSubmitAnswerRequest "s1" "default" "q1" "c1") eq_refl).
  - reflexivity.
  - simpl. lia.
  - unfold minute. lia.
Defined.

(** ** Edits of the catalog *)

Section DictDel.
Context {V : Type}.
Implicit Types (d : dict V) (k : string).

Lemma dict_get_del_other k k0 d :
  k0 <> k -> dict_get k0 (dict_del k d) = dict_get k0 d.
Proof.
  intros Hne. induction d as [|[k' v'] d IH]; simpl; [reflexivity|].
  destruct (String.eqb_spec k k') as [->|Hne']; simpl.
  - destruct (String.eqb_spec k0 k'); [contradiction | reflexivity].
  - now rewrite IH.
Qed.

Lemma dict_get_del_same k d :
  dict_wf d = true -> dict_get k (dict_del k d) = None.
Proof.
  unfold dict_wf. induction d as [|[k' v'] d IH]; simpl; [reflexivity|].
  rewrite andb_true_iff, negb_true_iff. intros [Hk Hd].
  destruct (String.eqb_spec k k') as [->|Hne]; simpl.
  - apply dict_get_none_keys. rewrite <- existsb_eqb_in. unfold dict_keys in *. congruence.
  - destruct (String.eqb_spec k k'); [contradiction | auto].
Qed.

Lemma dict_keys_del_in k k0 d :
  In k0 (dict_keys (dict_del k d)) -> In k0 (dict_keys d).
Proof.
  induction d as [|[k' v'] d IH]; simpl; [tauto|].
  destruct (String.eqb k k'); simpl; tauto.
Qed.

Lemma dict_wf_del k d : dict_wf d = true -> dict_wf (dict_del k d) = true.
Proof.
  unfold dict_wf. induction d as [|[k' v'] d IH]; simpl; [reflexivity|].
  rewrite andb_true_iff, negb_true_iff. intros [Hk Hd].
  destruct (String.eqb k k'); simpl; [exact Hd|].
  rewrite IH by exact Hd. rewrite andb_true_r, negb_true_iff.
  destruct (existsb (String.eqb k') (dict_keys (dict_del k d))) eqn:E; [|reflexivity].
  apply existsb_eqb_in, dict_keys_del_in, existsb_eqb_in in E.
  unfold dict_keys in *. congruence.
Qed.

Lemma dict_set_get_id k (v : V) d : dict_get k d = Some v -> dict_set k v d = d.
Proof.
  induction d as [|[k' v'] d IH]; simpl; [discriminate|].
  destruct (String.eqb_spec k k') as [->|_].
  - now intros [= ->].
  - intros H. now rewrite IH.
Qed.
End DictDel.

Lemma compute_scores_unfold s st :
  _compute_scores s st =
    if existsb (question_missing (QUESTION_STORE st)) (answers s)
    then (Raise (not_found "Question not found"), st)
    else (Return (ranking st s), st).
Proof.
  destruct (existsb (question_missing (QUESTION_STORE st)) (answers s)) eqn:E.
  - now apply compute_scores_missing.
  - now apply compute_scores_ok.
Qed.

(** The scoring reads the identifiers of the characters and the choices of
    the questions, and nothing else. *)
Lemma compute_scores_ext s st st' :
  dict_keys (CHARACTER_STORE st') = dict_keys (CHARACTER_STORE st) ->
  (forall qid, option_map q_choices (dict_get qid (QUESTION_STORE st')) =
               option_map q_choices (dict_get qid (QUESTION_STORE st))) ->
  fst (_compute_scores s st') = fst (_compute_scores s st).
Proof.
  intros Hcs Hqs. rewrite !compute_scores_unfold.
  assert (Hmiss : forall a, question_missing (QUESTION_STORE st') a =
                            question_missing (QUESTION_STORE st) a).
  { intros a. unfold question_missing, dict_mem. specialize (Hqs (fst a)).
    destruct (dict_get (fst a) (QUESTION_STORE st')),
             (dict_get (fst a) (QUESTION_STORE st)); try discriminate; reflexivity. }
  assert (Happ : forall t a, apply_answer (QUESTION_STORE st') t a =
                             apply_answer (QUESTION_STORE st) t a).
  { intros t a. unfold apply_answer. specialize (Hqs (fst a)).
    destruct (dict_get (fst a) (QUESTION_STORE st')) as [q'|],
             (dict_get (fst a) (QUESTION_STORE st)) as [q|];
      try discriminate; [|reflexivity].
    cbn in Hqs. injection Hqs as ->. reflexivity. }
  assert (Hex : forall l, existsb (question_missing (QUESTION_STORE st')) l =
                          existsb (question_missing (QUESTION_STORE st)) l)
    by (induction l as [|a l IHl]; simpl; [reflexivity | now rewrite Hmiss, IHl]).
  rewrite Hex.
  destruct (existsb _ (answers s)); [reflexivity|]. cbn [fst]. f_equal.
  unfold ranking, initial_tally. rewrite Hcs. f_equal. f_equal.
  generalize (map (fun cid => (cid, 0%float)) (dict_keys (CHARACTER_STORE st))).
  induction (answers s) as [|a items IH]; intros t; [reflexivity|].
  cbn [fold_left]. now rewrite Happ, IH.
Qed.

Lemma admin_update_question_run ADMIN_TOKEN qid payload st q :
  dict_get qid (QUESTION_STORE st) = Some q ->
  admin_update_question ADMIN_TOKEN qid payload ADMIN_TOKEN st =
    (Return (updated_question payload q),
     set_QUESTION_STORE (dict_set qid (updated_question payload q)) st).
Proof.
  intros Hq. unfold admin_update_question, bind at 1. rewrite require_admin_ok.
  unfold bind at 1, _get_question_or_404, bind, gets. cbv beta iota.
  rewrite Hq. cbv beta iota. unfold ret at 1. cbv beta iota zeta.
  unfold updated_question.
  destruct (qu_text payload), (qu_choices payload), (qu_order payload);
    try reflexivity; now destruct q.
Qed.

Lemma updated_question_id payload q :
  qu_text payload = None -> qu_choices payload = None -> qu_order payload = None ->
  updated_question payload q = q.
Proof.
  intros H1 H2 H3. unfold updated_question. rewrite H1, H2, H3. now destruct q.
Qed.

(** X11. With the administrator's token, [admin_update_question] fails
    with 404 "Question not found" and writes nothing when the question is
    unknown.  Otherwise it replaces the fields the request gives and keeps
    the others, the identifier and the place of the question in the store
    included; the other questions, the quizzes, the characters, the
    sessions and the results are untouched, and a request that gives no
    field changes nothing at all. *)
Theorem admin_update_question_partial (ADMIN_TOKEN qid : string)
    (payload : QuestionUpdate) (st : Store) :
  (dict_get qid (QUESTION_STORE st) = None ->
   admin_update_question ADMIN_TOKEN qid payload ADMIN_TOKEN st =
     (Raise (not_found "Question not found"), st)) /\
  (forall q, dict_get qid (QUESTION_STORE st) = Some q ->
     exists st',
       admin_update_question ADMIN_TOKEN qid payload ADMIN_TOKEN st =
         (Return (updated_question payload q), st') /\
       dict_get qid (QUESTION_STORE st') = Some (updated_question payload q) /\
       dict_keys (QUESTION_STORE st') = dict_keys (QUESTION_STORE st) /\
       (forall k, k <> qid ->
          dict_get k (QUESTION_STORE st') = dict_get k (QUESTION_STORE st)) /\
       QUIZ_STORE st' = QUIZ_STORE st /\
       CHARACTER_STORE st' = CHARACTER_STORE st /\
       catalog_edit st st' /\
       (qu_text payload = None -> qu_choices payload = None ->
        qu_order payload = None -> st' = st)).
Proof.
  split.
  - intros Hq. unfold admin_update_question, bind at 1. rewrite require_admin_ok.
    apply bind_raise. unfold _get_question_or_404, bind, gets. now rewrite Hq.
  - intros q Hq. eexists. split; [now apply admin_update_question_run|].
    cbn [QUIZ_STORE QUESTION_STORE CHARACTER_STORE set_QUESTION_STORE].
    split; [apply dict_get_set_same|].
    split; [apply dict_keys_set_present; congruence|].
    split; [intros k Hk; now apply dict_get_set_other|].
    split; [reflexivity|]. split; [reflexivity|].
    split; [now repeat split|].
    intros H1 H2 H3. rewrite (updated_question_id payload q H1 H2 H3).
    unfold set_QUESTION_STORE. rewrite (dict_set_get_id _ _ _ Hq). now destruct st.
Qed.

Lemma admin_update_question_partial_witness :
  admin_update_question "dev-admin-token" "q9"
    (mkQuestionUpdate (Some "?") None None) "dev-admin-token" demo_store =
    (Raise (not_found "Question not found"), demo_store) /\
  (exists q st',
     admin_update_question "dev-admin-token" "q2"
       (mkQuestionUpdate (Some "Choose:") None (Some 7)) "dev-admin-token"
       demo_store = (Return q, st') /\
     q_id q = "q2" /\ q_text q = "Choose:" /\ q_order q = 7 /\
     map ch_id (q_choices q) = ["c4"; "c5"; "c6"] /\
     dict_keys (QUESTION_STORE st') = ["q1"; "q2"]) /\
  snd (admin_update_question "dev-admin-token" "q2"
         (mkQuestionUpdate None None None) "dev-admin-token" demo_store) =
    demo_store.
Proof.
  destruct (admin_update_question_partial "dev-admin-token" "q9"
              (mkQuestionUpdate (Some "?") None None) demo_store) as [Hnone _].
  destruct (admin_update_question_partial "dev-admin-token" "q2"
              (mkQuestionUpdate (Some "Choose:") None (Some 7)) demo_store)
    as [_ Hsome].
  destruct (admin_update_question_partial "dev-admin-token" "q2"
              (mkQuestionUpdate None None None) demo_store) as [_ Hid].
  destruct (dict_get "q2" (QUESTION_STORE demo_store)) as [q|] eqn:Hq;
    [|vm_compute in Hq; discriminate].
  split; [apply Hnone; reflexivity|]. split.
  - destruct (Hsome q eq_refl) as (st' & Hrun & _ & Hkeys & _).
    exists (updated_question (mkQuestionUpdate (Some "Choose:") None (Some 7)) q), st'.
    vm_compute in Hq. injection Hq as <-.
    split; [exact Hrun|]. repeat (split; [reflexivity|]). exact Hkeys.
  - destruct (Hid q eq_refl) as (st' & Hrun & _ & _ & _ & _ & _ & _ & Hsame).
    rewrite Hrun. apply Hsame; reflexivity.
Defined.

(** ** Deletions do not cascade *)

Lemma admin_delete_question_run ADMIN_TOKEN qid st :
  admin_delete_question ADMIN_TOKEN qid ADMIN_TOKEN st =
    if dict_mem qid (QUESTION_STORE st)
    then (Return [("status", "ok")], set_QUESTION_STORE (dict_del qid) st)
    else (Raise (not_found "Question not found"), st).
Proof.
  unfold admin_delete_question, bind at 1. rewrite require_admin_ok.
  unfold bind, gets. cbv beta iota.
  now destruct (dict_mem qid (QUESTION_STORE st)).
Qed.

Lemma dict_mem_some {V} k (d : dict V) : dict_get k d <> None -> dict_mem k d = true.
Proof. unfold dict_mem. now destruct (dict_get k d). Qed.

Lemma in_keys_existsb_missing qs items qid :
  In qid (dict_keys items) -> dict_get qid qs = None ->
  existsb (question_missing qs) items = true.
Proof.
  intros Hin Hq. apply existsb_exists. unfold dict_keys in Hin.
  apply in_map_iff in Hin as ([k c] & Hk & Hin). simpl in Hk. subst k.
  exists (qid, c). split; [exact Hin|].
  unfold question_missing, dict_mem. simpl. now rewrite Hq.
Qed.

(** X12. Deleting a question, with the administrator's token and a
    genuine [QUESTION_STORE], removes that entry and nothing else: quizzes
    and sessions keep naming the question.  From then on a second deletion
    ends with 404, [get_quiz_questions] ends with 404 "Question not found"
    for every quiz that lists the question, [compute_match] ends with the
    same error for every live session with a quiz that has answered it,
    and an answer to it is refused with that error. *)
Theorem deleted_question_dangles (ADMIN_TOKEN qid : string) (st : Store) :
  dict_wf (QUESTION_STORE st) = true ->
  dict_get qid (QUESTION_STORE st) <> None ->
  exists st',
    admin_delete_question ADMIN_TOKEN qid ADMIN_TOKEN st =
      (Return [("status", "ok")], st') /\
    QUIZ_STORE st' = QUIZ_STORE st /\
    CHARACTER_STORE st' = CHARACTER_STORE st /\
    catalog_edit st st' /\
    (forall k, k <> qid ->
       dict_get k (QUESTION_STORE st') = dict_get k (QUESTION_STORE st)) /\
    admin_delete_question ADMIN_TOKEN qid ADMIN_TOKEN st' =
      (Raise (not_found "Question not found"), st') /\
    (forall qzid quiz,
       dict_get qzid (QUIZ_STORE st) = Some quiz -> In qid (qz_question_ids quiz) ->
       get_quiz_questions qzid st' =
         (Raise (not_found "Question not found"), st')) /\
    (forall now stamp sid s,
       dict_get sid (SESSION_STORE st) = Some s -> now <= s_expires_at s ->
       truthy (s_quiz_id s) = true -> In qid (dict_keys (answers s)) ->
       compute_match now stamp sid st' =
         (Raise (not_found "Question not found"), st')) /\
    (forall now p s,
       question_id p = qid ->
       dict_get (session_id p) (SESSION_STORE st) = Some s -> now <= s_expires_at s ->
       dict_get (quiz_id p) (QUIZ_STORE st) <> None ->
       submit_answer now p st' = (Raise (not_found "Question not found"), st')).
Proof.
  intros Hwf Hq.
  exists (set_QUESTION_STORE (dict_del qid) st).
  assert (Hgone : dict_get qid (QUESTION_STORE (set_QUESTION_STORE (dict_del qid) st))
                  = None)
    by (cbn [QUESTION_STORE set_QUESTION_STORE]; now apply dict_get_del_same).
  split; [rewrite admin_delete_question_run; now rewrite dict_mem_some|].
  split; [reflexivity|]. split; [reflexivity|]. split; [now repeat split|].
  split; [intros k Hk; cbn [QUESTION_STORE set_QUESTION_STORE];
          now apply dict_get_del_other|].
  split.
  { rewrite admin_delete_question_run. unfold dict_mem. now rewrite Hgone. }
  split.
  { intros qzid quiz Hz Hin.
    unfold get_quiz_questions, bind at 1, _get_quiz_or_404, bind, gets.
    cbv beta iota. cbn [QUIZ_STORE set_QUESTION_STORE]. rewrite Hz.
    cbv beta iota. unfold ret at 1.
    apply quiz_questions_loop_missing. now exists qid. }
  split.
  { intros now stamp sid s Hs Hle Htr Hin. rewrite compute_match_unfold.
    cbn [SESSION_STORE set_QUESTION_STORE]. rewrite Hs.
    destruct (Z.gtb_spec now (s_expires_at s)); [lia|].
    rewrite Htr. cbn [negb].
    now rewrite (in_keys_existsb_missing _ _ qid Hin Hgone). }
  intros now p s <- Hs Hle Hz. rewrite submit_answer_unfold.
  cbn [SESSION_STORE QUIZ_STORE set_QUESTION_STORE]. rewrite Hs.
  destruct (Z.gtb_spec now (s_expires_at s)); [lia|].
  destruct (dict_get (quiz_id p) (QUIZ_STORE st)); [|contradiction].
  now rewrite Hgone.
Qed.

Lemma deleted_question_dangles_witness :
  exists st',
    admin_delete_question "dev-admin-token" "q1" "dev-admin-token" demo_store =
      (Return [("status", "ok")], st') /\
    admin_delete_question "dev-admin-token" "q1" "dev-admin-token" st' =
      (Raise (not_found "Question not found"), st') /\
    get_quiz_questions "default" st' =
      (Raise (not_found "Question not found"), st') /\
    compute_match 3 3 "s1" st' = (Raise (not_found "Question not found"), st') /\
    submit_answer 3 (mkSubmitAnswerRequest "s1" "default" "q1" "c2") st' =
      (Raise (not_found "Question not found"), st').
Proof.
  destruct (deleted_question_dangles "dev-admin-token" "q1" demo_store)
    as (st' & Hdel & _ & _ & _ & _ & Hagain & Hquiz & Hmatch & Hsubmit);
    [reflexivity | vm_compute; discriminate |].
  exists st'. split; [exact Hdel|]. split; [exact Hagain|]. split.
  - apply (Hquiz "default"
             (mkQuiz "default" "Which Star Wars Character Are You?"
                (Some "Answer questions to find your Star Wars alter ego!")
                ["q1"; "q2"] 0 0)); [reflexivity | now left].
  - split.
    + apply (Hmatch 3 3 "s1" demo_session);
        [reflexivity | simpl; lia | reflexivity | now left].
    + apply (Hsubmit 3 (mkSubmitAnswerRequest "s1" "default" "q1" "c2") demo_session);
        [reflexivity | reflexivity | simpl; lia | vm_compute; discriminate].
Defined.

Lemma admin_delete_character_run ADMIN_TOKEN cid st :
  admin_delete_character ADMIN_TOKEN cid ADMIN_TOKEN st =
    if dict_mem cid (CHARACTER_STORE st)
    then (Return [("status", "ok")], set_CHARACTER_STORE (dict_del cid) st)
    else (Raise (not_found "Character not found"), st).
Proof.
  unfold admin_delete_character, bind at 1. rewrite require_admin_ok.
  unfold bind, gets. cbv beta iota.
  now destruct (dict_mem cid (CHARACTER_STORE st)).
Qed.

Lemma initial_tally_lookup cs cid :
  dict_get cid (initial_tally cs) = if dict_mem cid cs then Some 0%float else None.
Proof.
  unfold dict_mem. destruct (dict_get cid cs) as [c|] eqn:E.
  - apply initial_tally_get. apply dict_get_some_in, (in_map fst) in E. exact E.
  - apply dict_get_none_keys. rewrite initial_tally_keys.
    now apply dict_get_none_keys.
Qed.

(** The score [_compute_scores] gives to a character: absent for a
    character that is not in the catalog. *)
Lemma score_of_ranking_sum st s cid :
  catalog_wf st = true ->
  score_of cid (ranking st s) =
    if dict_mem cid (CHARACTER_STORE st)
    then Some (summed_weights (QUESTION_STORE st) (answers s) cid)
    else None.
Proof.
  intros Hwf. unfold ranking. rewrite score_of_ranking.
  - rewrite fold_apply_answer_get by exact Hwf. rewrite initial_tally_lookup.
    now destruct (dict_mem cid (CHARACTER_STORE st)).
  - unfold dict_wf. rewrite fold_apply_answer_keys, initial_tally_keys.
    unfold catalog_wf in Hwf. now apply andb_true_iff in Hwf as [Hwf _].
Qed.

(** X13. Deleting a character, with the administrator's token and a
    genuine catalog, takes it out of every ranking and changes the score
    of no other character, for every session whose answered questions
    exist; the weights that still name the deleted character are
    ignored. *)
Theorem deleted_character_leaves_scores (ADMIN_TOKEN cid : string) (st : Store)
    (s : Session) :
  catalog_wf st = true ->
  dict_get cid (CHARACTER_STORE st) <> None ->
  answers_resolve st s = true ->
  exists st' before after,
    admin_delete_character ADMIN_TOKEN cid ADMIN_TOKEN st =
      (Return [("status", "ok")], st') /\
    QUESTION_STORE st' = QUESTION_STORE st /\
    _compute_scores s st = (Return before, st) /\
    _compute_scores s st' = (Return after, st') /\
    score_of cid before <> None /\
    score_of cid after = None /\
    (forall c, c <> cid -> score_of c after = score_of c before) /\
    (List.length after + 1 = List.length before)%nat.
Proof.
  intros Hwf Hc Hres.
  set (st' := set_CHARACTER_STORE (dict_del cid) st).
  assert (Hwf' : catalog_wf st' = true).
  { unfold catalog_wf in *. apply andb_true_iff in Hwf as [H1 H2].
    apply andb_true_iff. split; [|exact H2].
    cbn [CHARACTER_STORE st' set_CHARACTER_STORE]. now apply dict_wf_del. }
  assert (Hcs : dict_wf (CHARACTER_STORE st) = true).
  { unfold catalog_wf in Hwf. now apply andb_true_iff in Hwf as [H1 _]. }
  exists st', (ranking st s), (ranking st' s).
  split; [rewrite admin_delete_character_run; now rewrite dict_mem_some|].
  split; [reflexivity|].
  split; [apply compute_scores_ok, answers_resolve_false, Hres|].
  split; [apply compute_scores_ok, answers_resolve_false, Hres|].
  split; [rewrite score_of_ranking_sum, dict_mem_some by assumption; discriminate|].
  split.
  { rewrite score_of_ranking_sum by exact Hwf'. unfold dict_mem.
    cbn [CHARACTER_STORE st' set_CHARACTER_STORE].
    now rewrite dict_get_del_same. }
  split.
  { intros c Hne. rewrite !score_of_ranking_sum by assumption. unfold dict_mem.
    cbn [CHARACTER_STORE QUESTION_STORE st' set_CHARACTER_STORE].
    now rewrite dict_get_del_other. }
  assert (Hlen : forall st0, List.length (ranking st0 s) =
                             List.length (dict_keys (CHARACTER_STORE st0))).
  { intros st0. unfold ranking.
    rewrite (Permutation_length (sort_desc_perm _)).
    rewrite <- (length_map character_id), tally_results_ids.
    now rewrite fold_apply_answer_keys, initial_tally_keys. }
  rewrite !Hlen. cbn [CHARACTER_STORE st' set_CHARACTER_STORE].
  clear - Hc. induction (CHARACTER_STORE st) as [|[k v] d IH]; simpl in *;
    [contradiction|].
  destruct (String.eqb cid k); simpl; [lia|].
  rewrite <- IH by exact Hc. lia.
Qed.

Lemma deleted_character_leaves_scores_witness :
  exists st' after,
    admin_delete_character "dev-admin-token" "luke" "dev-admin-token" demo_store =
      (Return [("status", "ok")], st') /\
    _compute_scores demo_session st' = (Return after, st') /\
    score_of "luke" after = None /\
    score_of "leia" after = Some 1%float /\
    score_of "vader" after = Some 0%float.
Proof.
  destruct (deleted_character_leaves_scores "dev-admin-token" "luke" demo_store
              demo_session)
    as (st' & before & after & Hdel & _ & Hb & Ha & _ & Hgone & Hkeep & _);
    [reflexivity | vm_compute; discriminate | reflexivity |].
  assert (E : fst (_compute_scores demo_session demo_store) =
              Return [mkScoreResult "luke" 1%float; mkScoreResult "leia" 1%float;
                      mkScoreResult "vader" 0%float]) by reflexivity.
  rewrite Hb in E. injection E as E.
  exists st', after. split; [exact Hdel|]. split; [exact Ha|].
  split; [exact Hgone|]. split.
  - rewrite (Hkeep "leia"), E; [reflexivity | discriminate].
  - rewrite (Hkeep "vader"), E; [reflexivity | discriminate].
Defined.

Lemma admin_update_character_run ADMIN_TOKEN cid payload st :
  admin_update_character ADMIN_TOKEN cid payload ADMIN_TOKEN st =
    match dict_get cid (CHARACTER_STORE st) with
    | None => (Raise (not_found "Character not found"), st)
    | Some c =>
        (Return (updated_character payload c),
         set_CHARACTER_STORE (dict_set cid (updated_character payload c)) st)
    end.
Proof.
  unfold admin_update_character, bind at 1. rewrite require_admin_ok.
  unfold bind at 1, _get_character_or_404, bind, gets. cbv beta iota.
  destruct (dict_get cid (CHARACTER_STORE st)) as [c|]; [|reflexivity].
  cbv beta iota. unfold ret at 1. cbv beta iota zeta. unfold updated_character.
  destruct (cu_name payload), (cu_description payload), (cu_image_url payload),
    (cu_traits payload); try reflexivity; now destruct c.
Qed.

Lemma admin_delete_quiz_run ADMIN_TOKEN qzid st :
  admin_delete_quiz ADMIN_TOKEN qzid ADMIN_TOKEN st =
    if dict_mem qzid (QUIZ_STORE st)
    then (Return [("status", "ok")], set_QUIZ_STORE (dict_del qzid) st)
    else (Raise (not_found "Quiz not found"), st).
Proof.
  unfold admin_delete_quiz, bind at 1. rewrite require_admin_ok.
  unfold bind, gets. cbv beta iota.
  now destruct (dict_mem qzid (QUIZ_STORE st)).
Qed.

(** X14. The scores depend on the catalog through the identifiers of the
    characters and the choices of the questions only: whatever the
    session, its outcome of [_compute_scores] is the same after an update
    of a character (name, description, image, traits), after an update of
    a question that gives no choices (text, order), and after the
    creation, update or deletion of a quiz. *)
Theorem scores_ignore_other_fields (ADMIN_TOKEN : string) (st : Store) (s : Session) :
  (forall cid payload,
     fst (_compute_scores s
            (snd (admin_update_character ADMIN_TOKEN cid payload ADMIN_TOKEN st))) =
     fst (_compute_scores s st)) /\
  (forall qid payload, qu_choices payload = None ->
     fst (_compute_scores s
            (snd (admin_update_question ADMIN_TOKEN qid payload ADMIN_TOKEN st))) =
     fst (_compute_scores s st)) /\
  (forall uuid stamp1 stamp2 payload,
     fst (_compute_scores s
            (snd (admin_create_quiz ADMIN_TOKEN uuid stamp1 stamp2 payload
                    ADMIN_TOKEN st))) =
     fst (_compute_scores s st)) /\
  (forall stamp qzid payload,
     fst (_compute_scores s
            (snd (admin_update_quiz ADMIN_TOKEN stamp qzid payload ADMIN_TOKEN st))) =
     fst (_compute_scores s st)) /\
  (forall qzid,
     fst (_compute_scores s (snd (admin_delete_quiz ADMIN_TOKEN qzid ADMIN_TOKEN st))) =
     fst (_compute_scores s st)).
Proof.
  split; [|split; [|split; [|split]]].
  - intros cid payload. rewrite admin_update_character_run.
    destruct (dict_get cid (CHARACTER_STORE st)) as [c|] eqn:Hc; [|reflexivity].
    apply compute_scores_ext; [|reflexivity].
    cbn [snd CHARACTER_STORE set_CHARACTER_STORE].
    apply dict_keys_set_present. congruence.
  - intros qid payload Hch.
    destruct (dict_get qid (QUESTION_STORE st)) as [q|] eqn:Hq.
    + rewrite (admin_update_question_run _ _ _ _ _ Hq).
      apply compute_scores_ext; [reflexivity|].
      intros k. cbn [snd QUESTION_STORE set_QUESTION_STORE].
      destruct (String.eqb_spec k qid) as [->|Hne].
      * rewrite dict_get_set_same, Hq. unfold updated_question. cbn. now rewrite Hch.
      * now rewrite dict_get_set_other.
    + unfold admin_update_question, bind at 1. rewrite require_admin_ok.
      rewrite (bind_raise _ _ st (not_found "Question not found") st);
        [reflexivity|].
      unfold _get_question_or_404, bind, gets. now rewrite Hq.
  - intros uuid stamp1 stamp2 payload.
    unfold admin_create_quiz, bind at 1. rewrite require_admin_ok.
    now apply compute_scores_ext.
  - intros stamp qzid payload.
    unfold admin_update_quiz, bind at 1. rewrite require_admin_ok.
    unfold bind at 1, _get_quiz_or_404, bind, gets. cbv beta iota.
    destruct (dict_get qzid (QUIZ_STORE st)); [|reflexivity].
    now apply compute_scores_ext.
  - intros qzid. rewrite admin_delete_quiz_run.
    destruct (dict_mem qzid (QUIZ_STORE st)); [|reflexivity].
    now apply compute_scores_ext.
Qed.

Lemma scores_ignore_other_fields_witness :
  fst (_compute_scores demo_session
         (snd (admin_update_question "dev-admin-token" "q1"
                 (mkQuestionUpdate (Some "Weekend?") None (Some 9))
                 "dev-admin-token" demo_store))) =
    fst (_compute_scores demo_session demo_store) /\
  fst (_compute_scores demo_session
         (snd (admin_update_character "dev-admin-token" "luke"
                 (mkCharacterUpdate (Some "Luke") None None (Some []))
                 "dev-admin-token" demo_store))) =
    fst (_compute_scores demo_session demo_store).
Proof.
  destruct (scores_ignore_other_fields "dev-admin-token" demo_store demo_session)
    as (Hchar & Hquestion & _).
  split.
  - apply Hquestion. reflexivity.
  - apply Hchar.
Defined.

(** X15. Deleting a quiz, with the administrator's token and a genuine
    [QUIZ_STORE], removes it for [get_quiz] and for a second deletion, both
    ending with 404, but not from the sessions that took it: every call of
    [compute_match] has the outcome it had before the deletion, while a
    further answer under that quiz is refused with 404 "Quiz not
    found". *)
Theorem deleted_quiz_leaves_sessions (ADMIN_TOKEN qzid : string) (st : Store) :
  dict_wf (QUIZ_STORE st) = true ->
  dict_get qzid (QUIZ_STORE st) <> None ->
  exists st',
    admin_delete_quiz ADMIN_TOKEN qzid ADMIN_TOKEN st =
      (Return [("status", "ok")], st') /\
    get_quiz qzid st' = (Raise (not_found "Quiz not found"), st') /\
    admin_delete_quiz ADMIN_TOKEN qzid ADMIN_TOKEN st' =
      (Raise (not_found "Quiz not found"), st') /\
    (forall now stamp sid,
       fst (compute_match now stamp sid st') = fst (compute_match now stamp sid st)) /\
    (forall now p s,
       quiz_id p = qzid ->
       dict_get (session_id p) (SESSION_STORE st) = Some s -> now <= s_expires_at s ->
       submit_answer now p st' = (Raise (not_found "Quiz not found"), st')).
Proof.
  intros Hwf Hz.
  exists (set_QUIZ_STORE (dict_del qzid) st).
  assert (Hgone : dict_get qzid (QUIZ_STORE (set_QUIZ_STORE (dict_del qzid) st)) = None)
    by (cbn [QUIZ_STORE set_QUIZ_STORE]; now apply dict_get_del_same).
  split; [rewrite admin_delete_quiz_run; now rewrite dict_mem_some|].
  split.
  { unfold get_quiz, _get_quiz_or_404, bind, gets. cbv beta iota. now rewrite Hgone. }
  split.
  { rewrite admin_delete_quiz_run. unfold dict_mem. now rewrite Hgone. }
  split.
  { intros now stamp sid. rewrite !compute_match_unfold.
    cbn [SESSION_STORE QUESTION_STORE set_QUIZ_STORE].
    destruct (dict_get sid (SESSION_STORE st)) as [s|]; [|reflexivity].
    destruct (now >? s_expires_at s); [reflexivity|].
    destruct (negb (truthy (s_quiz_id s))); [reflexivity|].
    destruct (existsb _ _); reflexivity. }
  intros now p s <- Hs Hle. rewrite submit_answer_unfold.
  cbn [SESSION_STORE set_QUIZ_STORE]. rewrite Hs.
  destruct (Z.gtb_spec now (s_expires_at s)); [lia|].
  now rewrite Hgone.
Qed.

Lemma deleted_quiz_leaves_sessions_witness :
  exists st',
    admin_delete_quiz "dev-admin-token" "default" "dev-admin-token" demo_store =
      (Return [("status", "ok")], st') /\
    get_quiz "default" st' = (Raise (not_found "Quiz not found"), st') /\
    fst (compute_match 3 3 "s1" st') = fst (compute_match 3 3 "s1" demo_store) /\
    submit_answer 3 (mkSubmitAnswerRequest "s1" "default" "q1" "c2") st' =
      (Raise (not_found "Quiz not found"), st').
Proof.
  destruct (deleted_quiz_leaves_sessions "dev-admin-token" "default" demo_store)
    as (st' & Hdel & Hget & _ & Hmatch & Hsubmit);
    [reflexivity | vm_compute; discriminate |].
  exists st'. split; [exact Hdel|]. split; [exact Hget|].
  split; [apply Hmatch|].
  apply (Hsubmit 3 (mkSubmitAnswerRequest "s1" "default" "q1" "c2") demo_session);
    [reflexivity | reflexivity | simpl; lia].
Defined.

Lemma get_result_unfold now sid st :
  get_result now sid st =
    match dict_get sid (SESSION_STORE st) with
    | None => (Raise (not_found "Session not found"), st)
    | Some s =>
        if now >? s_expires_at s then (Raise expired_error, st)
        else
          match stored_match sid st with
          | None => (Raise (not_found "No result for session"), st)
          | Some m => (Return (merged_result sid st m), st)
          end
    end.
Proof.
  destruct (dict_get sid (SESSION_STORE st)) as [s|] eqn:Hs.
  - destruct (Z.gtb_spec now (s_expires_at s)) as [Hexp|Hle].
    + unfold get_result. apply bind_raise.
      apply (get_session_expired now sid s); [exact Hs | lia].
    + now apply (get_result_live now sid s).
  - unfold get_result. now apply bind_raise, get_session_absent.
Qed.

Ltac admin_edit :=
  intros;
  unfold admin_create_question, admin_update_question, admin_delete_question,
    admin_create_character, admin_update_character, admin_delete_character,
    admin_create_quiz, admin_update_quiz, admin_delete_quiz,
    _require_admin, _get_question_or_404, _get_character_or_404, _get_quiz_or_404,
    bind, gets, modify, raise, ret, catalog_edit;
  cbv beta iota zeta;
  repeat match goal with
         | |- context [if ?b then _ else _] => destruct b; cbv beta iota zeta
         | |- context [match dict_get ?k ?d with _ => _ end] =>
             destruct (dict_get k d); cbv beta iota zeta
         end;
  cbn; repeat split.

(** X16. No administration handler, whatever the token and the request,
    touches a session, a stored result or a stored file; the four that
    only read leave every store as it is.  Hence what
    [get_result] and [generate_portrait] answer for a session is not
    changed by any edit of the catalog: a result served after a character,
    a question or a quiz was changed or deleted is the one that was
    stored. *)
Theorem catalog_edits_keep_results (ADMIN_TOKEN token : string) (st : Store) :
  ((forall uuid payload,
      catalog_edit st (snd (admin_create_question ADMIN_TOKEN uuid payload token st))) /\
   (forall qid payload,
      catalog_edit st (snd (admin_update_question ADMIN_TOKEN qid payload token st))) /\
   (forall qid,
      catalog_edit st (snd (admin_delete_question ADMIN_TOKEN qid token st))) /\
   (forall uuid payload,
      catalog_edit st (snd (admin_create_character ADMIN_TOKEN uuid payload token st))) /\
   (forall cid payload,
      catalog_edit st (snd (admin_update_character ADMIN_TOKEN cid payload token st))) /\
   (forall cid,
      catalog_edit st (snd (admin_delete_character ADMIN_TOKEN cid token st))) /\
   (forall uuid stamp1 stamp2 payload,
      catalog_edit st
        (snd (admin_create_quiz ADMIN_TOKEN uuid stamp1 stamp2 payload token st))) /\
   (forall stamp qzid payload,
      catalog_edit st (snd (admin_update_quiz ADMIN_TOKEN stamp qzid payload token st))) /\
   (forall qzid,
      catalog_edit st (snd (admin_delete_quiz ADMIN_TOKEN qzid token st))) /\
   snd (admin_auth ADMIN_TOKEN token st) = st /\
   snd (admin_list_questions ADMIN_TOKEN token st) = st /\
   snd (admin_list_characters ADMIN_TOKEN token st) = st /\
   snd (admin_list_quizzes ADMIN_TOKEN token st) = st) /\
  (forall st', catalog_edit st st' ->
     forall now sid,
       fst (get_result now sid st') = fst (get_result now sid st) /\
       fst (generate_portrait now sid st') = fst (generate_portrait now sid st)).
Proof.
  split.
  - split; [admin_edit|]. split; [admin_edit|]. split; [admin_edit|].
    split; [admin_edit|]. split; [admin_edit|]. split; [admin_edit|].
    split; [admin_edit|]. split; [admin_edit|]. split; [admin_edit|].
    unfold admin_auth, admin_list_questions, admin_list_characters,
      admin_list_quizzes, _require_admin, bind, gets, raise, ret.
    destruct (negb (String.eqb token ADMIN_TOKEN)); repeat split.
  - intros st' (Hs & Hr & Hu & _) now sid. split.
    + rewrite !get_result_unfold.
      unfold merged_result, stored_match, stored_portrait. rewrite Hs, Hr.
      destruct (dict_get sid (SESSION_STORE st)) as [s|]; [|reflexivity].
      destruct (now >? s_expires_at s); [reflexivity|].
      destruct (dict_get sid (RESULT_STORE st)) as [e|]; [|reflexivity].
      now destruct (re_match e).
    + rewrite !generate_portrait_unfold.
      unfold stored_top_match, stored_match. rewrite Hs, Hr, Hu.
      destruct (dict_get sid (SESSION_STORE st)) as [s|]; [|reflexivity].
      destruct (now >? s_expires_at s); [reflexivity|].
      destruct (uploads s); [reflexivity|].
      destruct (dict_get sid (RESULT_STORE st)) as [e|]; [|reflexivity].
      destruct (re_match e) as [m|]; [|reflexivity].
      destruct (top_match m); [|reflexivity].
      now destruct (dict_get _ (UPLOADS_DIR st)).
Qed.

Lemma catalog_edits_keep_results_witness :
  fst (get_result 9 "s1"
         (snd (admin_delete_character "dev-admin-token" "luke" "dev-admin-token"
                 portrait_store))) =
    fst (get_result 9 "s1" portrait_store) /\
  fst (generate_portrait 9 "s1"
         (snd (admin_delete_question "dev-admin-token" "q1" "dev-admin-token"
                 matched_store))) =
    fst (generate_portrait 9 "s1" matched_store).
Proof.
  destruct (catalog_edits_keep_results "dev-admin-token" "dev-admin-token"
              portrait_store) as [(_ & _ & _ & _ & _ & Hdel & _) Hframe].
  destruct (catalog_edits_keep_results "dev-admin-token" "dev-admin-token"
              matched_store) as [(_ & _ & Hdelq & _) Hframe'].
  split.
  - apply (Hframe _ (Hdel "luke") 9 "s1").
  - apply (Hframe' _ (Hdelq "q1") 9 "s1").
Defined.

(** ** Empty rankings, ties and the top match *)

(** X17. With an empty catalog [compute_match] succeeds with an empty
    ranking and no top match, and [get_result] serves that result, but
    [generate_portrait] then answers 400 "No match computed for session"
    although a match is stored: it wants a top match. *)
Theorem empty_ranking_has_no_portrait (now stamp now2 : Z) (sid : string)
    (st : Store) (s : Session) :
  dict_get sid (SESSION_STORE st) = Some s ->
  now <= s_expires_at s -> now2 <= s_expires_at s ->
  truthy (s_quiz_id s) = true -> answers_resolve st s = true ->
  CHARACTER_STORE st = [] -> uploads s <> [] ->
  exists m st1,
    compute_match now stamp sid st = (Return m, st1) /\
    scores m = [] /\ top_match m = None /\
    stored_match sid st1 = Some m /\
    get_result now2 sid st1 = (Return (merged_result sid st m), st1) /\
    generate_portrait now2 sid st1 =
      (Raise (bad_request "No match computed for session"), st1).
Proof.
  intros Hs Hle Hle2 Hq Hres Hempty Hup.
  pose proof (compute_match_ok now stamp sid st s Hs Hle Hq Hres) as E.
  cbv zeta in E. rewrite (ranking_empty_catalog st s Hempty) in E.
  cbn [hd_error resolved] in E.
  set (m := mkMatchResult sid (quiz_of s) None [] None None stamp) in *.
  destruct (store_match_stored sid m s st) as [Hm Hp].
  exists m, (store_match sid m s st).
  split; [exact E|]. split; [reflexivity|]. split; [reflexivity|].
  split; [exact Hm|]. split.
  - rewrite (get_result_live now2 sid (set_scored true s));
      [|apply store_match_session | exact Hle2].
    rewrite Hm. unfold merged_result. now rewrite Hp.
  - rewrite generate_portrait_unfold, store_match_session.
    cbn [s_expires_at set_scored uploads].
    destruct (Z.gtb_spec now2 (s_expires_at s)); [lia|].
    destruct (uploads s); [contradiction|].
    unfold stored_top_match. now rewrite Hm.
Qed.

Lemma empty_ranking_has_no_portrait_witness :
  exists m st0 st1,
    upload_selfie 3 "aa" "s1" "image/png" "first" empty_catalog_store =
      (Return [("status", "ok"); ("path", "/media/uploads/s1_aa.png")], st0) /\
    compute_match 4 4 "s1" st0 = (Return m, st1) /\
    top_match m = None /\
    generate_portrait 5 "s1" st1 =
      (Raise (bad_request "No match computed for session"), st1).
Proof.
  destruct (upload_selfie 3 "aa" "s1" "image/png" "first" empty_catalog_store)
    as [o st0] eqn:Hup.
  assert (Ho : o = Return [("status", "ok"); ("path", "/media/uploads/s1_aa.png")])
    by (apply (f_equal fst) in Hup; vm_compute in Hup; now subst o).
  subst o.
  assert (Hst : st0 = snd (upload_selfie 3 "aa" "s1" "image/png" "first"
                             empty_catalog_store)) by now rewrite Hup.
  destruct (empty_ranking_has_no_portrait 4 4 5 "s1" st0
              (append_upload "/media/uploads/s1_aa.png" demo_session))
    as (m & st1 & Hrun & _ & Htop & _ & _ & Hgen);
    try (rewrite Hst; reflexivity); try (simpl; lia); try (simpl; discriminate).
  exists m, st0, st1. exact (conj eq_refl (conj Hrun (conj Htop Hgen))).
Defined.

Lemma SFeqb_not_ltb x y v :
  SFeqb x v = true -> SFeqb y v = true -> SFltb x y = false.
Proof.
  unfold SFeqb, SFltb.
  destruct x as [sx|sx| |sx mx ex], y as [sy|sy| |sy my ey], v as [sv|sv| |sv mv ev];
    simpl; try destruct sx; try destruct sy; try destruct sv; simpl;
    try reflexivity; try discriminate; try (intros _; discriminate).
  all: change (Pos.compare_cont Eq) with Pos.compare;
    destruct (Z.compare_spec ex ev); destruct (Z.compare_spec ey ev);
    destruct (Z.compare_spec ex ey);
    destruct (Pos.compare_spec mx mv); destruct (Pos.compare_spec my mv);
    destruct (Pos.compare_spec mx my); simpl;
    try reflexivity; try discriminate; try (intros _; discriminate); try lia.
Qed.

Lemma eqb_not_ltb (x y v : float) :
  (x =? v)%float = true -> (y =? v)%float = true -> (x <? y)%float = false.
Proof. rewrite !eqb_spec, ltb_spec. apply SFeqb_not_ltb. Qed.

Lemma eqb_leb (x y : float) : (x =? y)%float = true -> (x <=? y)%float = true.
Proof.
  rewrite eqb_spec, leb_spec. unfold SFeqb, SFleb.
  destruct (SFcompare (Prim2SF x) (Prim2SF y)) as [[]|]; congruence.
Qed.

Lemma is_nan_eqb (x : float) : is_nan x = false -> (x =? x)%float = true.
Proof. unfold is_nan. now rewrite negb_false_iff. Qed.

(** The sort is stable: entries of equal score keep their order. *)
Lemma insert_desc_tied v r l :
  filter (tied v) (insert_desc r l) = filter (tied v) (r :: l).
Proof.
  induction l as [|r' l IH]; [reflexivity|].
  cbn [insert_desc]. destruct (score r <? score r')%float eqn:E; [|reflexivity].
  cbn [filter] in *. rewrite IH.
  destruct (tied v r) eqn:Hr, (tied v r') eqn:Hr'; try reflexivity.
  unfold tied in *. rewrite (eqb_not_ltb _ _ _ Hr Hr') in E. discriminate.
Qed.

Lemma sort_desc_tied v l : filter (tied v) (sort_desc l) = filter (tied v) l.
Proof.
  induction l as [|r l IH]; [reflexivity|].
  cbn [sort_desc fold_right]. fold (sort_desc l).
  rewrite insert_desc_tied. cbn [filter]. now rewrite IH.
Qed.

Lemma leb_antisym (x y : float) :
  (x <=? y)%float = true -> (y <=? x)%float = true -> (x =? y)%float = true.
Proof.
  rewrite !leb_spec, eqb_spec. unfold SFleb, SFeqb.
  rewrite (SFcompare_antisym (Prim2SF x) (Prim2SF y)).
  destruct (SFcompare (Prim2SF x) (Prim2SF y)) as [[]|]; simpl; congruence.
Qed.

(** On scores that are numbers there is one sorted list that keeps the
    entries of equal score in their order. *)
Lemma stable_sorted_unique l1 l2 :
  no_nan l1 -> no_nan l2 ->
  StronglySorted ge_score l1 -> StronglySorted ge_score l2 ->
  (forall v, filter (tied v) l1 = filter (tied v) l2) ->
  l1 = l2.
Proof.
  revert l2. induction l1 as [|a l1 IH]; intros l2 Hn1 Hn2 Hs1 Hs2 Hf.
  - destruct l2 as [|b l2]; [reflexivity|].
    specialize (Hf (score b)). cbn [filter] in Hf.
    inversion Hn2 as [|? ? Hb _]; subst.
    unfold tied at 1 in Hf. rewrite (is_nan_eqb _ Hb) in Hf. discriminate.
  - inversion Hn1 as [|? ? Ha Hn1']; subst.
    assert (Haa : tied (score a) a = true) by (unfold tied; now apply is_nan_eqb).
    destruct l2 as [|b l2].
    { specialize (Hf (score a)). cbn [filter] in Hf.
      rewrite Haa in Hf. discriminate. }
    inversion Hn2 as [|? ? Hb Hn2']; subst.
    assert (Hbb : tied (score b) b = true) by (unfold tied; now apply is_nan_eqb).
    inversion Hs1 as [|? ? Hs1' Hall1]; subst.
    inversion Hs2 as [|? ? Hs2' Hall2]; subst.
    assert (Hab : (score a <=? score b)%float = true).
    { assert (Hin : In a (filter (tied (score a)) (b :: l2))).
      { rewrite <- Hf. cbn [filter]. rewrite Haa. now left. }
      apply filter_In in Hin as [[E|Hin] _].
      - rewrite E. apply eqb_leb, is_nan_eqb, Ha.
      - rewrite Forall_forall in Hall2. exact (Hall2 a Hin). }
    assert (Hba : (score b <=? score a)%float = true).
    { assert (Hin : In b (filter (tied (score b)) (a :: l1))).
      { rewrite Hf. cbn [filter]. rewrite Hbb. now left. }
      apply filter_In in Hin as [[E|Hin] _].
      - rewrite E. apply eqb_leb, is_nan_eqb, Hb.
      - rewrite Forall_forall in Hall1. exact (Hall1 b Hin). }
    assert (Heq : a = b).
    { pose proof (Hf (score a)) as E. cbn [filter] in E. rewrite Haa in E.
      assert (Hb' : tied (score a) b = true)
        by (unfold tied; now apply leb_antisym).
      rewrite Hb' in E. now injection E. }
    subst b. f_equal. apply IH; try assumption.
    intros v. specialize (Hf v). cbn [filter] in Hf.
    destruct (tied v a); [now injection Hf | exact Hf].
Qed.

(** [list.sort] is a stable sort.  Whatever way it takes, the list it
    leaves for scores that are numbers is [sort_desc l]: a rearrangement
    of [l] by decreasing score in which the entries of equal score are in
    the order they had in [l]. *)
Lemma sort_desc_unique l l' :
  no_nan l -> Permutation l' l ->
  StronglySorted ge_score l' ->
  (forall v, filter (tied v) l' = filter (tied v) l) ->
  l' = sort_desc l.
Proof.
  intros Hn Hperm Hs Hf.
  apply stable_sorted_unique.
  - exact (Permutation_Forall (Permutation_sym Hperm) Hn).
  - exact (Permutation_Forall (Permutation_sym (sort_desc_perm l)) Hn).
  - exact Hs.
  - now apply sort_desc_sorted.
  - intros v. now rewrite sort_desc_tied.
Qed.

Lemma dict_as_map {V} (f : string -> V) (d : dict V) :
  (forall k v, In (k, v) d -> v = f k) ->
  d = map (fun k => (k, f k)) (dict_keys d).
Proof.
  induction d as [|[k v] d IH]; intros H; [reflexivity|].
  cbn [dict_keys map fst]. rewrite (H k v (or_introl eq_refl)). f_equal.
  apply IH. intros k' v' Hin. apply H. now right.
Qed.

Lemma ranking_tally st s :
  catalog_wf st = true ->
  tally_results
    (fold_left (apply_answer (QUESTION_STORE st)) (answers s)
               (initial_tally (CHARACTER_STORE st))) = catalog_scores st s.
Proof.
  intros Hwf.
  set (T := fold_left (apply_answer (QUESTION_STORE st)) (answers s)
                      (initial_tally (CHARACTER_STORE st))).
  assert (HkT : dict_keys T = dict_keys (CHARACTER_STORE st))
    by (unfold T; now rewrite fold_apply_answer_keys, initial_tally_keys).
  assert (HwT : dict_wf T = true).
  { unfold dict_wf. rewrite HkT. unfold catalog_wf in Hwf.
    now apply andb_true_iff in Hwf as [Hwf _]. }
  rewrite (dict_as_map (summed_weights (QUESTION_STORE st) (answers s)) T).
  - rewrite HkT. unfold tally_results, catalog_scores. now rewrite map_map.
  - intros k v Hin. pose proof (in_dict_get _ _ _ HwT Hin) as Hg.
    unfold T in Hg. rewrite fold_apply_answer_get in Hg by exact Hwf.
    rewrite initial_tally_get in Hg.
    + cbn in Hg. now injection Hg as <-.
    + rewrite <- HkT. apply (in_map fst) in Hin. exact Hin.
Qed.

(** X18. Ties are broken by the catalog: for a genuine catalog with
    non-negative weights and a session whose answered questions exist, the
    characters that share a score appear in the ranking in the order they
    have in [CHARACTER_STORE]; in particular the first of the ranking is
    the earliest character of the catalog among those with its score. *)
Theorem ties_keep_catalog_order (st : Store) (s : Session) :
  catalog_wf st = true -> weights_nonneg st = true ->
  answers_resolve st s = true ->
  exists results,
    _compute_scores s st = (Return results, st) /\
    (forall v, filter (tied v) results = filter (tied v) (catalog_scores st s)) /\
    (forall t rest, results = t :: rest ->
       hd_error (filter (tied (score t)) (catalog_scores st s)) = Some t).
Proof.
  intros Hwf Hnn Hres. exists (ranking st s).
  assert (Hf : forall v, filter (tied v) (ranking st s) =
                         filter (tied v) (catalog_scores st s)).
  { intros v. unfold ranking. now rewrite sort_desc_tied, ranking_tally. }
  split; [apply compute_scores_ok, answers_resolve_false, Hres|].
  split; [exact Hf|].
  intros t rest Heq. rewrite <- Hf, Heq. cbn [filter].
  assert (Hnum : is_nan (score t) = false).
  { assert (Hall : no_nan (ranking st s)).
    { unfold ranking.
      apply (Permutation_Forall (Permutation_sym (sort_desc_perm _))).
      apply tally_results_no_nan, fold_apply_answer_nonneg;
        [exact Hnn | apply initial_tally_nonneg]. }
    rewrite Heq in Hall. now inversion Hall. }
  unfold tied at 1. now rewrite (is_nan_eqb _ Hnum).
Qed.

Lemma ties_keep_catalog_order_witness :
  exists results,
    _compute_scores demo_session demo_store = (Return results, demo_store) /\
    map character_id (filter (tied 1%float) results) = ["luke"; "leia"] /\
    hd_error (filter (tied 1%float) (catalog_scores demo_store demo_session)) =
      Some (mkScoreResult "luke" 1%float).
Proof.
  destruct (ties_keep_catalog_order demo_store demo_session)
    as (results & Hrun & Htied & Hfirst);
    [reflexivity | reflexivity | reflexivity |].
  exists results. split; [exact Hrun|]. split.
  - rewrite Htied. reflexivity.
  - assert (E : fst (_compute_scores demo_session demo_store) =
                Return [mkScoreResult "luke" 1%float; mkScoreResult "leia" 1%float;
                        mkScoreResult "vader" 0%float]) by reflexivity.
    rewrite Hrun in E. injection E as E.
    exact (Hfirst _ _ E).
Defined.

(** X19. With non-negative weights, every score of the result of
    [compute_match] is non-negative and none exceeds the score of the top
    match; so the character is attached exactly when some score is
    positive. *)
Theorem top_match_is_maximal (now stamp : Z) (sid : string) (st : Store)
    (s : Session) :
  dict_get sid (SESSION_STORE st) = Some s -> now <= s_expires_at s ->
  truthy (s_quiz_id s) = true -> answers_resolve st s = true ->
  weights_nonneg st = true ->
  exists m st',
    compute_match now stamp sid st = (Return m, st') /\
    (forall r, In r (scores m) -> (0 <=? score r)%float = true) /\
    (forall t r, top_match m = Some t -> In r (scores m) ->
       (score r <=? score t)%float = true) /\
    (character m <> None <->
     exists r, In r (scores m) /\ (0 <? score r)%float = true).
Proof.
  intros Hs Hle Hq Hres Hnn.
  eexists. eexists. split; [apply (compute_match_ok now stamp sid st s); assumption|].
  cbn [scores top_match character].
  assert (Hpos : forall r, In r (ranking st s) -> (0 <=? score r)%float = true).
  { intros r Hr. unfold ranking in Hr.
    apply (Permutation_in _ (sort_desc_perm _)), in_tally_results in Hr.
    assert (Ht : tally_nonneg
              (fold_left (apply_answer (QUESTION_STORE st)) (answers s)
                         (initial_tally (CHARACTER_STORE st))))
      by (apply fold_apply_answer_nonneg; [exact Hnn | apply initial_tally_nonneg]).
    unfold tally_nonneg in Ht. rewrite Forall_forall in Ht. exact (Ht _ Hr). }
  assert (Hsorted : StronglySorted ge_score (ranking st s)).
  { apply sort_desc_sorted, tally_results_no_nan, fold_apply_answer_nonneg;
      [exact Hnn | apply initial_tally_nonneg]. }
  assert (Hmax : forall t r, hd_error (ranking st s) = Some t ->
                   In r (ranking st s) -> (score r <=? score t)%float = true).
  { intros t r Ht Hr. destruct (ranking st s) as [|t0 l]; [discriminate|].
    injection Ht as ->. inversion Hsorted as [|? ? _ Hall]; subst.
    destruct Hr as [->|Hr].
    - apply eqb_leb, is_nan_eqb. eapply leb_is_nan_r. apply (Hpos r). now left.
    - rewrite Forall_forall in Hall. exact (Hall _ Hr). }
  split; [exact Hpos|]. split; [exact Hmax|].
  unfold resolved. split.
  - destruct (hd_error (ranking st s)) as [t|] eqn:Ht; [|congruence].
    destruct (0 <? score t)%float eqn:Hp; [|congruence].
    intros _. exists t. split; [now apply hd_error_in | exact Hp].
  - intros (r & Hr & Hp).
    destruct (hd_error (ranking st s)) as [t|] eqn:Ht.
    + assert (Hle' : (score r <=? score t)%float = true) by (now apply Hmax).
      assert (Hpt : (0 <? score t)%float = true).
      { destruct (0 <? score t)%float eqn:E; [reflexivity|].
        assert (Hz : (score t <=? 0)%float = true).
        { apply not_ltb_leb; [reflexivity | | exact E].
          apply (leb_is_nan_r (score t)). apply (Hmax t t eq_refl), hd_error_in, Ht. }
        pose proof (leb_trans _ _ _ Hle' Hz) as Hr0.
        pose proof (ltb_leb _ _ Hp) as H0r.
        exfalso. clear - Hp Hr0.
        rewrite ltb_spec in Hp. rewrite leb_spec in Hr0.
        unfold SFltb in Hp. unfold SFleb in Hr0.
        rewrite (SFcompare_antisym (Prim2SF 0%float) (Prim2SF (score r))) in Hr0.
        destruct (SFcompare (Prim2SF 0%float) (Prim2SF (score r))) as [[]|];
          simpl in *; discriminate. }
      rewrite Hpt.
      destruct (dict_get_keys _ _ (ranking_ids st s t (hd_error_in _ _ Ht))) as [c ->].
      discriminate.
    + destruct (ranking st s); [destruct Hr | discriminate].
Qed.

Lemma top_match_is_maximal_witness :
  exists m st',
    compute_match 3 3 "s1" demo_store = (Return m, st') /\
    (forall r, In r (scores m) ->
       (score r <=? score (mkScoreResult "luke" 1%float))%float = true) /\
    character m <> None.
Proof.
  destruct (top_match_is_maximal 3 3 "s1" demo_store demo_session)
    as (m & st' & Hrun & _ & Hmax & Hchar);
    [reflexivity | simpl; lia | reflexivity | reflexivity | reflexivity |].
  assert (E : fst (compute_match 3 3 "s1" demo_store) =
              Return (mkMatchResult "s1" "default"
                        (Some (mkScoreResult "luke" 1%float)) (scores m)
                        (character m) (portrait_url m) (m_created_at m))).
  { rewrite Hrun. cbn [fst]. f_equal.
    assert (E0 : top_match m = Some (mkScoreResult "luke" 1%float) /\
                 m_session_id m = "s1" /\ m_quiz_id m = "default").
    { apply (f_equal fst) in Hrun. vm_compute in Hrun. injection Hrun as <-.
      now repeat split. }
    destruct E0 as (E1 & E2 & E3). destruct m. cbn in *. now subst. }
  assert (Ht : top_match m = Some (mkScoreResult "luke" 1%float)).
  { rewrite Hrun in E. cbn [fst] in E. injection E as E. now rewrite E. }
  exists m, st'. split; [exact Hrun|]. split.
  - intros r Hr. exact (Hmax _ r Ht Hr).
  - apply Hchar. exists (mkScoreResult "luke" 1%float). split; [|reflexivity].
    apply hd_error_in. destruct (scores m) as [|a l] eqn:Hsc.
    + apply (f_equal fst) in Hrun. vm_compute in Hrun. injection Hrun as <-.
      discriminate Hsc.
    + apply (f_equal fst) in Hrun. vm_compute in Hrun. injection Hrun as <-.
      cbn in Hsc. injection Hsc as <- _. reflexivity.
Defined.

(** ** Quizzes are not checked against the questions *)

Lemma admin_update_quiz_run ADMIN_TOKEN stamp qzid payload st :
  admin_update_quiz ADMIN_TOKEN stamp qzid payload ADMIN_TOKEN st =
    match dict_get qzid (QUIZ_STORE st) with
    | None => (Raise (not_found "Quiz not found"), st)
    | Some z =>
        (Return (updated_quiz stamp payload z),
         set_QUIZ_STORE (dict_set qzid (updated_quiz stamp payload z)) st)
    end.
Proof.
  unfold admin_update_quiz, bind at 1. rewrite require_admin_ok.
  unfold bind at 1, _get_quiz_or_404, bind, gets. cbv beta iota.
  destruct (dict_get qzid (QUIZ_STORE st)) as [z|]; [|reflexivity].
  cbv beta iota. unfold ret at 1. cbv beta iota zeta. unfold updated_quiz.
  destruct (qzu_title payload), (qzu_description payload),
    (qzu_question_ids payload); reflexivity.
Qed.

Lemma get_quiz_questions_missing qzid quiz st :
  dict_get qzid (QUIZ_STORE st) = Some quiz ->
  (exists qid, In qid (qz_question_ids quiz) /\
               dict_get qid (QUESTION_STORE st) = None) ->
  get_quiz_questions qzid st = (Raise (not_found "Question not found"), st).
Proof.
  intros Hz Hmiss.
  unfold get_quiz_questions, bind at 1, _get_quiz_or_404, bind, gets.
  cbv beta iota. rewrite Hz. cbv beta iota. unfold ret at 1.
  now apply quiz_questions_loop_missing.
Qed.

(** X20. The question identifiers of a quiz are not checked when the quiz
    is created or updated: a request that names a question absent from
    [QUESTION_STORE] is accepted and the quiz is served by [get_quiz], but
    [get_quiz_questions] then ends with 404 "Question not found".  An
    update keeps the identifier and the creation time of the quiz and
    always sets its [updated_at], also when it gives no field. *)
Theorem quiz_references_unchecked (ADMIN_TOKEN : string) (st : Store) :
  (forall uuid stamp1 stamp2 payload,
     (exists qid, In qid (qzc_question_ids payload) /\
                  dict_get qid (QUESTION_STORE st) = None) ->
     exists quiz st',
       admin_create_quiz ADMIN_TOKEN uuid stamp1 stamp2 payload ADMIN_TOKEN st =
         (Return quiz, st') /\
       get_quiz uuid st' = (Return quiz, st') /\
       get_quiz_questions uuid st' =
         (Raise (not_found "Question not found"), st')) /\
  (forall stamp qzid payload z,
     dict_get qzid (QUIZ_STORE st) = Some z ->
     exists st',
       admin_update_quiz ADMIN_TOKEN stamp qzid payload ADMIN_TOKEN st =
         (Return (updated_quiz stamp payload z), st') /\
       get_quiz qzid st' = (Return (updated_quiz stamp payload z), st') /\
       qz_id (updated_quiz stamp payload z) = qz_id z /\
       qz_created_at (updated_quiz stamp payload z) = qz_created_at z /\
       qz_updated_at (updated_quiz stamp payload z) = stamp /\
       (forall ids,
          qzu_question_ids payload = Some ids ->
          (exists qid, In qid ids /\ dict_get qid (QUESTION_STORE st) = None) ->
          get_quiz_questions qzid st' =
            (Raise (not_found "Question not found"), st'))) /\
  (forall stamp qzid payload,
     dict_get qzid (QUIZ_STORE st) = None ->
     admin_update_quiz ADMIN_TOKEN stamp qzid payload ADMIN_TOKEN st =
       (Raise (not_found "Quiz not found"), st)).
Proof.
  split; [|split].
  - intros uuid stamp1 stamp2 payload Hmiss.
    eexists. eexists. split.
    + unfold admin_create_quiz, bind at 1. rewrite require_admin_ok. reflexivity.
    + assert (Hz : forall quiz,
                dict_get uuid (QUIZ_STORE (set_QUIZ_STORE (dict_set uuid quiz) st)) =
                Some quiz)
        by (intros quiz; cbn [QUIZ_STORE set_QUIZ_STORE]; apply dict_get_set_same).
      split.
      * unfold get_quiz, _get_quiz_or_404, bind, gets, modify. cbv beta iota.
        cbn [snd]. now rewrite Hz.
      * unfold bind, modify. cbv beta iota. cbn [snd].
        eapply get_quiz_questions_missing; [apply Hz | exact Hmiss].
  - intros stamp qzid payload z Hz. eexists.
    split; [rewrite admin_update_quiz_run, Hz; reflexivity|].
    assert (Hz' : dict_get qzid
              (QUIZ_STORE (set_QUIZ_STORE (dict_set qzid (updated_quiz stamp payload z)) st))
              = Some (updated_quiz stamp payload z))
      by (cbn [QUIZ_STORE set_QUIZ_STORE]; apply dict_get_set_same).
    split.
    + unfold get_quiz, _get_quiz_or_404, bind, gets. cbv beta iota. now rewrite Hz'.
    + do 3 (split; [reflexivity|]).
      intros ids Hids Hmiss.
      eapply get_quiz_questions_missing; [exact Hz'|].
      unfold updated_quiz. cbn [qz_question_ids]. rewrite Hids. exact Hmiss.
  - intros stamp qzid payload Hz. now rewrite admin_update_quiz_run, Hz.
Qed.

Lemma quiz_references_unchecked_witness :
  (exists quiz st',
     admin_create_quiz "dev-admin-token" "9f" 5 6
       (mkQuizCreate "Weekly" None ["q2"; "q7"]) "dev-admin-token" demo_store =
       (Return quiz, st') /\
     get_quiz "9f" st' = (Return quiz, st') /\
     get_quiz_questions "9f" st' = (Raise (not_found "Question not found"), st')) /\
  (exists z st',
     admin_update_quiz "dev-admin-token" 8 "default" (mkQuizUpdate None None None)
       "dev-admin-token" demo_store = (Return z, st') /\
     qz_created_at z = 0 /\ qz_updated_at z = 8 /\
     qz_question_ids z = ["q1"; "q2"]) /\
  admin_update_quiz "dev-admin-token" 8 "weekly" (mkQuizUpdate None None None)
    "dev-admin-token" demo_store = (Raise (not_found "Quiz not found"), demo_store).
Proof.
  destruct (quiz_references_unchecked "dev-admin-token" demo_store)
    as (Hcreate & Hupdate & Hnone).
  split; [|split].
  - destruct (Hcreate "9f" 5 6 (mkQuizCreate "Weekly" None ["q2"; "q7"]))
      as (quiz & st' & H1 & H2 & H3).
    { exists "q7". split; [right; now left | reflexivity]. }
    exists quiz, st'. exact (conj H1 (conj H2 H3)).
  - destruct (Hupdate 8 "default" (mkQuizUpdate None None None)
                (mkQuiz "default" "Which Star Wars Character Are You?"
                   (Some "Answer questions to find your Star Wars alter ego!")
                   ["q1"; "q2"] 0 0) eq_refl)
      as (st' & Hrun & _ & _ & Hc & Hu & _).
    eexists. exists st'. split; [exact Hrun|].
    split; [exact Hc|]. split; [exact Hu | reflexivity].
  - apply Hnone. reflexivity.
Defined.

(** ** Answers under several quizzes *)

Lemma existsb_missing_set qs items qid cid :
  dict_get qid qs <> None ->
  existsb (question_missing qs) items = false ->
  existsb (question_missing qs) (dict_set qid cid items) = false.
Proof.
  intros Hq. induction items as [|[k c] items IH]; simpl.
  - intros _. unfold question_missing, dict_mem. simpl.
    destruct (dict_get qid qs); [reflexivity | contradiction].
  - rewrite orb_false_iff. intros [Hk Hrest].
    destruct (String.eqb qid k); simpl; rewrite orb_false_iff.
    + split; [exact Hk | exact Hrest].
    + split; [exact Hk | now apply IH].
Qed.

Lemma valid_submission_question now st p :
  valid_submission now st p = true ->
  dict_get (question_id p) (QUESTION_STORE st) <> None.
Proof.
  unfold valid_submission. rewrite !andb_true_iff. intros [_ H].
  now destruct (dict_get (question_id p) (QUESTION_STORE st)).
Qed.

(** X21. A session is bound to the quiz of its last accepted answer, and
    its answers are kept whatever quiz they were given under: after two
    valid submissions for a session, a match computed next reports the
    quiz of the second and scores the former answers together with both
    new ones. *)
Theorem answers_mix_across_quizzes (now1 now2 now3 stamp : Z)
    (p1 p2 : SubmitAnswerRequest) (st : Store) (s : Session) :
  session_id p2 = session_id p1 ->
  valid_submission now1 st p1 = true -> valid_submission now2 st p2 = true ->
  dict_get (session_id p1) (SESSION_STORE st) = Some s ->
  now3 <= s_expires_at s -> answers_resolve st s = true ->
  quiz_id p2 <> "" ->
  exists m st',
    (submit_answer now1 p1 ;;; submit_answer now2 p2 ;;;
     compute_match now3 stamp (session_id p1)) st = (Return m, st') /\
    m_quiz_id m = quiz_id p2 /\
    _compute_scores
      (set_answers
         (dict_set (question_id p2) (choice_id p2)
            (dict_set (question_id p1) (choice_id p1) (answers s))) s) st =
      (Return (scores m), st).
Proof.
  intros Hsid Hv1 Hv2 Hs Hle Hres Hz.
  set (st1 := set_SESSION_STORE (dict_set (session_id p1) (record_answer p1 s)) st).
  assert (Hs1 : dict_get (session_id p1) (SESSION_STORE st1) =
                Some (record_answer p1 s))
    by (cbn [SESSION_STORE st1 set_SESSION_STORE]; apply dict_get_set_same).
  assert (Hv2' : valid_submission now2 st1 p2 = true).
  { revert Hv2. unfold valid_submission.
    cbn [SESSION_STORE QUIZ_STORE QUESTION_STORE st1 set_SESSION_STORE].
    rewrite Hsid, Hs, dict_get_set_same. exact (fun H => H). }
  set (s2 := record_answer p2 (record_answer p1 s)).
  set (st2 := set_SESSION_STORE (dict_set (session_id p2) s2) st1).
  assert (Hs2 : dict_get (session_id p1) (SESSION_STORE st2) = Some s2)
    by (cbn [SESSION_STORE st2 set_SESSION_STORE]; rewrite Hsid;
        apply dict_get_set_same).
  assert (Hmiss : existsb (question_missing (QUESTION_STORE st))
                    (dict_set (question_id p2) (choice_id p2)
                       (dict_set (question_id p1) (choice_id p1) (answers s))) = false).
  { apply existsb_missing_set; [now apply (valid_submission_question now2)|].
    apply existsb_missing_set; [now apply (valid_submission_question now1)|].
    now apply answers_resolve_false. }
  assert (Hq2 : truthy (s_quiz_id s2) = true).
  { cbn. destruct (String.eqb_spec (quiz_id p2) ""); [contradiction | reflexivity]. }
  pose proof (compute_match_ok now3 stamp (session_id p1) st2 s2 Hs2 Hle Hq2) as E.
  eexists. eexists. split.
  - rewrite (bind_return _ _ _ _ _ (submit_answer_ok now1 st p1 s Hv1 Hs)).
    fold st1.
    assert (Hs1' : dict_get (session_id p2) (SESSION_STORE st1) =
                   Some (record_answer p1 s)) by (rewrite Hsid; exact Hs1).
    rewrite (bind_return _ _ _ _ _
               (submit_answer_ok now2 st1 p2 (record_answer p1 s) Hv2' Hs1')).
    apply E. unfold answers_resolve. cbn [QUESTION_STORE st2 st1 set_SESSION_STORE].
    cbn [answers s2 record_answer set_scored set_quiz_id set_answer].
    now rewrite Hmiss.
  - split; [reflexivity|].
    cbn [scores]. rewrite compute_scores_ok by exact Hmiss. reflexivity.
Qed.

Lemma answers_mix_across_quizzes_witness :
  exists st0 m st',
    admin_create_quiz "dev-admin-token" "9f" 5 6
      (mkQuizCreate "Weekly" None ["q2"]) "dev-admin-token" fresh_store =
      (Return (mkQuiz "9f" "Weekly" None ["q2"] 5 6), st0) /\
    (submit_answer 7 (mkSubmitAnswerRequest "s1" "default" "q1" "c1") ;;;
     submit_answer 8 (mkSubmitAnswerRequest "s1" "9f" "q2" "c6") ;;;
     compute_match 9 9 "s1") st0 = (Return m, st') /\
    m_quiz_id m = "9f" /\
    fst (_compute_scores demo_session st0) = Return (scores m).
Proof.
  destruct (admin_create_quiz "dev-admin-token" "9f" 5 6
              (mkQuizCreate "Weekly" None ["q2"]) "dev-admin-token" fresh_store)
    as [o st0] eqn:Hc.
  assert (Ho : o = Return (mkQuiz "9f" "Weekly" None ["q2"] 5 6))
    by (apply (f_equal fst) in Hc; vm_compute in Hc; now subst o).
  assert (Hst : st0 = snd (admin_create_quiz "dev-admin-token" "9f" 5 6
                  (mkQuizCreate "Weekly" None ["q2"]) "dev-admin-token" fresh_store))
    by now rewrite Hc.
  subst o.
  destruct (answers_mix_across_quizzes 7 8 9 9
              (mkSubmitAnswerRequest "s1" "default" "q1" "c1")
              (mkSubmitAnswerRequest "s1" "9f" "q2" "c6") st0 fresh_session)
    as (m & st' & Hrun & Hquiz & Hscores);
    try (rewrite Hst; reflexivity); try reflexivity; try (simpl; lia);
    try discriminate.
  exists st0, m, st'. split; [reflexivity|]. split; [exact Hrun|].
  split; [exact Hquiz|].
  exact (f_equal fst Hscores).
Defined.

(** ** New entries of the catalog *)

(** X22. A character created by the administrator under a fresh
    identifier, the catalog being genuine, enters the ranking of every
    session whose answered questions exist, with the sum of the weights
    the answered choices give to that identifier, and changes the score of
    no other character. *)
Theorem created_character_is_ranked (ADMIN_TOKEN uuid_hex : string)
    (payload : CharacterCreate) (st : Store) (s : Session) :
  catalog_wf st = true ->
  dict_get uuid_hex (CHARACTER_STORE st) = None ->
  answers_resolve st s = true ->
  exists c st' before after,
    admin_create_character ADMIN_TOKEN uuid_hex payload ADMIN_TOKEN st =
      (Return c, st') /\
    c_id c = uuid_hex /\
    _get_character_or_404 uuid_hex st' = (Return c, st') /\
    _compute_scores s st = (Return before, st) /\
    _compute_scores s st' = (Return after, st') /\
    score_of uuid_hex before = None /\
    score_of uuid_hex after =
      Some (summed_weights (QUESTION_STORE st) (answers s) uuid_hex) /\
    (forall cid, cid <> uuid_hex -> score_of cid after = score_of cid before).
Proof.
  intros Hwf Hnew Hres.
  set (c := mkCharacter uuid_hex (cc_name payload) (cc_description payload)
              (cc_image_url payload) (cc_traits payload)).
  set (st' := set_CHARACTER_STORE (dict_set uuid_hex c) st).
  assert (Hwf' : catalog_wf st' = true).
  { unfold catalog_wf in *. apply andb_true_iff in Hwf as [H1 H2].
    apply andb_true_iff. split; [|exact H2].
    cbn [CHARACTER_STORE st' set_CHARACTER_STORE]. now apply dict_wf_set. }
  exists c, st', (ranking st s), (ranking st' s).
  split.
  { unfold admin_create_character, bind at 1. rewrite require_admin_ok. reflexivity. }
  split; [reflexivity|]. split.
  { unfold _get_character_or_404, bind, gets. cbv beta iota.
    cbn [CHARACTER_STORE st' set_CHARACTER_STORE]. now rewrite dict_get_set_same. }
  split; [apply compute_scores_ok, answers_resolve_false, Hres|].
  split; [apply compute_scores_ok, answers_resolve_false, Hres|].
  split.
  { rewrite score_of_ranking_sum by exact Hwf. unfold dict_mem. now rewrite Hnew. }
  split.
  { rewrite score_of_ranking_sum by exact Hwf'. unfold dict_mem.
    cbn [CHARACTER_STORE QUESTION_STORE st' set_CHARACTER_STORE].
    now rewrite dict_get_set_same. }
  intros cid Hne. rewrite !score_of_ranking_sum by assumption. unfold dict_mem.
  cbn [CHARACTER_STORE QUESTION_STORE st' set_CHARACTER_STORE].
  now rewrite dict_get_set_other.
Qed.

Lemma created_character_is_ranked_witness :
  exists c st' after,
    admin_create_character "dev-admin-token" "4b"
      (mkCharacterCreate "Yoda" "A wise Jedi Master." None [])
      "dev-admin-token" demo_store = (Return c, st') /\
    _compute_scores demo_session st' = (Return after, st') /\
    score_of "4b" after = Some 0%float /\
    score_of "luke" after = Some 1%float.
Proof.
  destruct (created_character_is_ranked "dev-admin-token" "4b"
              (mkCharacterCreate "Yoda" "A wise Jedi Master." None [])
              demo_store demo_session)
    as (c & st' & before & after & Hrun & _ & _ & Hb & Ha & _ & Hnew & Hold);
    [reflexivity | reflexivity | reflexivity |].
  assert (E : fst (_compute_scores demo_session demo_store) =
              Return [mkScoreResult "luke" 1%float; mkScoreResult "leia" 1%float;
                      mkScoreResult "vader" 0%float]) by reflexivity.
  rewrite Hb in E. injection E as E.
  exists c, st', after. split; [exact Hrun|]. split; [exact Ha|]. split.
  - rewrite Hnew. reflexivity.
  - rewrite (Hold "luke"), E; [reflexivity | discriminate].
Defined.

(** X23. A question created by the administrator can be answered at once:
    for a live session and an existing quiz, [submit_answer] accepts each
    of the choices of the request and records it, and refuses any other
    choice with 400 "Invalid choice for question"; the question is stored
    under the identifier drawn for it, with the text, choices and order of
    the request. *)
Theorem created_question_is_answerable (ADMIN_TOKEN uuid_hex : string)
    (payload : QuestionCreate) (now : Z) (p : SubmitAnswerRequest)
    (st : Store) (s : Session) :
  question_id p = uuid_hex ->
  dict_get (session_id p) (SESSION_STORE st) = Some s -> now <= s_expires_at s ->
  dict_get (quiz_id p) (QUIZ_STORE st) <> None ->
  exists q st1,
    admin_create_question ADMIN_TOKEN uuid_hex payload ADMIN_TOKEN st =
      (Return q, st1) /\
    q = mkQuestion uuid_hex (qc_text payload) (qc_choices payload) (qc_order payload) /\
    _get_question_or_404 uuid_hex st1 = (Return q, st1) /\
    (In (choice_id p) (map ch_id (qc_choices payload)) ->
     exists st2,
       submit_answer now p st1 = (Return (submit_ok p), st2) /\
       dict_get (session_id p) (SESSION_STORE st2) = Some (record_answer p s) /\
       dict_get uuid_hex (answers (record_answer p s)) = Some (choice_id p)) /\
    (~ In (choice_id p) (map ch_id (qc_choices payload)) ->
     submit_answer now p st1 =
       (Raise (bad_request "Invalid choice for question"), st1)).
Proof.
  intros Hq Hs Hle Hz.
  set (q := mkQuestion uuid_hex (qc_text payload) (qc_choices payload)
              (qc_order payload)).
  set (st1 := set_QUESTION_STORE (dict_set uuid_hex q) st).
  assert (Hq1 : dict_get (question_id p) (QUESTION_STORE st1) = Some q)
    by (rewrite Hq; cbn [QUESTION_STORE st1 set_QUESTION_STORE];
        apply dict_get_set_same).
  assert (Hrun : submit_answer now p st1 =
            if existsb (String.eqb (choice_id p)) (map ch_id (qc_choices payload))
            then (Return (submit_ok p),
                  set_SESSION_STORE (dict_set (session_id p) (record_answer p s)) st1)
            else (Raise (bad_request "Invalid choice for question"), st1)).
  { rewrite submit_answer_unfold. rewrite Hq1.
    cbn [SESSION_STORE QUIZ_STORE st1 set_QUESTION_STORE]. rewrite Hs.
    destruct (Z.gtb_spec now (s_expires_at s)); [lia|].
    destruct (dict_get (quiz_id p) (QUIZ_STORE st)); [|contradiction].
    reflexivity. }
  exists q, st1. split.
  { unfold admin_create_question, bind at 1. rewrite require_admin_ok. reflexivity. }
  split; [reflexivity|]. split.
  { unfold _get_question_or_404, bind, gets. cbv beta iota.
    rewrite <- Hq. now rewrite Hq1. }
  split.
  - intros Hin. apply existsb_eqb_in in Hin. rewrite Hin in Hrun.
    eexists. split; [exact Hrun|]. split.
    + cbn [SESSION_STORE set_SESSION_STORE]. apply dict_get_set_same.
    + rewrite <- Hq. unfold record_answer.
      cbn [answers set_scored set_quiz_id set_answer]. apply dict_get_set_same.
  - intros Hout. rewrite Hrun.
    destruct (existsb _ _) eqn:E; [|reflexivity].
    apply existsb_eqb_in in E. contradiction.
Qed.

Lemma created_question_is_answerable_witness :
  exists q st1 st2,
    admin_create_question "dev-admin-token" "7d"
      (mkQuestionCreate "Pick a virtue:"
         [mkChoice "c7" "Patience" [("leia", 0.5%float)]] 3)
      "dev-admin-token" demo_store = (Return q, st1) /\
    submit_answer 3 (mkSubmitAnswerRequest "s1" "default" "7d" "c7") st1 =
      (Return [("status", "ok"); ("session_id", "s1")], st2) /\
    submit_answer 3 (mkSubmitAnswerRequest "s1" "default" "7d" "c1") st1 =
      (Raise (bad_request "Invalid choice for question"), st1).
Proof.
  destruct (created_question_is_answerable "dev-admin-token" "7d"
              (mkQuestionCreate "Pick a virtue:"
                 [mkChoice "c7" "Patience" [("leia", 0.5%float)]] 3)
              3 (mkSubmitAnswerRequest "s1" "default" "7d" "c7")
              demo_store demo_session)
    as (q & st1 & Hrun & _ & _ & Hgood & _);
    [reflexivity | reflexivity | simpl; lia | vm_compute; discriminate |].
  destruct (created_question_is_answerable "dev-admin-token" "7d"
              (mkQuestionCreate "Pick a virtue:"
                 [mkChoice "c7" "Patience" [("leia", 0.5%float)]] 3)
              3 (mkSubmitAnswerRequest "s1" "default" "7d" "c1")
              demo_store demo_session)
    as (q' & st1' & Hrun' & _ & _ & _ & Hbad);
    [reflexivity | reflexivity | simpl; lia | vm_compute; discriminate |].
  rewrite Hrun in Hrun'. injection Hrun' as <- <-.
  destruct Hgood as (st2 & Hsub & _); [now left|].
  exists q, st1, st2. split; [exact Hrun|]. split; [exact Hsub|].
  apply Hbad. simpl. intros [H|[]]. discriminate.
Defined.
